(** * The backup engine of fix_project.py (class BackupManager)

    A shallow embedding of [BackupManager] (src/fix_project.py, lines 374-463)
    over a model of the file system, of [pathlib] paths and of the clock, and
    the properties of capture, restore and the retention sweep; with it, the
    methods of [ProjectConfigManager] that capture a file of the root before
    they rewrite it (lines 675-823) and the check of the environment
    (lines 347-372).

    Modelling conventions.
    - A [pathlib] path is its anchor flag and its list of components (POSIX
      flavour, no [..] component, no symbolic link).
    - The file system is a finite map from absolute component lists to nodes;
      a node is a regular file (bytes and modification time) or a directory
      (modification time).
    - Times are integers counted in microseconds, the resolution of
      [datetime]; one second is [1000000].
    - Every call of [datetime.now()] reads the next value of a clock oracle
      carried by the state.
    - Python exceptions are results [Raise e]; the state reached when the
      exception is raised is kept.
    - What [print] writes is not modelled; the expressions it evaluates
      are, where they can raise.
    - The modification time of a directory is part of the state; the
      operating system's updates of it are not modelled. *)

From stdpp Require Import gmap strings list sorting.
From Stdlib Require Import ZArith Ascii String DecimalString Lia.

Open Scope string_scope.
Open Scope Z_scope.
Open Scope list_scope.

(** ** Strings: [str.split(sep)[0]] and the glob [*sep*] *)

Module Str.

(** [s.startswith(pre)] *)
Fixpoint starts_with (pre s : string) : bool :=
  match pre, s with
  | EmptyString, _ => true
  | String a pre', String b s' => Ascii.eqb a b && starts_with pre' s'
  | String _ _, EmptyString => false
  end.

(** [prefix_before sep s] is [s.split(sep)[0]]: the part of [s] before the
    first occurrence of [sep], all of [s] when [sep] does not occur. *)
Fixpoint prefix_before (sep s : string) : string :=
  if starts_with sep s then EmptyString
  else match s with
       | EmptyString => EmptyString
       | String c s' => String c (prefix_before sep s')
       end.

(** [contains sep s]: [sep] occurs in [s]; this is [fnmatch(s, "*" + sep + "*")]
    for a [sep] without wildcard characters. *)
Fixpoint contains (sep s : string) : bool :=
  if starts_with sep s then true
  else match s with
       | EmptyString => false
       | String _ s' => contains sep s'
       end.

End Str.

(** ** pathlib.PurePath *)

Record Path := mkPath { anchored : bool; parts : list string }.

#[global] Instance Path_eq_dec : EqDecision Path.
Proof. solve_decision. Defined.

(** [Path.name]: the last component, the empty string when there is none. *)
Definition path_name (p : Path) : string := List.last (parts p) "".

(** [Path.parent]: the path without its last component; a path without
    components is its own parent. *)
Definition path_parent (p : Path) : Path :=
  mkPath (anchored p) (removelast (parts p)).

(** [p / q] for a path [q]: an anchored [q] replaces [p]. *)
Definition path_join (p q : Path) : Path :=
  if anchored q then q else mkPath (anchored p) (parts p ++ parts q).

(** [p / s] for a string [s] that holds no separator: one more component,
    none when [s] is empty. *)
Definition path_join_str (p : Path) (s : string) : Path :=
  if String.eqb s "" then p else mkPath (anchored p) (parts p ++ [s]).

Fixpoint strip_prefix (pre l : list string) : option (list string) :=
  match pre, l with
  | [], _ => Some l
  | a :: pre', b :: l' => if String.eqb a b then strip_prefix pre' l' else None
  | _ :: _, [] => None
  end.

(** [p.relative_to(other)]: purely lexical; [None] stands for [ValueError]. *)
Definition relative_to (p other : Path) : option Path :=
  if Bool.eqb (anchored p) (anchored other)
  then mkPath false <$> strip_prefix (parts other) (parts p)
  else None.

(** ** datetime *)

Record datetime := mkDatetime {
  year : Z; month : Z; day : Z;
  hour : Z; minute : Z; second : Z; microsecond : Z }.

Definition digit (n : Z) : ascii := ascii_of_N (Z.to_N (48 + n mod 10)).

Definition pad2 (n : Z) (rest : string) : string :=
  String (digit (n / 10)) (String (digit n) rest).

Definition pad4 (n : Z) (rest : string) : string :=
  String (digit (n / 1000)) (String (digit (n / 100)) (pad2 n rest)).

Definition pad6 (n : Z) (rest : string) : string :=
  String (digit (n / 100000)) (String (digit (n / 10000)) (pad4 n rest)).

(** [d.strftime("%Y%m%d_%H%M%S")] *)
Definition strftime (d : datetime) : string :=
  pad4 (year d) (pad2 (month d) (pad2 (day d) (String "_"
    (pad2 (hour d) (pad2 (minute d) (pad2 (second d) "")))))).

(** [d.isoformat()]: the fraction is printed only when it is not zero. *)
Definition isoformat (d : datetime) : string :=
  pad4 (year d) (String "-" (pad2 (month d) (String "-" (pad2 (day d) (String "T"
    (pad2 (hour d) (String ":" (pad2 (minute d) (String ":" (pad2 (second d)
      (if microsecond d =? 0 then ""
       else String "." (pad6 (microsecond d) "")))))))))))).

Definition is_leap (y : Z) : bool :=
  (y mod 4 =? 0) && (negb (y mod 100 =? 0) || (y mod 400 =? 0)).

(** The proleptic Gregorian ordinal of [datetime.toordinal]. *)
Definition days_before_year (y : Z) : Z :=
  let y := y - 1 in y * 365 + y / 4 - y / 100 + y / 400.

Definition days_in_month (y m : Z) : Z :=
  if m =? 2 then (if is_leap y then 29 else 28)
  else if (m =? 4) || (m =? 6) || (m =? 9) || (m =? 11) then 30 else 31.

Definition days_before_month (y m : Z) : Z :=
  foldr (fun k acc => days_in_month y (Z.of_nat k) + acc) 0
        (seq 1 (Z.to_nat (m - 1))).

Definition toordinal (d : datetime) : Z :=
  days_before_year (year d) + days_before_month (year d) (month d) + day d.

(** Whole seconds of the naive datetime since 0001-01-01T00:00:00 minus a day. *)
Definition total_seconds (d : datetime) : Z :=
  ((toordinal d * 24 + hour d) * 60 + minute d) * 60 + second d.

Definition us_per_second : Z := 1000000.

Definition total_microseconds (d : datetime) : Z :=
  total_seconds d * us_per_second + microsecond d.

(** [d.timestamp()], in microseconds, for a local zone at offset zero:
    1970-01-01 has ordinal 719163. *)
Definition timestamp (d : datetime) : Z :=
  total_microseconds d - 719163 * 24 * 60 * 60 * us_per_second.

(** The fields of a [datetime] object lie in these ranges. *)
Definition valid_datetime (d : datetime) : Prop :=
  1 <= year d <= 9999 /\ 1 <= month d <= 12 /\ 1 <= day d <= 31 /\
  0 <= hour d <= 23 /\ 0 <= minute d <= 59 /\ 0 <= second d <= 59 /\
  0 <= microsecond d <= 999999.

(** [str(p)] *)
Definition path_str (p : Path) : string :=
  match anchored p, parts p with
  | false, [] => "."
  | false, ps => String.concat "/" ps
  | true, ps => "/" +:+ String.concat "/" ps
  end.

(** ** Exceptions, the file system and the state *)

Inductive exn :=
| ValueError | FileNotFoundError | FileExistsError | NotADirectoryError
| IsADirectoryError | SameFileError | JSONDecodeError | DirectoryNotEmpty.

Inductive result (A : Type) := Ok (a : A) | Raise (e : exn).
Arguments Ok {A} a.
Arguments Raise {A} e.

Inductive node := File (data : string) (mtime : Z) | Dir (mtime : Z).

Definition is_file (n : option node) : bool :=
  match n with Some (File _ _) => true | _ => false end.

Definition is_dir (n : option node) : bool :=
  match n with Some (Dir _) => true | _ => false end.

Abbreviation FS := (gmap (list string) node).

Record world := mkWorld {
  cwd : list string;          (* the working directory, absolute *)
  fs : FS;
  clock : nat -> datetime;    (* the successive readings of the clock *)
  ticks : nat                 (* how many readings were made *)
}.

Definition set_fs (w : world) (m : FS) : world :=
  mkWorld (cwd w) m (clock w) (ticks w).

(** The monad of the embedding: state, and exceptions that keep the state. *)
Definition M (A : Type) : Type := world -> result A * world.

Definition ret {A} (a : A) : M A := fun w => (Ok a, w).

Definition raise {A} (e : exn) : M A := fun w => (Raise e, w).

Definition bind {A B} (c : M A) (k : A -> M B) : M B :=
  fun w => match c w with
           | (Ok a, w') => k a w'
           | (Raise e, w') => (Raise e, w')
           end.

(** [try: c except: h] with a bare [except]. *)
Definition try_except {A} (c : M A) (h : M A) : M A :=
  fun w => match c w with
           | (Ok a, w') => (Ok a, w')
           | (Raise _, w') => h w'
           end.

Notation "'let*' x ':=' c 'in' k" := (bind c (fun x => k))
  (at level 10, x pattern, c at level 100, k at level 200).
Notation "c ';;' k" := (bind c (fun _ => k))
  (at level 100, k at level 200, right associativity).

(** [for x in l: body(x)] *)
Fixpoint for_each {A} (l : list A) (body : A -> M unit) : M unit :=
  match l with
  | [] => ret tt
  | x :: l' => body x ;; for_each l' body
  end.

Definition of_option {A} (e : exn) (o : option A) : M A :=
  match o with Some a => ret a | None => raise e end.

(** The absolute components a path denotes. *)
Definition abs_key (w : world) (p : Path) : list string :=
  if anchored p then parts p else cwd w ++ parts p.

Definition node_at (w : world) (p : Path) : option node := fs w !! abs_key w p.

(** [datetime.now()] *)
Definition datetime_now : M datetime :=
  fun w => (Ok (clock w (ticks w)),
            mkWorld (cwd w) (fs w) (clock w) (S (ticks w))).

(** The time the operating system stamps on what it writes. *)
Definition os_time (w : world) : Z := timestamp (clock w (ticks w)).

(** [p.exists()] *)
Definition path_exists (p : Path) : M bool :=
  fun w => (Ok (bool_decide (is_Some (node_at w p))), w).

Record stat_result := mkStat { st_size : Z; st_mtime : Z }.

(** [p.stat()]; the size reported for a directory is not used. *)
Definition path_stat (p : Path) : M stat_result :=
  fun w => match node_at w p with
           | Some (File data mt) => (Ok (mkStat (Z.of_nat (String.length data)) mt), w)
           | Some (Dir mt) => (Ok (mkStat 0 mt), w)
           | None => (Raise FileNotFoundError, w)
           end.

(** [p.read_text()] *)
Definition read_text (p : Path) : M string :=
  fun w => match node_at w p with
           | Some (File data _) => (Ok data, w)
           | Some (Dir _) => (Raise IsADirectoryError, w)
           | None => (Raise FileNotFoundError, w)
           end.

(** Opening [k] for writing and storing [data] with time [mt]. *)
Definition store_file (k : list string) (data : string) (mt : Z) (m : FS)
  : result unit * FS :=
  match m !! k with
  | Some (Dir _) => (Raise IsADirectoryError, m)
  | Some (File _ _) => (Ok tt, <[k := File data mt]> m)
  | None =>
    match m !! removelast k with
    | Some (Dir _) => (Ok tt, <[k := File data mt]> m)
    | Some (File _ _) => (Raise NotADirectoryError, m)
    | None => (Raise FileNotFoundError, m)
    end
  end.

Definition lift_fs {A} (f : FS -> result A * FS) : M A :=
  fun w => let '(r, m) := f (fs w) in (r, set_fs w m).

(** [p.write_text(data)] *)
Definition write_text (p : Path) (data : string) : M unit :=
  fun w => lift_fs (store_file (abs_key w p) data (os_time w)) w.

(** [p.mkdir(parents=True, exist_ok=True)] on the reversed components [rk]:
    [os.mkdir] first; when the parent is missing the parents are made, then
    the directory itself. *)
Fixpoint mkdir_rev (mt : Z) (rk : list string) (m : FS) : result unit * FS :=
  match m !! rev rk with
  | Some (Dir _) => (Ok tt, m)
  | Some (File _ _) => (Raise FileExistsError, m)
  | None =>
    match rk with
    | [] => (Raise FileNotFoundError, m)
    | _ :: rparent =>
      match m !! rev rparent with
      | Some (Dir _) => (Ok tt, <[rev rk := Dir mt]> m)
      | Some (File _ _) => (Raise NotADirectoryError, m)
      | None =>
        match mkdir_rev mt rparent m with
        | (Ok _, m') => (Ok tt, <[rev rk := Dir mt]> m')
        | (Raise e, m') => (Raise e, m')
        end
      end
    end
  end.

Definition mkdir_parents (p : Path) : M unit :=
  fun w => lift_fs (mkdir_rev (os_time w) (rev (abs_key w p))) w.

(** [p.mkdir(exist_ok=True)] *)
Definition mkdir_exist_ok (p : Path) : M unit :=
  fun w =>
    let k := abs_key w p in
    match fs w !! k with
    | Some (Dir _) => (Ok tt, w)
    | Some (File _ _) => (Raise FileExistsError, w)
    | None =>
      match fs w !! removelast k with
      | Some (Dir _) => (Ok tt, set_fs w (<[k := Dir (os_time w)]> (fs w)))
      | Some (File _ _) => (Raise NotADirectoryError, w)
      | None => (Raise FileNotFoundError, w)
      end
    end.

(** [shutil.copy2(src, dst)]: a directory [dst] receives the copy under the
    name of [src]; [copyfile] refuses a copy onto itself, opens [src], then
    [dst]; [copystat] gives the copy the modification time of [src]. *)
Definition copy2_key (src dst : list string) (m : FS) : list string :=
  if is_dir (m !! dst) then dst ++ [List.last src ""] else dst.

Definition copy2_fs (src dst : list string) (m : FS) : result unit * FS :=
  let dst' := copy2_key src dst m in
  if bool_decide (src = dst') && bool_decide (is_Some (m !! src))
  then (Raise SameFileError, m)
  else match m !! src with
       | None => (Raise FileNotFoundError, m)
       | Some (Dir _) => (Raise IsADirectoryError, m)
       | Some (File data mt) => store_file dst' data mt m
       end.

Definition copy2 (src dst : Path) : M unit :=
  fun w => lift_fs (copy2_fs (abs_key w src) (abs_key w dst)) w.

(** [p.unlink()] *)
Definition unlink_key (k : list string) : M unit :=
  fun w => match fs w !! k with
           | Some (File _ _) => (Ok tt, set_fs w (delete k (fs w)))
           | Some (Dir _) => (Raise IsADirectoryError, w)
           | None => (Raise FileNotFoundError, w)
           end.

(** [d] has an entry: [any(d.iterdir())]. *)
Definition has_entry (m : FS) (d : list string) : bool :=
  bool_decide (Exists (fun k => removelast k = d /\ k <> []) ((map_to_list m).*1)).

Definition any_iterdir (d : list string) : M bool :=
  fun w => match fs w !! d with
           | Some (Dir _) => (Ok (has_entry (fs w) d), w)
           | Some (File _ _) => (Raise NotADirectoryError, w)
           | None => (Raise FileNotFoundError, w)
           end.

(** [d.rmdir()] *)
Definition rmdir_key (d : list string) : M unit :=
  fun w => match fs w !! d with
           | Some (Dir _) =>
             if has_entry (fs w) d then (Raise DirectoryNotEmpty, w)
             else (Ok tt, set_fs w (delete d (fs w)))
           | Some (File _ _) => (Raise NotADirectoryError, w)
           | None => (Raise FileNotFoundError, w)
           end.

(** The entries below the directory [d], at any depth. *)
Definition below (d k : list string) : bool :=
  bool_decide (d `prefix_of` k /\ d <> k).

Definition descendants (m : FS) (d : list string) : list (list string) :=
  if is_dir (m !! d) then filter (fun k => below d k = true) ((map_to_list m).*1)
  else [].

(** [d.rglob("*" + sep + "*")]: files and directories alike. *)
Definition rglob_contains (sep : string) (d : Path) : M (list (list string)) :=
  fun w => (Ok (filter (fun k => Str.contains sep (List.last k "") = true)
                       (descendants (fs w) (abs_key w d))), w).

(** [d.rglob("*/")]: the directories below [d] (a Python that also yields
    the files changes nothing: [iterdir] raises on a file and the loop of the
    sweep swallows it). *)
Definition rglob_dirs (d : Path) : M (list (list string)) :=
  fun w => (Ok (filter (fun k => is_dir (fs w !! k) = true)
                       (descendants (fs w) (abs_key w d))), w).

(** ** The backup log *)

(** One entry of backup_log.json, with the keys of [_log_backup]. *)
Record LogEntry := mkLogEntry {
  e_timestamp : string;
  e_original : string;
  e_backup : string;
  e_reason : string;
  e_size : Z
}.

#[global] Instance LogEntry_eq_dec : EqDecision LogEntry.
Proof. solve_decision. Defined.

(** [json.dumps(log, indent=2, ensure_ascii=False)] and [json.loads] on the
    documents of the log: what the engine needs of them is that a document
    written is read back unchanged, and that the empty list is written [[]]
    (the text [__init__] puts in a new log).  [None] stands for a text that
    [json.loads] or the [append] after it refuses. *)
Class JsonCodec := {
  json_dumps : list LogEntry -> string;
  json_loads : string -> option (list LogEntry);
  json_loads_dumps : forall l, json_loads (json_dumps l) = Some l;
  json_dumps_nil : json_dumps [] = "[]"
}.

(** What a method returns, as a Python value. *)
Inductive pyvalue :=
| PyNone
| PyBool (b : bool)
| PyInt (n : Z)
| PyPath (p : Path)
| PyRecord (e : LogEntry).

Class ToPy (A : Type) := to_py : A -> pyvalue.
#[global] Instance unit_to_py : ToPy unit := fun _ => PyNone.
#[global] Instance bool_to_py : ToPy bool := PyBool.
#[global] Instance path_to_py : ToPy Path := PyPath.
#[global] Instance option_to_py {A} `{ToPy A} : ToPy (option A) :=
  fun o => match o with Some a => to_py a | None => PyNone end.

(** ** class BackupManager *)

Record BackupManager := mkBackupManager {
  project_root : Path;
  backup_dir : Path;
  backup_log : Path
}.

(** The attributes [__init__] sets. *)
Definition manager_of (root : Path) : BackupManager :=
  let dir := path_join_str root ".config_backup" in
  mkBackupManager root dir (path_join_str dir "backup_log.json").

(** Deeper paths first: [key=lambda x: len(x.parts), reverse=True]. *)
Definition deeper (a b : list string) : Prop := (List.length b <= List.length a)%nat.

#[global] Instance deeper_dec a b : Decision (deeper a b).
Proof. unfold deeper. apply _. Defined.

Section Engine.

Context {codec : JsonCodec}.

(** [BackupManager.__init__] *)
Definition BackupManager_init (root : Path) : M BackupManager :=
  let self := manager_of root in
  mkdir_exist_ok (backup_dir self) ;;
  let* present := path_exists (backup_log self) in
  (if negb present then write_text (backup_log self) "[]" else ret tt) ;;
  ret self.

(** [BackupManager._log_backup] *)
Definition _log_backup (self : BackupManager) (original backup : Path)
  (reason : string) : M unit :=
  let* text := read_text (backup_log self) in
  let* log_data := of_option JSONDecodeError (json_loads text) in
  let* now := datetime_now in
  let* original_rel := of_option ValueError (relative_to original (project_root self)) in
  let* backup_rel := of_option ValueError (relative_to backup (project_root self)) in
  let* st := path_stat original in
  let log_entry :=
    mkLogEntry (isoformat now) (path_str original_rel) (path_str backup_rel)
               reason (st_size st) in
  write_text (backup_log self) (json_dumps (log_data ++ [log_entry])).

(** The Path Mapper of [backup_file]: where the copy of [relative_path] taken
    at [now] is stored. *)
Definition backup_path_of (self : BackupManager) (relative_path : Path)
  (now : datetime) : Path :=
  let backup_name := path_name relative_path +:+ ".backup." +:+ strftime now in
  path_join_str (path_join (backup_dir self) (path_parent relative_path)) backup_name.

(** [BackupManager.backup_file] *)
Definition backup_file (self : BackupManager) (file_path : Path)
  (reason : string) : M (option Path) :=
  let* present := path_exists file_path in
  if negb present then ret None
  else
    let* now := datetime_now in
    let* relative_path :=
      of_option ValueError (relative_to file_path (project_root self)) in
    let backup_path := backup_path_of self relative_path now in
    mkdir_parents (path_parent backup_path) ;;
    copy2 file_path backup_path ;;
    _log_backup self file_path backup_path reason ;;
    ret (Some backup_path).

(** The target [restore_backup] derives from the name of the backup. *)
Definition default_target (backup_path : Path) : Path :=
  let original_name := Str.prefix_before ".backup." (path_name backup_path) in
  path_join_str (path_parent (path_parent backup_path)) original_name.

(** [if target_path is None: target_path = ...] *)
Definition restore_target (backup_path : Path) (target_path : option Path) : Path :=
  match target_path with
  | None => default_target backup_path
  | Some t => t
  end.

(** [BackupManager.restore_backup]; the [print] evaluates
    [target_path.relative_to(self.project_root)]. *)
Definition restore_backup (self : BackupManager) (backup_path : Path)
  (target_path : option Path) : M bool :=
  let* present := path_exists backup_path in
  if negb present then ret false
  else
    let target_path := restore_target backup_path target_path in
    mkdir_parents (path_parent target_path) ;;
    copy2 backup_path target_path ;;
    of_option ValueError (relative_to target_path (project_root self)) ;;
    ret true.

(** [BackupManager.list_backups] *)
Definition list_backups (self : BackupManager) : M (list LogEntry) :=
  let* present := path_exists (backup_log self) in
  if present then
    let* text := read_text (backup_log self) in
    of_option JSONDecodeError (json_loads text)
  else ret [].

Definition stat_key (k : list string) : M stat_result := path_stat (mkPath true k).

(** The first loop of [cleanup_old_backups]. *)
Definition sweep_one (cutoff_time : Z) (k : list string) : M unit :=
  let* st := stat_key k in
  if st_mtime st <? cutoff_time then unlink_key k else ret tt.

(** The second loop: [try: if not any(d.iterdir()): d.rmdir() except: pass]. *)
Definition prune_one (d : list string) : M unit :=
  try_except
    (let* occupied := any_iterdir d in
     if negb occupied then rmdir_key d else ret tt)
    (ret tt).

Definition cutoff_of (now : datetime) (keep_days : Z) : Z :=
  timestamp now - keep_days * 24 * 60 * 60 * us_per_second.

(** [BackupManager.cleanup_old_backups]: it has no [return]. *)
Definition cleanup_old_backups (self : BackupManager) (keep_days : Z) : M unit :=
  let* now := datetime_now in
  let cutoff_time := cutoff_of now keep_days in
  let* found := rglob_contains ".backup." (backup_dir self) in
  for_each found (sweep_one cutoff_time) ;;
  let* dirs := rglob_dirs (backup_dir self) in
  for_each (merge_sort deeper dirs) prune_one ;;
  ret tt.

End Engine.

(** ** Notions used in the statements *)

(** [root / rel] for a relative [rel] given by its components. *)
Definition under (root : Path) (rel : list string) : Path :=
  mkPath (anchored root) (parts root ++ rel).

(** The state after one reading of the clock. *)
Definition tick (w : world) : world :=
  mkWorld (cwd w) (fs w) (clock w) (S (ticks w)).

(** The log as the engine reads it: the entries of backup_log.json when it
    is a regular file that [json.loads] accepts. *)
Definition read_log {codec : JsonCodec} (self : BackupManager) (w : world)
  : option (list LogEntry) :=
  match node_at w (backup_log self) with
  | Some (File text _) => json_loads text
  | _ => None
  end.

(** The absolute components of the backup directory, of the log and of a
    stored copy. *)
Definition backup_dir_key (w : world) (root : Path) : list string :=
  abs_key w root ++ [".config_backup"].

Definition backup_log_key (w : world) (root : Path) : list string :=
  abs_key w root ++ [".config_backup"; "backup_log.json"].

Definition stored_name (rel : list string) (now : datetime) : string :=
  List.last rel "" +:+ ".backup." +:+ strftime now.

Definition stored_rel (rel : list string) (now : datetime) : list string :=
  ".config_backup" :: removelast rel ++ [stored_name rel now].

(** Where the copy of [root / rel] taken now is stored. *)
Definition stored_key (w : world) (root : Path) (rel : list string) : list string :=
  abs_key w root ++ stored_rel rel (clock w (ticks w)).

(** Capture of [root / rel], step by step. *)
Definition capture_steps {codec : JsonCodec} (root : Path) (rel : list string) (reason : string)
  (w : world) : result (option Path) * world :=
  let backup_path := under root (stored_rel rel (clock w (ticks w))) in
  match mkdir_parents (under root (".config_backup" :: removelast rel)) (tick w) with
  | (Raise e, w1) => (Raise e, w1)
  | (Ok _, w1) =>
    match copy2 (under root rel) backup_path w1 with
    | (Raise e, w2) => (Raise e, w2)
    | (Ok _, w2) =>
      match _log_backup (manager_of root) (under root rel) backup_path reason w2 with
      | (Raise e, w3) => (Raise e, w3)
      | (Ok _, w3) => (Ok (Some backup_path), w3)
      end
    end
  end.

(** The entry [_log_backup] appends for a capture of [root / rel] that
    starts in the state [w]: the clock is read once for the name of the copy
    and once more for the entry. *)
Definition log_entry_of (rel : list string) (reason data : string) (w : world)
  : LogEntry :=
  mkLogEntry (isoformat (clock w (S (ticks w))))
             (path_str (mkPath false rel))
             (path_str (mkPath false (stored_rel rel (clock w (ticks w)))))
             reason (Z.of_nat (String.length data)).

(** No regular file stands at [d] or at a directory of [l] below it. *)
Fixpoint no_file_on_path (m : FS) (d l : list string) : bool :=
  negb (is_file (m !! d))
  && match l with
     | [] => true
     | x :: l' => no_file_on_path m (d ++ [x]) l'
     end.

(** The states in which a capture of [root / rel] goes through: the source
    is a regular file, the backup directory exists, no regular file stands
    where a directory of the copy is needed, the place of the copy is not a
    directory, and the log is a file that parses. *)
Definition capture_ready {codec : JsonCodec} (root : Path) (rel : list string) (w : world) : bool :=
  is_file (fs w !! (abs_key w root ++ rel))
  && is_dir (fs w !! backup_dir_key w root)
  && no_file_on_path (fs w) (backup_dir_key w root) (removelast rel)
  && negb (is_dir (fs w !! stored_key w root rel))
  && bool_decide (is_Some (read_log (manager_of root) w)).

(** A file expired at [cutoff]. *)
Definition expired_file (m : FS) (cutoff : Z) (k : list string) : bool :=
  match m !! k with
  | Some (File _ mt) => mt <? cutoff
  | _ => false
  end.

(** A node of any kind older than [cutoff]. *)
Definition expired_node (m : FS) (cutoff : Z) (k : list string) : bool :=
  match m !! k with
  | Some (File _ mt) | Some (Dir mt) => mt <? cutoff
  | None => false
  end.

(** What the two [rglob] calls of the sweep yield. *)
Definition found_backups (m : FS) (d : list string) : list (list string) :=
  filter (fun k => Str.contains ".backup." (List.last k "") = true) (descendants m d).

Definition dirs_below (m : FS) (d : list string) : list (list string) :=
  filter (fun k => is_dir (m !! k) = true) (descendants m d).

(** Two readings of the clock in the same second. *)
Definition same_second (d1 d2 : datetime) : Prop :=
  year d1 = year d2 /\ month d1 = month d2 /\ day d1 = day d2
  /\ hour d1 = hour d2 /\ minute d1 = minute d2 /\ second d1 = second d2.

(** The captures of a list made one after the other, whatever each returns. *)
Definition run_captures {codec : JsonCodec} (self : BackupManager) (calls : list (Path * string))
  (w : world) : world :=
  foldl (fun w c => snd (backup_file self (fst c) (snd c) w)) w calls.

(** How many of these captures returned a path. *)
Fixpoint captures_returned {codec : JsonCodec} (self : BackupManager)
  (calls : list (Path * string)) (w : world) : nat :=
  match calls with
  | [] => 0%nat
  | c :: calls' =>
    let out := backup_file self (fst c) (snd c) w in
    ((match fst out with Ok (Some _) => 1 | _ => 0 end)
     + captures_returned self calls' (snd out))%nat
  end.

(** ** class EnvironmentDetector: the check of the requirements

    The keys of [self.env_config] that [check_environment_requirements]
    reads. *)

Record EnvConfig := mkEnvConfig {
  java_installed : bool;          (* env_config['java']['installed'] *)
  java_is_jdk_17 : bool;          (* env_config['java']['is_jdk_17'] *)
  android_sdk_installed : bool;   (* env_config['android_sdk']['installed'] *)
  memory_total_mb : Z             (* env_config['memory']['total_mb'] *)
}.

(** [str(n)] for an [int], as an f-string formats it. *)
Definition str_of_int (n : Z) : string := NilZero.string_of_int (Z.to_int n).

(** [EnvironmentDetector.check_environment_requirements]: the pair
    [(all_ok, issues)]. *)
Definition check_environment_requirements (env : EnvConfig) : bool * list string :=
  let issues : list string := [] in
  let all_ok := true in
  let '(issues, all_ok) :=
    if negb (java_installed env) then (issues ++ ["❌ Java 未安装"], false)
    else if negb (java_is_jdk_17 env) then (issues ++ ["⚠️  Java 不是 JDK 17"], all_ok)
    else (issues, all_ok) in
  let '(issues, all_ok) :=
    if negb (android_sdk_installed env) then (issues ++ ["❌ Android SDK 未安装"], false)
    else (issues, all_ok) in
  let issues :=
    if memory_total_mb env <? 4096
    then issues ++ ["⚠️  系统内存较低 (" +:+ str_of_int (memory_total_mb env)
                      +:+ "MB)，建议至少 8GB"]
    else issues in
  (all_ok, issues).

(** The heap given to Gradle, the local [gradle_memory] of
    [ProjectConfigManager._load_configs], from [env['memory']['total_mb']]. *)
Definition gradle_memory (memory_mb : Z) : string :=
  if 8192 <=? memory_mb then "4096m"
  else if 4096 <=? memory_mb then "2048m"
  else "1024m".

(** ** class ProjectConfigManager: the methods that rewrite a file of the root

    [self.backup_manager] is [BackupManager(self.project_root)].  The text a
    method writes is an f-string over [self.configs] with one reading of the
    clock, [datetime.now()], in it: it is the parameter [content_at], a
    function of that reading.  The [print] calls are left out. *)

Section Callers.

Context {codec : JsonCodec}.

(** [ProjectConfigManager.fix_root_build_config]: the text is built first,
    then the file is captured and rewritten. *)
Definition fix_root_build_config (root : Path) (content_at : datetime -> string)
  : M unit :=
  let* now := datetime_now in
  let content := content_at now in
  let build_file := path_join_str root "build.gradle.kts" in
  let* backup_path := backup_file (manager_of root) build_file "修复根构建配置" in
  write_text build_file content.

(** [ProjectConfigManager.create_unified_dependencies_file]: the file is
    captured first, then the text is built and written. *)
Definition create_unified_dependencies_file (root : Path)
  (content_at : datetime -> string) : M unit :=
  let deps_file := path_join_str root "dependencies.gradle.kts" in
  let* backup_path := backup_file (manager_of root) deps_file "创建统一依赖管理" in
  let* now := datetime_now in
  let content := content_at now in
  write_text deps_file content.

End Callers.

(** ** A codec to run the engine on concrete states

    The theorems below hold for every codec with the laws of [JsonCodec].
    This one writes a document as the binary digits of its code; it serves
    where the engine is evaluated on a concrete file system. *)

Module BitsCodec.

#[global] Instance LogEntry_countable : Countable LogEntry.
Proof.
  apply (inj_countable'
    (fun e => (e_timestamp e, e_original e, e_backup e, e_reason e, e_size e))
    (fun t => match t with (a, b, c, d, n) => mkLogEntry a b c d n end)).
  intros []; reflexivity.
Defined.

Fixpoint pos_bits (p : positive) : string :=
  match p with
  | xH => ""
  | xO q => String "0" (pos_bits q)
  | xI q => String "1" (pos_bits q)
  end.

Fixpoint bits_pos (s : string) : positive :=
  match s with
  | EmptyString => xH
  | String c s' => if Ascii.eqb c "1" then xI (bits_pos s') else xO (bits_pos s')
  end.

Definition dumps (l : list LogEntry) : string :=
  match l with [] => "[]" | _ => pos_bits (encode l) end.

Definition loads (s : string) : option (list LogEntry) :=
  if String.eqb s "[]" then Some [] else decode (bits_pos s).

Lemma bits_pos_bits p : bits_pos (pos_bits p) = p.
Proof. induction p; simpl; congruence. Qed.

Lemma pos_bits_not_brackets p : String.eqb (pos_bits p) "[]" = false.
Proof. destruct p; reflexivity. Qed.

Lemma loads_dumps l : loads (dumps l) = Some l.
Proof.
  destruct l as [|e l]; [reflexivity|].
  unfold loads, dumps. rewrite pos_bits_not_brackets, bits_pos_bits.
  apply decode_encode.
Qed.

#[global] Instance codec : JsonCodec :=
  {| json_dumps := dumps; json_loads := loads;
     json_loads_dumps := loads_dumps; json_dumps_nil := eq_refl |}.

End BitsCodec.

(** ** A concrete project *)

Module Demo.

Definition root : Path := mkPath true ["proj"].
Definition self : BackupManager := manager_of root.

Definition at_10h (n : nat) : datetime :=
  mkDatetime 2024 1 1 10 0 (Z.of_nat n) 0.

(** /proj with build.gradle.kts and config/build.gradle.kts, the current
    directory being /proj, before [__init__]. *)
Definition fs0 : FS :=
  list_to_map [
    ([], Dir 0);
    (["proj"], Dir 0);
    (["proj"; "build.gradle.kts"], File "plugins {}" 1000);
    (["proj"; "config"], Dir 0);
    (["proj"; "config"; "build.gradle.kts"], File "android {}" 2000)
  ].

Definition w0 : world := mkWorld ["proj"] fs0 at_10h 0.

(** The state after [BackupManager(root)]. *)
Definition w1 : world := snd (BackupManager_init root w0).

End Demo.

Module Run.

Import Demo.

Definition root_file : Path := mkPath true ["proj"; "build.gradle.kts"].
Definition nested_file : Path := mkPath true ["proj"; "config"; "build.gradle.kts"].
Definition missing_file : Path := mkPath true ["proj"; "settings.gradle.kts"].

(** The state after [backup_file(root_file, "pre-fix")]. *)
Definition w2 : world := snd (backup_file self root_file "pre-fix" w1).

(** The copy that capture stored. *)
Definition stored : Path :=
  mkPath true ["proj"; ".config_backup"; "build.gradle.kts.backup.20240101_100000"].

End Run.

(** A clock whose readings all fall in the same second, and the same
    project under it; between two captures the source is rewritten. *)
Module Fast.

Definition within_10h (n : nat) : datetime :=
  mkDatetime 2024 1 1 10 0 0 (Z.of_nat n).

Definition w1 : world := mkWorld (cwd Demo.w1) (fs Demo.w1) within_10h 0.

Definition w2 : world :=
  snd (write_text Run.root_file "plugins { id(1) }"
         (snd (backup_file Demo.self Run.root_file "first" w1))).

End Fast.

(** The project after a capture, under a clock that stands still twenty
    days later: the stored copy carries the modification time of its source
    and is older than seven days. *)
Module Still.

Definition later (_ : nat) : datetime := mkDatetime 2024 1 21 10 0 0 0.

Definition w : world := mkWorld (cwd Run.w2) (fs Run.w2) later 0.

End Still.

(** The same project under a clock that advances two seconds at each
    reading, with a stored copy that is one second younger than seven days
    at the first reading. *)
Module Aging.

Definition ticking (n : nat) : datetime :=
  mkDatetime 2024 1 21 10 0 (Z.of_nat (2 * n)) 0.

Definition w : world :=
  mkWorld (cwd Run.w2)
          (<[parts Run.stored :=
               File "plugins {}" (timestamp (mkDatetime 2024 1 14 10 0 1 0))]>
             (fs Run.w2))
          ticking 0.

End Aging.

(** The project after a capture of config/build.gradle.kts, twenty days
    later: the stored copy is the only entry of its directory. *)
Module Nested.

Definition w : world :=
  mkWorld (cwd Demo.w1)
          (fs (snd (backup_file Demo.self Run.nested_file "pre-fix" Demo.w1)))
          Still.later 0.

Definition mirror : list string := ["proj"; ".config_backup"; "config"].

End Nested.

(** The project of [Still] with an old directory below the backup
    directory whose name matches [*.backup.*]. *)
Module Blocked.

Definition old_dir : list string := ["proj"; ".config_backup"; "notes.backup.d"].

Definition w : world :=
  mkWorld (cwd Still.w) (<[old_dir := Dir 0]> (fs Still.w)) Still.later 0.

End Blocked.

(** The project after [__init__], with backup_log.json deleted. *)
Module NoLog.

Definition w : world :=
  mkWorld (cwd Demo.w1)
          (delete ["proj"; ".config_backup"; "backup_log.json"] (fs Demo.w1))
          Demo.at_10h 0.

End NoLog.

(** A text to write, and the project with a dependencies.gradle.kts. *)
Module Gen.

Definition content_at (now : datetime) : string := "// " +:+ strftime now.

Definition deps_file : Path := mkPath true ["proj"; "dependencies.gradle.kts"].

Definition w : world :=
  mkWorld (cwd Demo.w1)
          (<[parts deps_file := File "object Libs" 3000]> (fs Demo.w1))
          Demo.at_10h 0.

End Gen.

(** The project of [Aging], whose clock advances at each reading, with a
    stored copy from 1970 and one from the day before: no modification time
    lies between the cutoffs of two successive sweeps. *)
Module Creep.

Definition recent : list string :=
  ["proj"; ".config_backup"; "build.gradle.kts.backup.20240120_100000"].

Definition w : world :=
  mkWorld (cwd Run.w2)
          (<[recent := File "plugins { id(1) }" (timestamp (mkDatetime 2024 1 20 10 0 0 0))]>
             (fs Run.w2))
          Aging.ticking 0.

End Creep.

(** ** Facts on the file-system primitives *)

Lemma prefix_snoc_inv {A} (d l : list A) (x : A) :
  d `prefix_of` (l ++ [x])%list -> d = (l ++ [x])%list \/ d `prefix_of` l.
Proof.
  intros [k Hk]. destruct k as [|y k _] using rev_ind.
  - left. by rewrite app_nil_r in Hk.
  - right. rewrite app_assoc in Hk. apply app_inj_tail in Hk as [-> _].
    by exists k.
Qed.

Lemma mkdir_rev_keeps mt rk : forall m r m' k n,
  mkdir_rev mt rk m = (r, m') -> m !! k = Some n -> m' !! k = Some n.
Proof.
  induction rk as [|x rparent IH]; intros m r m' k n; simpl.
  - destruct (m !! []) as [[]|]; intros [= <- <-]; auto.
  - destruct (m !! (rev rparent ++ [x])%list) as [[]|] eqn:Hk;
      [intros [= <- <-]; auto..|].
    destruct (m !! rev rparent) as [[]|] eqn:Hp.
    + intros [= <- <-]; auto.
    + intros [= <- <-] Hn. rewrite lookup_insert_ne; [done|congruence].
    + destruct (mkdir_rev mt rparent m) as [[u|e] m1] eqn:Hrec;
        intros [= <- <-] Hn.
      * rewrite lookup_insert_ne; [eauto|congruence].
      * eauto.
Qed.

(** Below an existing directory [d], making directories changes nothing
    outside [d]. *)
Lemma mkdir_rev_outside mt d dm rk : forall m r m' k,
  m !! d = Some (Dir dm) -> d `prefix_of` rev rk ->
  mkdir_rev mt rk m = (r, m') -> below d k = false -> m' !! k = m !! k.
Proof.
  induction rk as [|x rparent IH]; intros m r m' k Hd Hpre; simpl.
  - destruct (m !! []) as [[]|]; intros [= <- <-]; auto.
  - destruct (m !! (rev rparent ++ [x])%list) as [[]|] eqn:Hk;
      [intros [= <- <-]; auto..|].
    assert (Hne : d <> (rev rparent ++ [x])%list) by congruence.
    assert (Hpre' : d `prefix_of` rev rparent).
    { simpl in Hpre. destruct (prefix_snoc_inv d (rev rparent) x Hpre); done. }
    assert (Hout : below d k = false -> k <> (rev rparent ++ [x])%list).
    { intros Hb ->. unfold below in Hb.
      apply bool_decide_eq_false in Hb. apply Hb. split; done. }
    destruct (m !! rev rparent) as [[]|] eqn:Hp.
    + intros [= <- <-]; auto.
    + intros [= <- <-] Hb. rewrite lookup_insert_ne; [done|]. intros E. by apply Hout.
    + destruct (mkdir_rev mt rparent m) as [[u|e] m1] eqn:Hrec;
        intros [= <- <-] Hb.
      * rewrite lookup_insert_ne; [eauto|]. intros E. by apply Hout.
      * eauto.
Qed.

(** Making directories touches only prefixes of the path. *)
Lemma mkdir_rev_off_path mt rk : forall m r m' k,
  mkdir_rev mt rk m = (r, m') -> ~ k `prefix_of` rev rk -> m' !! k = m !! k.
Proof.
  induction rk as [|x rparent IH]; intros m r m' k; simpl.
  - destruct (m !! []) as [[]|]; intros [= <- <-]; auto.
  - destruct (m !! (rev rparent ++ [x])) as [[]|] eqn:Hk;
      [intros [= <- <-]; auto..|].
    assert (Hne : ~ k `prefix_of` rev rparent ++ [x] -> k <> rev rparent ++ [x]).
    { intros Hn ->. by apply Hn. }
    assert (Hup : ~ k `prefix_of` rev rparent ++ [x] -> ~ k `prefix_of` rev rparent).
    { intros Hn Hp. apply Hn. by apply prefix_app_r. }
    destruct (m !! rev rparent) as [[]|] eqn:Hp.
    + intros [= <- <-]; auto.
    + intros [= <- <-] Hn. rewrite lookup_insert_ne; [done|]. intros E. by apply Hne.
    + destruct (mkdir_rev mt rparent m) as [[u|e] m1] eqn:Hrec;
        intros [= <- <-] Hn.
      * rewrite lookup_insert_ne; [eauto|]. intros E. by apply Hne.
      * eauto.
Qed.

Lemma mkdir_rev_dir mt rk m dm :
  m !! rev rk = Some (Dir dm) -> mkdir_rev mt rk m = (Ok tt, m).
Proof. intros H. destruct rk; simpl in *; by rewrite H. Qed.

(** Below a directory [d], with no regular file on the way, the directories
    of [d ++ l] are made. *)
Lemma mkdir_rev_ok mt d dm m l :
  m !! d = Some (Dir dm) ->
  (forall p, p `prefix_of` l -> is_file (m !! (d ++ p)) = false) ->
  exists m', mkdir_rev mt (rev (d ++ l)) m = (Ok tt, m')
             /\ is_dir (m' !! (d ++ l)) = true.
Proof.
  intros Hd. induction l as [|x l IH] using rev_ind; intros Hfree.
  - rewrite app_nil_r. exists m. split; [|by rewrite Hd].
    apply (mkdir_rev_dir mt (rev d) m dm). by rewrite rev_involutive.
  - destruct IH as (m1 & E1 & D1).
    { intros p Hp. apply Hfree. by apply prefix_app_r. }
    pose proof (Hfree (l ++ [x]) (reflexivity _)) as Hx.
    pose proof (Hfree l (prefix_app_r l l [x] (reflexivity _))) as Hl.
    rewrite app_assoc, rev_unit. simpl.
    rewrite !rev_involutive, <- app_assoc.
    destruct (m !! (d ++ l ++ [x])) as [[]|] eqn:Hk; try done.
    + exists m. by rewrite Hk.
    + destruct (m !! (d ++ l)) as [[]|] eqn:Hp; try done.
      * eexists. split; [done|]. by rewrite lookup_insert_eq.
      * rewrite E1. eexists. split; [done|]. by rewrite lookup_insert_eq.
Qed.

Lemma store_file_other k data mt m r m' j :
  store_file k data mt m = (r, m') -> j <> k -> m' !! j = m !! j.
Proof.
  unfold store_file. intros H Hj.
  destruct (m !! k) as [[]|]; [|injection H as <- <-; done|].
  - injection H as <- <-. by rewrite lookup_insert_ne.
  - destruct (m !! removelast k) as [[]|]; injection H as <- <-; try done.
    by rewrite lookup_insert_ne.
Qed.

Lemma copy2_fs_other src dst m r m' j :
  copy2_fs src dst m = (r, m') -> j <> copy2_key src dst m -> m' !! j = m !! j.
Proof.
  unfold copy2_fs. intros H Hj.
  destruct (_ && _); [injection H as <- <-; done|].
  destruct (m !! src) as [[]|]; [|injection H as <- <-; done..].
  eapply store_file_other; eauto.
Qed.

Lemma copy2_key_cases src dst m :
  copy2_key src dst m = dst \/ copy2_key src dst m = (dst ++ [List.last src ""])%list.
Proof. unfold copy2_key. destruct (is_dir _); auto. Qed.

Lemma mkdir_parents_keeps p w r w' k n :
  mkdir_parents p w = (r, w') -> fs w !! k = Some n -> fs w' !! k = Some n.
Proof.
  unfold mkdir_parents, lift_fs.
  destruct (mkdir_rev _ _ _) as [r0 m] eqn:E. intros [= <- <-]. simpl.
  eauto using mkdir_rev_keeps.
Qed.

Lemma mkdir_parents_cwd p w r w' : mkdir_parents p w = (r, w') -> cwd w' = cwd w.
Proof.
  unfold mkdir_parents, lift_fs.
  destruct (mkdir_rev _ _ _) as [r0 m]. by intros [= <- <-].
Qed.

Lemma copy2_cwd src dst w r w' : copy2 src dst w = (r, w') -> cwd w' = cwd w.
Proof.
  unfold copy2, lift_fs. destruct (copy2_fs _ _ _) as [r0 m]. by intros [= <- <-].
Qed.

Lemma copy2_other src dst w r w' j :
  copy2 src dst w = (r, w') ->
  j <> abs_key w dst -> j <> (abs_key w dst ++ [List.last (abs_key w src) ""])%list ->
  fs w' !! j = fs w !! j.
Proof.
  unfold copy2, lift_fs.
  destruct (copy2_fs _ _ _) as [r0 m] eqn:E. intros [= <- <-] H1 H2. simpl.
  eapply copy2_fs_other; [exact E|].
  destruct (copy2_key_cases (abs_key w src) (abs_key w dst) (fs w)) as [-> | ->]; done.
Qed.

Lemma abs_key_cwd w w' p : cwd w' = cwd w -> abs_key w' p = abs_key w p.
Proof. unfold abs_key. by intros ->. Qed.

(** ** Facts on paths and names *)

Lemma strip_prefix_app pre l : strip_prefix pre (pre ++ l) = Some l.
Proof. induction pre as [|a pre IH]; simpl; [done|]. by rewrite String.eqb_refl. Qed.

Lemma strip_prefix_Some pre : forall l r, strip_prefix pre l = Some r -> l = (pre ++ r)%list.
Proof.
  induction pre as [|a pre IH]; intros l r; simpl.
  - by intros [= ->].
  - destruct l as [|b l]; [done|].
    destruct (String.eqb a b) eqn:E; [|done].
    apply String.eqb_eq in E as ->. intros H. by rewrite (IH _ _ H).
Qed.

Lemma relative_to_under root rel :
  relative_to (under root rel) root = Some (mkPath false rel).
Proof.
  unfold relative_to, under. simpl. rewrite Bool.eqb_reflx.
  by rewrite strip_prefix_app.
Qed.

Lemma relative_to_Some p root rp :
  relative_to p root = Some rp -> p = under root (parts rp) /\ anchored rp = false.
Proof.
  unfold relative_to, under. destruct (Bool.eqb _ _) eqn:E; [|done].
  apply Bool.eqb_prop in E.
  destruct (strip_prefix _ _) as [r|] eqn:Hs; [|done]. intros [= <-]. simpl.
  apply strip_prefix_Some in Hs. destruct p as [a ps]; simpl in *. by subst.
Qed.

Lemma abs_key_under w root rel :
  abs_key w (under root rel) = (abs_key w root ++ rel)%list.
Proof. unfold abs_key, under. simpl. destruct (anchored root); [done|]. by rewrite app_assoc. Qed.

Lemma contains_backup_infix a b : Str.contains ".backup." (a +:+ ".backup." +:+ b) = true.
Proof.
  induction a as [|c a IH]; [vm_compute; reflexivity|].
  change (String c a +:+ ".backup." +:+ b) with (String c (a +:+ ".backup." +:+ b)).
  cbn [Str.contains]. rewrite IH. by destruct (Str.starts_with _ _).
Qed.

Lemma backup_name_not_empty a b : String.eqb (a +:+ ".backup." +:+ b) "" = false.
Proof. by destruct a. Qed.

Lemma backup_name_not_log a b : a +:+ ".backup." +:+ b <> "backup_log.json".
Proof.
  intros E. pose proof (contains_backup_infix a b) as H. rewrite E in H.
  vm_compute in H. discriminate H.
Qed.

(** The components of the paths of [manager_of root] and of a stored copy. *)
Lemma backup_dir_under root : backup_dir (manager_of root) = under root [".config_backup"].
Proof. reflexivity. Qed.

Lemma backup_log_under root :
  backup_log (manager_of root) = under root [".config_backup"; "backup_log.json"].
Proof. unfold manager_of, under, path_join_str. simpl. by rewrite <- app_assoc. Qed.

Lemma backup_path_of_under root rel now :
  backup_path_of (manager_of root) (mkPath false rel) now
  = under root (".config_backup" :: removelast rel
                  ++ [List.last rel "" +:+ ".backup." +:+ strftime now]).
Proof.
  unfold backup_path_of, path_join_str, path_name, path_join, path_parent, under.
  rewrite backup_name_not_empty. simpl. f_equal.
  by rewrite <- !app_assoc.
Qed.

(** ** The steps of capture *)

Lemma write_text_effects p data w r w' :
  write_text p data w = (r, w') ->
  cwd w' = cwd w /\ clock w' = clock w /\ ticks w' = ticks w
  /\ (forall k, k <> abs_key w p -> fs w' !! k = fs w !! k).
Proof.
  unfold write_text, lift_fs.
  destruct (store_file _ _ _ _) as [r0 m] eqn:E. intros [= <- <-]. simpl.
  repeat split; try done. intros k Hk. eauto using store_file_other.
Qed.

Lemma write_text_file p data w d0 mt0 :
  node_at w p = Some (File d0 mt0) ->
  write_text p data w
  = (Ok tt, set_fs w (<[abs_key w p := File data (os_time w)]> (fs w))).
Proof.
  unfold write_text, lift_fs, store_file, node_at. by intros ->.
Qed.

Section Steps.

Context {codec : JsonCodec}.

Lemma read_log_list_backups self w l :
  read_log self w = Some l -> list_backups self w = (Ok l, w).
Proof.
  unfold read_log, list_backups, bind, path_exists, read_text.
  destruct (node_at w (backup_log self)) as [[text mt|]|] eqn:E; try done.
  intros H. rewrite bool_decide_eq_true_2 by eauto. simpl. rewrite E. simpl.
  unfold of_option. by rewrite H.
Qed.

Lemma log_backup_unfold self original backup reason w :
  _log_backup self original backup reason w =
  match node_at w (backup_log self) with
  | None => (Raise FileNotFoundError, w)
  | Some (Dir _) => (Raise IsADirectoryError, w)
  | Some (File text _) =>
    match json_loads text with
    | None => (Raise JSONDecodeError, w)
    | Some log_data =>
      let now := clock w (ticks w) in
      match relative_to original (project_root self),
            relative_to backup (project_root self) with
      | Some original_rel, Some backup_rel =>
        match node_at (tick w) original with
        | None => (Raise FileNotFoundError, tick w)
        | Some n =>
          let size := match n with
                      | File data _ => Z.of_nat (String.length data)
                      | Dir _ => 0
                      end in
          write_text (backup_log self)
            (json_dumps (log_data ++
               [mkLogEntry (isoformat now) (path_str original_rel)
                           (path_str backup_rel) reason size])) (tick w)
        end
      | _, _ => (Raise ValueError, tick w)
      end
    end
  end.
Proof.
  unfold _log_backup, bind, read_text.
  destruct (node_at w (backup_log self)) as [[text mt|]|]; try reflexivity.
  unfold of_option at 1. destruct (json_loads text) as [l|]; [|reflexivity].
  simpl. fold (tick w).
  destruct (relative_to original _); simpl; [|reflexivity].
  destruct (relative_to backup _); simpl; [|reflexivity].
  unfold path_stat.
  destruct (node_at (tick w) original) as [[]|]; reflexivity.
Qed.

Lemma backup_file_unfold self file_path reason w :
  backup_file self file_path reason w =
  if bool_decide (is_Some (node_at w file_path)) then
    match relative_to file_path (project_root self) with
    | None => (Raise ValueError, tick w)
    | Some relative_path =>
      let backup_path := backup_path_of self relative_path (clock w (ticks w)) in
      match mkdir_parents (path_parent backup_path) (tick w) with
      | (Raise e, w1) => (Raise e, w1)
      | (Ok _, w1) =>
        match copy2 file_path backup_path w1 with
        | (Raise e, w2) => (Raise e, w2)
        | (Ok _, w2) =>
          match _log_backup self file_path backup_path reason w2 with
          | (Raise e, w3) => (Raise e, w3)
          | (Ok _, w3) => (Ok (Some backup_path), w3)
          end
        end
      end
    end
  else (Ok None, w).
Proof.
  unfold backup_file, bind, path_exists.
  destruct (bool_decide _); simpl; [|reflexivity]. fold (tick w).
  destruct (relative_to _ _); simpl; [|reflexivity].
  destruct (mkdir_parents _ _) as [[u|e] w1]; [|reflexivity].
  destruct (copy2 _ _ _) as [[u2|e] w2]; [|reflexivity].
  destruct (_log_backup _ _ _ _ _) as [[u3|e] w3]; reflexivity.
Qed.

Lemma log_backup_effects self original backup reason w r w' :
  _log_backup self original backup reason w = (r, w') ->
  cwd w' = cwd w /\ clock w' = clock w
  /\ (forall k, k <> abs_key w (backup_log self) -> fs w' !! k = fs w !! k).
Proof.
  rewrite log_backup_unfold.
  destruct (node_at w (backup_log self)) as [[text mt|]|];
    [|by intros [= <- <-]..].
  destruct (json_loads text) as [l|]; [|by intros [= <- <-]].
  cbv zeta.
  destruct (relative_to original _); [|by intros [= <- <-]].
  destruct (relative_to backup _); [|by intros [= <- <-]].
  destruct (node_at (tick w) original); [|by intros [= <- <-]].
  intros H. apply write_text_effects in H as (Hc & Hk & _ & Hf). done.
Qed.

Lemma log_backup_log self original backup reason w r w' l :
  read_log self w = Some l ->
  _log_backup self original backup reason w = (r, w') ->
  (exists e, r = Ok tt /\ read_log self w' = Some (l ++ [e]))
  \/ (exists ex, r = Raise ex /\ fs w' = fs w /\ cwd w' = cwd w).
Proof.
  unfold read_log. rewrite log_backup_unfold.
  destruct (node_at w (backup_log self)) as [[text mt|]|] eqn:Hn; try done.
  intros ->. cbv zeta.
  destruct (relative_to original _); [|intros [= <- <-]; right; eauto].
  destruct (relative_to backup _); [|intros [= <- <-]; right; eauto].
  destruct (node_at (tick w) original); [|intros [= <- <-]; right; eauto].
  erewrite write_text_file by exact Hn. intros [= <- <-]. left.
  eexists. split; [done|]. unfold node_at. simpl.
  change (abs_key (set_fs (tick w) _) (backup_log self))
    with (abs_key (tick w) (backup_log self)).
  rewrite lookup_insert_eq. apply json_loads_dumps.
Qed.

Lemma backup_log_key_eq w root :
  abs_key w (backup_log (manager_of root)) = backup_log_key w root.
Proof. rewrite backup_log_under. apply abs_key_under. Qed.

Lemma backup_dir_key_eq w root :
  abs_key w (backup_dir (manager_of root)) = backup_dir_key w root.
Proof. rewrite backup_dir_under. apply abs_key_under. Qed.

Lemma path_parent_under_snoc root l x :
  path_parent (under root (l ++ [x])) = under root l.
Proof.
  unfold path_parent, under. simpl. by rewrite app_assoc, removelast_last.
Qed.

Lemma stored_parent root rel now :
  path_parent (under root (stored_rel rel now))
  = under root (".config_backup" :: removelast rel).
Proof.
  unfold stored_rel. rewrite app_comm_cons. apply path_parent_under_snoc.
Qed.

Lemma below_app d l : l <> [] -> below d (d ++ l) = true.
Proof.
  intros Hl. apply bool_decide_eq_true. split; [by exists l|].
  intros E. rewrite <- (app_nil_r d) in E at 1. by apply app_inv_head in E.
Qed.

Lemma below_backup_log w root : below (backup_dir_key w root) (backup_log_key w root) = true.
Proof.
  unfold backup_dir_key, backup_log_key.
  change [".config_backup"; "backup_log.json"] with ([".config_backup"] ++ ["backup_log.json"]).
  rewrite app_assoc. by apply below_app.
Qed.

Lemma stored_key_split w root rel now :
  abs_key w root ++ stored_rel rel now
  = backup_dir_key w root ++ (removelast rel ++ [stored_name rel now]).
Proof. unfold backup_dir_key, stored_rel. by rewrite <- app_assoc. Qed.

Lemma stored_key_not_log w root rel now :
  abs_key w root ++ stored_rel rel now <> backup_log_key w root.
Proof.
  unfold backup_log_key, stored_rel. intros E. apply app_inv_head in E.
  injection E as E. destruct (removelast rel) as [|a l]; simpl in E.
  - injection E as E. by apply backup_name_not_log in E.
  - injection E as _ E. by destruct l.
Qed.

Lemma stored_into_not_log w root rel now x :
  (abs_key w root ++ stored_rel rel now) ++ [x] <> backup_log_key w root.
Proof.
  unfold backup_log_key, stored_rel. rewrite <- app_assoc. intros E.
  apply app_inv_head in E. apply (f_equal List.length) in E.
  simpl in E. rewrite !length_app in E. simpl in E. lia.
Qed.

Lemma mkdir_parents_outside p w r w' d dm k :
  mkdir_parents p w = (r, w') -> fs w !! d = Some (Dir dm) ->
  d `prefix_of` abs_key w p -> below d k = false -> fs w' !! k = fs w !! k.
Proof.
  unfold mkdir_parents, lift_fs.
  destruct (mkdir_rev _ _ _) as [r0 m] eqn:E. intros [= <- <-] Hd Hp Hb. simpl.
  eapply mkdir_rev_outside; eauto. by rewrite rev_involutive.
Qed.

Lemma abs_key_tick w p : abs_key (tick w) p = abs_key w p.
Proof. reflexivity. Qed.

Lemma backup_file_under root rel reason w :
  is_Some (node_at w (under root rel)) ->
  backup_file (manager_of root) (under root rel) reason w
  = capture_steps root rel reason w.
Proof.
  intros Hn. rewrite backup_file_unfold. rewrite bool_decide_eq_true_2 by done.
  change (project_root (manager_of root)) with root.
  rewrite relative_to_under. cbv zeta.
  rewrite backup_path_of_under.
  change (".config_backup" :: removelast rel ++ _) with (stored_rel rel (clock w (ticks w))).
  rewrite stored_parent. reflexivity.
Qed.

Lemma backup_file_cases root file_path reason w :
  backup_file (manager_of root) file_path reason w = (Ok None, w)
  \/ backup_file (manager_of root) file_path reason w = (Raise ValueError, tick w)
  \/ exists rel, file_path = under root rel /\ is_Some (node_at w file_path)
       /\ backup_file (manager_of root) file_path reason w
          = capture_steps root rel reason w.
Proof.
  destruct (node_at w file_path) as [n|] eqn:Hn.
  - destruct (relative_to file_path root) as [rp|] eqn:Hr.
    + right; right. apply relative_to_Some in Hr as [E _].
      assert (Hs : is_Some (node_at w file_path)) by (rewrite Hn; eauto).
      exists (parts rp). split; [done|]. split; [done|].
      rewrite E in Hs |- *. by apply backup_file_under.
    + right; left. rewrite backup_file_unfold.
      rewrite bool_decide_eq_true_2 by (by rewrite Hn).
      change (project_root (manager_of root)) with root. by rewrite Hr.
  - left. rewrite backup_file_unfold. rewrite bool_decide_eq_false_2; [done|].
    rewrite Hn. by intros [? ?].
Qed.

(** What the steps of capture can change: the log, the stored copy (or an
    entry of the same name inside it, were it a directory) and directories
    that were missing. *)
Lemma capture_steps_keeps root rel reason w r w' :
  capture_steps root rel reason w = (r, w') ->
  cwd w' = cwd w
  /\ forall k n, fs w !! k = Some n ->
       k <> backup_log_key w root -> k <> stored_key w root rel ->
       k <> stored_key w root rel ++ [List.last (abs_key w root ++ rel) ""] ->
       fs w' !! k = Some n.
Proof.
  unfold capture_steps, stored_key. intros H.
  destruct (mkdir_parents _ (tick w)) as [r1 w1] eqn:E1.
  pose proof (mkdir_parents_cwd _ _ _ _ E1) as C1. simpl in C1.
  assert (K1 : forall k n, fs w !! k = Some n -> fs w1 !! k = Some n).
  { intros k n Hk. eapply mkdir_parents_keeps; [exact E1|exact Hk]. }
  destruct r1 as [u1|e1]; [|injection H as <- <-; eauto].
  destruct (copy2 _ _ w1) as [r2 w2] eqn:E2.
  pose proof (copy2_cwd _ _ _ _ _ E2) as C2.
  assert (K2 : forall k n, fs w !! k = Some n ->
            k <> abs_key w root ++ stored_rel rel (clock w (ticks w)) ->
            k <> (abs_key w root ++ stored_rel rel (clock w (ticks w)))
                   ++ [List.last (abs_key w root ++ rel) ""] ->
            fs w2 !! k = Some n).
  { intros k n Hk N1 N2.
    rewrite (copy2_other _ _ _ _ _ k E2); [eauto|..];
      rewrite !(abs_key_cwd w w1), !abs_key_under by done; done. }
  destruct r2 as [u2|e2]; [|injection H as <- <-; split; [congruence|eauto]].
  destruct (_log_backup _ _ _ _ w2) as [r3 w3] eqn:E3.
  apply log_backup_effects in E3 as (C3 & _ & F3).
  assert (cwd w3 = cwd w /\ forall k n, fs w !! k = Some n ->
            k <> backup_log_key w root ->
            k <> abs_key w root ++ stored_rel rel (clock w (ticks w)) ->
            k <> (abs_key w root ++ stored_rel rel (clock w (ticks w)))
                   ++ [List.last (abs_key w root ++ rel) ""] ->
            fs w3 !! k = Some n) as G.
  { split; [congruence|]. intros k n Hk N0 N1 N2.
    rewrite F3; [eauto|].
    rewrite (abs_key_cwd w w2), backup_log_key_eq by congruence. done. }
  destruct r3; injection H as <- <-; exact G.
Qed.

Lemma capture_steps_outside root rel reason w r w' dm k :
  capture_steps root rel reason w = (r, w') ->
  fs w !! backup_dir_key w root = Some (Dir dm) ->
  below (backup_dir_key w root) k = false -> fs w' !! k = fs w !! k.
Proof.
  unfold capture_steps. intros H Hd Hb.
  assert (N : forall l, l <> [] -> k <> backup_dir_key w root ++ l).
  { intros l Hl ->. by rewrite below_app in Hb. }
  destruct (mkdir_parents _ (tick w)) as [r1 w1] eqn:E1.
  pose proof (mkdir_parents_cwd _ _ _ _ E1) as C1. simpl in C1.
  assert (K1 : fs w1 !! k = fs w !! k).
  { eapply (mkdir_parents_outside _ (tick w)); [exact E1|exact Hd| |exact Hb].
    rewrite abs_key_tick, abs_key_under. unfold backup_dir_key.
    exists (removelast rel). by rewrite <- app_assoc. }
  destruct r1 as [u1|e1]; [|by injection H as <- <-].
  destruct (copy2 _ _ w1) as [r2 w2] eqn:E2.
  pose proof (copy2_cwd _ _ _ _ _ E2) as C2.
  assert (K2 : fs w2 !! k = fs w !! k).
  { rewrite <- K1. eapply copy2_other; [exact E2|..];
      rewrite !(abs_key_cwd w w1), !abs_key_under, stored_key_split by done.
    - apply N. by destruct (removelast rel).
    - rewrite <- app_assoc. apply N. by destruct (removelast rel). }
  destruct r2 as [u2|e2]; [|by injection H as <- <-].
  destruct (_log_backup _ _ _ _ w2) as [r3 w3] eqn:E3.
  apply log_backup_effects in E3 as (C3 & _ & F3).
  assert (K3 : fs w3 !! k = fs w !! k).
  { rewrite <- K2. apply F3.
    rewrite (abs_key_cwd w w2), backup_log_key_eq by congruence.
    intros ->. by rewrite below_backup_log in Hb. }
  destruct r3; by injection H as <- <-.
Qed.

Lemma read_log_ext root w w' :
  cwd w' = cwd w ->
  fs w' !! backup_log_key w root = fs w !! backup_log_key w root ->
  read_log (manager_of root) w' = read_log (manager_of root) w.
Proof.
  intros C F. unfold read_log, node_at.
  rewrite (abs_key_cwd w w') by done. rewrite backup_log_key_eq. by rewrite F.
Qed.

Lemma read_log_Some_file root w l :
  read_log (manager_of root) w = Some l ->
  exists text mt, fs w !! backup_log_key w root = Some (File text mt).
Proof.
  unfold read_log, node_at. rewrite backup_log_key_eq.
  destruct (fs w !! backup_log_key w root) as [[text mt|]|]; try done. eauto.
Qed.

(** A capture that returns appends one entry to the log; a capture that
    raises leaves the log as it was. *)
Lemma capture_steps_log root rel reason w r w' l :
  read_log (manager_of root) w = Some l ->
  capture_steps root rel reason w = (r, w') ->
  (exists e, r = Ok (Some (under root (stored_rel rel (clock w (ticks w)))))
             /\ read_log (manager_of root) w' = Some (l ++ [e]))
  \/ (exists ex, r = Raise ex /\ read_log (manager_of root) w' = Some l).
Proof.
  intros Hl H. destruct (read_log_Some_file _ _ _ Hl) as (text & mt & Hf).
  unfold capture_steps in H.
  destruct (mkdir_parents _ (tick w)) as [r1 w1] eqn:E1.
  pose proof (mkdir_parents_cwd _ _ _ _ E1) as C1. simpl in C1.
  assert (K1 : fs w1 !! backup_log_key w root = fs w !! backup_log_key w root).
  { rewrite Hf. eapply mkdir_parents_keeps; [exact E1|exact Hf]. }
  destruct r1 as [u1|e1].
  2:{ injection H as <- <-. right. eexists. split; [done|].
      rewrite <- Hl. by apply read_log_ext. }
  destruct (copy2 _ _ w1) as [r2 w2] eqn:E2.
  pose proof (copy2_cwd _ _ _ _ _ E2) as C2.
  assert (K2 : fs w2 !! backup_log_key w root = fs w !! backup_log_key w root).
  { rewrite <- K1. eapply copy2_other; [exact E2|..];
      rewrite !(abs_key_cwd w w1), !abs_key_under by done; intros E; symmetry in E.
    - by apply stored_key_not_log in E.
    - by apply stored_into_not_log in E. }
  assert (L2 : read_log (manager_of root) w2 = Some l).
  { rewrite <- Hl. apply read_log_ext; [congruence|done]. }
  destruct r2 as [u2|e2].
  2:{ injection H as <- <-. right. eauto. }
  destruct (_log_backup _ _ _ _ w2) as [r3 w3] eqn:E3.
  destruct (log_backup_log _ _ _ _ _ _ _ _ L2 E3) as [(e & -> & L3)|(ex & -> & F3 & C3)].
  - injection H as <- <-. left. eauto.
  - injection H as <- <-. right. eexists. split; [done|].
    rewrite <- L2. apply (read_log_ext root w2 w3); [done|]. by rewrite F3.
Qed.

Lemma length_removelast_ge {A} (l : list A) :
  (List.length l <= S (List.length (removelast l)))%nat.
Proof. induction l as [|a [|b l] IH]; simpl in *; lia. Qed.

Lemma source_not_stored w root rel now :
  abs_key w root ++ rel <> abs_key w root ++ stored_rel rel now.
Proof.
  intros E. apply app_inv_head in E. apply (f_equal List.length) in E.
  unfold stored_rel in E. simpl in E. rewrite length_app in E. simpl in E.
  pose proof (length_removelast_ge rel). lia.
Qed.

Lemma source_not_stored_into w root rel now x :
  abs_key w root ++ rel <> (abs_key w root ++ stored_rel rel now) ++ [x].
Proof.
  rewrite <- app_assoc. intros E. apply app_inv_head in E.
  apply (f_equal List.length) in E.
  unfold stored_rel in E. simpl in E. rewrite !length_app in E. simpl in E.
  pose proof (length_removelast_ge rel). lia.
Qed.

Lemma backup_file_log root file_path reason w r w' l :
  read_log (manager_of root) w = Some l ->
  backup_file (manager_of root) file_path reason w = (r, w') ->
  (exists e backup_path, r = Ok (Some backup_path)
      /\ read_log (manager_of root) w' = Some (l ++ [e]))
  \/ ((forall backup_path, r <> Ok (Some backup_path))
      /\ read_log (manager_of root) w' = Some l).
Proof.
  intros Hl H.
  destruct (backup_file_cases root file_path reason w) as [E|[E|(rel & -> & _ & E)]];
    rewrite E in H.
  - injection H as <- <-. right. done.
  - injection H as <- <-. right. done.
  - destruct (capture_steps_log _ _ _ _ _ _ _ Hl H) as [(e & -> & L)|(ex & -> & L)].
    + left. eauto.
    + right. done.
Qed.

Lemma backup_file_source_kept root file_path reason w r w' n :
  backup_file (manager_of root) file_path reason w = (r, w') ->
  node_at w file_path = Some n ->
  abs_key w file_path <> backup_log_key w root ->
  cwd w' = cwd w /\ node_at w' file_path = Some n.
Proof.
  intros H Hn Hlog.
  destruct (backup_file_cases root file_path reason w) as [E|[E|(rel & -> & _ & E)]];
    rewrite E in H.
  - by injection H as <- <-.
  - by injection H as <- <-.
  - apply capture_steps_keeps in H as [C K]. split; [done|].
    unfold node_at in *. rewrite (abs_key_cwd w w') by done.
    rewrite abs_key_under in *. apply K; try done.
    + apply source_not_stored.
    + apply source_not_stored_into.
Qed.

Lemma backup_file_outside root file_path reason w r w' dm k :
  backup_file (manager_of root) file_path reason w = (r, w') ->
  fs w !! backup_dir_key w root = Some (Dir dm) ->
  below (backup_dir_key w root) k = false -> fs w' !! k = fs w !! k.
Proof.
  intros H Hd Hb.
  destruct (backup_file_cases root file_path reason w) as [E|[E|(rel & -> & _ & E)]];
    rewrite E in H.
  - by injection H as <- <-.
  - by injection H as <- <-.
  - eauto using capture_steps_outside.
Qed.

(** When capture goes through: the source is a regular file, the backup
    directory exists, no regular file stands where a directory of the copy is
    needed, the place of the copy is not a directory and the log parses. *)
Lemma capture_steps_ok root rel reason w data mt dm l :
  fs w !! (abs_key w root ++ rel) = Some (File data mt) ->
  fs w !! backup_dir_key w root = Some (Dir dm) ->
  (forall p, p `prefix_of` removelast rel ->
             is_file (fs w !! (backup_dir_key w root ++ p)) = false) ->
  is_dir (fs w !! stored_key w root rel) = false ->
  read_log (manager_of root) w = Some l ->
  exists w',
    capture_steps root rel reason w
    = (Ok (Some (under root (stored_rel rel (clock w (ticks w))))), w')
    /\ fs w' !! stored_key w root rel = Some (File data mt)
    /\ read_log (manager_of root) w' = Some (l ++ [log_entry_of rel reason data w])
    /\ cwd w' = cwd w /\ clock w' = clock w /\ ticks w' = S (S (ticks w)).
Proof.
  intros Hsrc Hdir Hfree Hdst Hl.
  assert (Hlog : exists text lmt,
            fs w !! backup_log_key w root = Some (File text lmt)
            /\ json_loads text = Some l).
  { unfold read_log, node_at in Hl. rewrite backup_log_key_eq in Hl.
    destruct (fs w !! backup_log_key w root) as [[text lmt|]|]; try done. eauto. }
  destruct Hlog as (text & lmt & Hlogf & Hparse).
  set (stored := stored_key w root rel) in *.
  assert (Est : stored = (backup_dir_key w root ++ removelast rel)
                         ++ [stored_name rel (clock w (ticks w))]).
  { unfold stored, stored_key. rewrite stored_key_split. by rewrite app_assoc. }
  (* mkdir *)
  destruct (mkdir_rev_ok (os_time (tick w)) _ _ _ (removelast rel) Hdir Hfree)
    as (m1 & E1 & D1).
  assert (K1 : forall k n, fs w !! k = Some n -> m1 !! k = Some n).
  { intros k n Hk. eapply mkdir_rev_keeps; [exact E1|exact Hk]. }
  assert (S1 : m1 !! stored = fs w !! stored).
  { eapply mkdir_rev_off_path; [exact E1|]. rewrite rev_involutive, Est.
    apply prefix_snoc_not. }
  unfold capture_steps.
  assert (M : mkdir_parents (under root (".config_backup" :: removelast rel)) (tick w)
              = (Ok tt, set_fs (tick w) m1)).
  { unfold mkdir_parents, lift_fs. rewrite abs_key_tick, abs_key_under.
    change (abs_key w root ++ ".config_backup" :: removelast rel)
      with (abs_key w root ++ [".config_backup"] ++ removelast rel).
    rewrite app_assoc. fold (backup_dir_key w root).
    change (fs (tick w)) with (fs w). by rewrite E1. }
  rewrite M. clear M.
  (* copy2 *)
  assert (C : copy2 (under root rel) (under root (stored_rel rel (clock w (ticks w))))
                    (set_fs (tick w) m1)
              = (Ok tt, set_fs (tick w) (<[stored := File data mt]> m1))).
  { unfold copy2, lift_fs, copy2_fs, copy2_key.
    change (abs_key (set_fs (tick w) m1)) with (abs_key w).
    change (fs (set_fs (tick w) m1)) with m1.
    rewrite !abs_key_under. fold stored.
    change (abs_key w root ++ stored_rel rel (clock w (ticks w))) with stored.
    rewrite S1, Hdst.
    rewrite (bool_decide_eq_false_2 (abs_key w root ++ rel = stored))
      by apply source_not_stored.
    simpl. rewrite (K1 _ _ Hsrc).
    unfold store_file. rewrite S1.
    destruct (fs w !! stored) as [[]|] eqn:Hs; try done.
    rewrite Est at 1. rewrite removelast_last.
    destruct (m1 !! (backup_dir_key w root ++ removelast rel)) as [[]|]; done. }
  rewrite C. clear C.
  (* _log_backup *)
  set (m2 := <[stored := File data mt]> m1).
  assert (Nlog : stored <> backup_log_key w root) by apply stored_key_not_log.
  assert (Nsrc : stored <> abs_key w root ++ rel).
  { intros E. symmetry in E. by apply source_not_stored in E. }
  rewrite log_backup_unfold. unfold node_at.
  change (abs_key (set_fs (tick w) m2)) with (abs_key w).
  change (abs_key (tick (set_fs (tick w) m2))) with (abs_key w).
  change (fs (set_fs (tick w) m2)) with m2.
  change (fs (tick (set_fs (tick w) m2))) with m2.
  rewrite backup_log_key_eq.
  assert (L2 : m2 !! backup_log_key w root = Some (File text lmt)).
  { unfold m2. rewrite lookup_insert_ne by done. by apply K1. }
  rewrite L2, Hparse. cbv zeta.
  change (project_root (manager_of root)) with root.
  rewrite !relative_to_under, abs_key_under.
  assert (S2 : m2 !! (abs_key w root ++ rel) = Some (File data mt)).
  { unfold m2. rewrite lookup_insert_ne by done. by apply K1. }
  rewrite S2.
  erewrite write_text_file; last first.
  { unfold node_at.
    change (abs_key (tick (set_fs (tick w) m2))) with (abs_key w).
    rewrite backup_log_key_eq. exact L2. }
  eexists. split; [reflexivity|].
  change (abs_key (tick (set_fs (tick w) m2))) with (abs_key w).
  rewrite backup_log_key_eq.
  split; [|split; [|done]].
  - cbn [fs set_fs]. rewrite lookup_insert_ne by done.
    change (fs (tick (set_fs (tick w) m2))) with m2.
    unfold m2. by rewrite lookup_insert_eq.
  - unfold read_log, node_at.
    rewrite (abs_key_cwd w _ (backup_log (manager_of root))) by reflexivity.
    rewrite backup_log_key_eq. cbn [fs set_fs].
    rewrite lookup_insert_eq. apply json_loads_dumps.
Qed.

Lemma no_file_on_path_prefix m l : forall d p,
  no_file_on_path m d l = true -> p `prefix_of` l -> is_file (m !! (d ++ p)) = false.
Proof.
  induction l as [|x l IH]; intros d p H Hp; simpl in H;
    apply andb_true_iff in H as [H1 H2]; apply negb_true_iff in H1.
  - apply prefix_nil_inv in Hp as ->. by rewrite app_nil_r.
  - destruct p as [|y p]; [by rewrite app_nil_r|].
    pose proof (prefix_cons_inv_1 _ _ _ _ Hp) as ->.
    apply prefix_cons_inv_2 in Hp.
    rewrite (cons_middle x d p), app_assoc. by apply IH.
Qed.

Lemma backup_file_ready root rel reason w :
  capture_ready root rel w = true ->
  exists data mt l w',
    node_at w (under root rel) = Some (File data mt)
    /\ read_log (manager_of root) w = Some l
    /\ backup_file (manager_of root) (under root rel) reason w
       = (Ok (Some (under root (stored_rel rel (clock w (ticks w))))), w')
    /\ fs w' !! stored_key w root rel = Some (File data mt)
    /\ read_log (manager_of root) w' = Some (l ++ [log_entry_of rel reason data w])
    /\ cwd w' = cwd w /\ clock w' = clock w /\ ticks w' = S (S (ticks w)).
Proof.
  unfold capture_ready. rewrite !andb_true_iff.
  intros [[[[Hsrc Hdir] Hfree] Hdst] Hlog].
  apply negb_true_iff in Hdst. apply bool_decide_eq_true in Hlog as [l Hl].
  destruct (fs w !! (abs_key w root ++ rel)) as [[data mt|]|] eqn:Es; try done.
  destruct (fs w !! backup_dir_key w root) as [[|dm]|] eqn:Ed; try done.
  assert (F : forall p, p `prefix_of` removelast rel ->
                        is_file (fs w !! (backup_dir_key w root ++ p)) = false).
  { intros p Hp. by apply (no_file_on_path_prefix _ (removelast rel)). }
  destruct (capture_steps_ok root rel reason w data mt dm l Es Ed F Hdst Hl)
    as (w' & E & R).
  exists data, mt, l, w'.
  assert (Hn : node_at w (under root rel) = Some (File data mt)).
  { unfold node_at. by rewrite abs_key_under. }
  split; [done|]. split; [done|]. split; [|done].
  rewrite backup_file_under; [done|]. by rewrite Hn.
Qed.

End Steps.

(** ** The steps of the retention sweep *)

Lemma sweep_one_spec cutoff k w :
  sweep_one cutoff k w =
  match fs w !! k with
  | None => (Raise FileNotFoundError, w)
  | Some (File _ mt) =>
    if mt <? cutoff then (Ok tt, set_fs w (delete k (fs w))) else (Ok tt, w)
  | Some (Dir mt) =>
    if mt <? cutoff then (Raise IsADirectoryError, w) else (Ok tt, w)
  end.
Proof.
  unfold sweep_one, stat_key, path_stat, node_at, abs_key, bind, unlink_key, ret.
  simpl. destruct (fs w !! k) as [[d mt|mt]|] eqn:E; simpl; try reflexivity.
  - destruct (mt <? cutoff); [|reflexivity]. by rewrite E.
  - destruct (mt <? cutoff); [|reflexivity]. by rewrite E.
Qed.

Lemma prune_one_spec d w :
  prune_one d w =
  (Ok tt, if is_dir (fs w !! d) && negb (has_entry (fs w) d)
          then set_fs w (delete d (fs w)) else w).
Proof.
  unfold prune_one, try_except, bind, any_iterdir, rmdir_key, ret.
  destruct (fs w !! d) as [[data mt|mt]|] eqn:E; simpl; try reflexivity.
  destruct (has_entry (fs w) d) eqn:Hh; simpl; [reflexivity|].
  by rewrite E, Hh.
Qed.

Lemma sweep_one_frame cutoff k0 w r w' :
  sweep_one cutoff k0 w = (r, w') ->
  cwd w' = cwd w /\ clock w' = clock w /\ ticks w' = ticks w
  /\ forall k, fs w' !! k = fs w !! k
            \/ (k = k0 /\ expired_file (fs w) cutoff k = true /\ fs w' !! k = None).
Proof.
  rewrite sweep_one_spec. unfold expired_file.
  destruct (fs w !! k0) as [[d mt|mt]|] eqn:E.
  - destruct (mt <? cutoff) eqn:Hc; intros [= <- <-]; [|auto 6].
    simpl. repeat split. intros k.
    destruct (decide (k = k0)) as [->|Hne].
    + right. by rewrite E, Hc, lookup_delete_eq.
    + left. by rewrite lookup_delete_ne.
  - destruct (mt <? cutoff); intros [= <- <-]; auto 6.
  - intros [= <- <-]; auto 6.
Qed.

(** The first loop changes the state only by deleting expired files it was
    given. *)
Lemma sweep_loop_frame cutoff ks : forall w r w',
  for_each ks (sweep_one cutoff) w = (r, w') ->
  cwd w' = cwd w /\ clock w' = clock w /\ ticks w' = ticks w
  /\ forall k, fs w' !! k = fs w !! k
            \/ (k ∈ ks /\ expired_file (fs w) cutoff k = true /\ fs w' !! k = None).
Proof.
  induction ks as [|k0 ks IH]; intros w r w'; simpl.
  - intros [= <- <-]. auto 6.
  - unfold bind at 1.
    destruct (sweep_one cutoff k0 w) as [r1 w1] eqn:E1.
    apply sweep_one_frame in E1 as (C1 & K1 & T1 & F1).
    assert (G : forall k, fs w1 !! k = fs w !! k \/
                (k ∈ k0 :: ks /\ expired_file (fs w) cutoff k = true
                 /\ fs w1 !! k = None)).
    { intros k. destruct (F1 k) as [?|(-> & ? & ?)]; [by left|].
      right. split; [apply elem_of_cons; by left|done]. }
    destruct r1 as [u|e]; [|intros [= <- <-]; auto 6].
    intros H. apply IH in H as (C & K & T & F).
    repeat split; try congruence. intros k.
    destruct (F k) as [Fk|(Hin & He & Fk)].
    + destruct (G k) as [Gk|(Gin & Ge & Gk)]; [left; congruence|].
      right. repeat split; [done..|congruence].
    + right. split; [apply elem_of_cons; by right|]. split; [|done].
      destruct (F1 k) as [Fk1|(_ & _ & Fk1)].
      * unfold expired_file in *. by rewrite <- Fk1.
      * unfold expired_file in He. by rewrite Fk1 in He.
Qed.

Lemma prune_one_frame d w r w' :
  prune_one d w = (r, w') ->
  r = Ok tt /\ cwd w' = cwd w /\ clock w' = clock w /\ ticks w' = ticks w
  /\ forall k, fs w' !! k = fs w !! k
            \/ (k = d /\ is_dir (fs w !! k) = true /\ fs w' !! k = None).
Proof.
  rewrite prune_one_spec.
  destruct (is_dir (fs w !! d) && negb (has_entry (fs w) d)) eqn:Hd;
    intros [= <- <-]; [|auto 7].
  simpl. repeat split. intros k.
  destruct (decide (k = d)) as [->|Hne].
  - right. rewrite lookup_delete_eq. by apply andb_true_iff in Hd as [-> _].
  - left. by rewrite lookup_delete_ne.
Qed.

(** The second loop never raises and changes the state only by deleting
    directories. *)
Lemma prune_loop_frame ds : forall w r w',
  for_each ds prune_one w = (r, w') ->
  r = Ok tt /\ cwd w' = cwd w /\ clock w' = clock w /\ ticks w' = ticks w
  /\ forall k, fs w' !! k = fs w !! k
            \/ (k ∈ ds /\ is_dir (fs w !! k) = true /\ fs w' !! k = None).
Proof.
  induction ds as [|d ds IH]; intros w r w'; simpl.
  - intros [= <- <-]. auto 7.
  - unfold bind at 1.
    destruct (prune_one d w) as [r1 w1] eqn:E1.
    apply prune_one_frame in E1 as (-> & C1 & K1 & T1 & F1).
    intros H. apply IH in H as (R & C & K & T & F).
    repeat split; try congruence. intros k.
    destruct (F k) as [Fk|(Hin & He & Fk)].
    + destruct (F1 k) as [Gk|(-> & Ge & Gk)]; [left; congruence|].
      right. split; [apply elem_of_cons; by left|]. split; [done|congruence].
    + right. split; [apply elem_of_cons; by right|]. split; [|done].
      destruct (F1 k) as [Fk1|(_ & _ & Fk1)].
      * by rewrite <- Fk1.
      * by rewrite Fk1 in He.
Qed.

Section Sweep.

Context {codec : JsonCodec}.

Lemma cleanup_unfold self keep_days w :
  cleanup_old_backups self keep_days w =
  let cutoff_time := cutoff_of (clock w (ticks w)) keep_days in
  let found := found_backups (fs w) (abs_key w (backup_dir self)) in
  match for_each found (sweep_one cutoff_time) (tick w) with
  | (Raise e, w1) => (Raise e, w1)
  | (Ok _, w1) =>
    let dirs := dirs_below (fs w1) (abs_key w1 (backup_dir self)) in
    match for_each (merge_sort deeper dirs) prune_one w1 with
    | (Raise e, w2) => (Raise e, w2)
    | (Ok _, w2) => (Ok tt, w2)
    end
  end.
Proof.
  unfold cleanup_old_backups, bind, datetime_now, rglob_contains, rglob_dirs, ret.
  fold (tick w). cbv zeta.
  change (fs (tick w)) with (fs w). change (abs_key (tick w)) with (abs_key w).
  fold (found_backups (fs w) (abs_key w (backup_dir self))).
  destruct (for_each _ _ (tick w)) as [[u|e] w1]; [|reflexivity].
  fold (dirs_below (fs w1) (abs_key w1 (backup_dir self))).
  destruct (for_each _ prune_one w1) as [[u2|e] w2]; reflexivity.
Qed.

Lemma last_backup_log_key w root : List.last (backup_log_key w root) "" = "backup_log.json".
Proof.
  unfold backup_log_key.
  change [".config_backup"; "backup_log.json"] with ([".config_backup"] ++ ["backup_log.json"]).
  rewrite app_assoc. apply last_last.
Qed.

(** The sweep leaves every node that is not a directory and whose name has
    no [.backup.] in it; in particular the log. *)
Lemma cleanup_keeps self keep_days w r w' k :
  cleanup_old_backups self keep_days w = (r, w') ->
  Str.contains ".backup." (List.last k "") = false ->
  is_dir (fs w !! k) = false ->
  cwd w' = cwd w /\ fs w' !! k = fs w !! k.
Proof.
  rewrite cleanup_unfold. cbv zeta. intros H Hname Hdir.
  destruct (for_each _ _ (tick w)) as [r1 w1] eqn:E1.
  apply sweep_loop_frame in E1 as (C1 & _ & _ & F1). simpl in C1.
  assert (K1 : fs w1 !! k = fs w !! k).
  { destruct (F1 k) as [Fk|(Hin & _ & _)]; [done|].
    apply list_elem_of_filter in Hin as [Hc _]. congruence. }
  destruct r1 as [u|e]; [|by injection H as <- <-].
  destruct (for_each _ prune_one w1) as [r2 w2] eqn:E2.
  apply prune_loop_frame in E2 as (-> & C2 & _ & _ & F2).
  injection H as <- <-. split; [congruence|].
  destruct (F2 k) as [Fk|(_ & Hd & _)]; [congruence|].
  rewrite K1 in Hd. congruence.
Qed.

End Sweep.

(** ** The stamp of a copy determines the second of its capture *)

Lemma digit_inj a b : digit a = digit b -> a mod 10 = b mod 10.
Proof.
  unfold digit. intros H. apply (f_equal N_of_ascii) in H.
  rewrite !N_ascii_embedding in H by (apply N2Z.inj_lt; rewrite Z2N.id;
    [pose proof (Z.mod_pos_bound a 10); pose proof (Z.mod_pos_bound b 10); simpl; lia
    |pose proof (Z.mod_pos_bound a 10); pose proof (Z.mod_pos_bound b 10); lia]).
  apply (f_equal Z.of_N) in H.
  rewrite !Z2N.id in H
    by (pose proof (Z.mod_pos_bound a 10); pose proof (Z.mod_pos_bound b 10); lia).
  lia.
Qed.

Lemma pad2_inj a b r r' :
  0 <= a < 100 -> 0 <= b < 100 -> pad2 a r = pad2 b r' -> a = b /\ r = r'.
Proof.
  unfold pad2. intros Ha Hb [= H1 H2 ->].
  apply digit_inj in H1, H2. split; [|done].
  revert H1 H2. Z.div_mod_to_equations. lia.
Qed.

Lemma pad4_inj a b r r' :
  0 <= a < 10000 -> 0 <= b < 10000 -> pad4 a r = pad4 b r' -> a = b /\ r = r'.
Proof.
  unfold pad4, pad2. intros Ha Hb [= H1 H2 H3 H4 ->].
  apply digit_inj in H1, H2, H3, H4. split; [|done].
  revert H1 H2 H3 H4. Z.div_mod_to_equations. lia.
Qed.

Lemma String_tail_inj c s s' : String c s = String c s' -> s = s'.
Proof. by intros [= ->]. Qed.

Lemma same_second_strftime d1 d2 : same_second d1 d2 -> strftime d1 = strftime d2.
Proof. unfold strftime. by intros (-> & -> & -> & -> & -> & ->). Qed.

Lemma strftime_inj d1 d2 :
  valid_datetime d1 -> valid_datetime d2 ->
  strftime d1 = strftime d2 -> same_second d1 d2.
Proof.
  unfold valid_datetime, strftime, same_second. intros V1 V2 H.
  apply pad4_inj in H as [Hy H]; [|lia..].
  apply pad2_inj in H as [Hm H]; [|lia..].
  apply pad2_inj in H as [Hd H]; [|lia..].
  apply String_tail_inj in H.
  apply pad2_inj in H as [Hh H]; [|lia..].
  apply pad2_inj in H as [Hmi H]; [|lia..].
  apply pad2_inj in H as [Hs H]; [|lia..].
  done.
Qed.

(** Readings more than one second apart do not share a stamp. *)
Lemma strftime_apart d1 d2 :
  valid_datetime d1 -> valid_datetime d2 ->
  Z.abs (total_microseconds d1 - total_microseconds d2) > us_per_second ->
  strftime d1 <> strftime d2.
Proof.
  intros V1 V2 Hfar E. apply strftime_inj in E; [|done..].
  destruct E as (Hy & Hm & Hd & Hh & Hmi & Hs).
  unfold total_microseconds, total_seconds, toordinal, us_per_second in Hfar.
  rewrite Hy, Hm, Hd, Hh, Hmi, Hs in Hfar.
  unfold valid_datetime in *. lia.
Qed.

Lemma string_app_inv_head a : forall b b', a +:+ b = a +:+ b' -> b = b'.
Proof. induction a as [|c a IH]; intros b b'; simpl; [done|]. intros [= H]. auto. Qed.

Lemma string_app_assoc a b c : (a +:+ b) +:+ c = a +:+ (b +:+ c).
Proof.
  induction a as [|x a IH]; [reflexivity|].
  change (String x ((a +:+ b) +:+ c) = String x (a +:+ (b +:+ c))).
  by rewrite IH.
Qed.

Lemma concat_snoc sep x pre n :
  String.concat sep ((x :: pre) ++ [n]) = String.concat sep (x :: pre) +:+ sep +:+ n.
Proof.
  revert x. induction pre as [|y pre IH]; intros x; [reflexivity|].
  change (String.concat sep ((x :: y :: pre) ++ [n]))
    with (x +:+ sep +:+ String.concat sep ((y :: pre) ++ [n])).
  rewrite IH.
  change (String.concat sep (x :: y :: pre))
    with (x +:+ sep +:+ String.concat sep (y :: pre)).
  by rewrite !string_app_assoc.
Qed.

Lemma stored_rel_inj rel d1 d2 :
  stored_rel rel d1 = stored_rel rel d2 -> strftime d1 = strftime d2.
Proof.
  unfold stored_rel, stored_name. intros [= H].
  apply app_inv_head in H. injection H as H.
  apply string_app_inv_head in H. by apply string_app_inv_head in H.
Qed.

Lemma stored_rel_str_inj rel d1 d2 :
  path_str (mkPath false (stored_rel rel d1)) = path_str (mkPath false (stored_rel rel d2)) ->
  strftime d1 = strftime d2.
Proof.
  unfold path_str, stored_rel. cbn [anchored parts].
  rewrite !app_comm_cons, !concat_snoc. intros H.
  apply string_app_inv_head in H. apply string_app_inv_head in H.
  unfold stored_name in H.
  apply string_app_inv_head in H. by apply string_app_inv_head in H.
Qed.

(** ** What the sweep finds *)

Lemma elem_of_keys (m : FS) k : k ∈ (map_to_list m).*1 <-> is_Some (m !! k).
Proof.
  rewrite list_elem_of_fmap. split.
  - intros ([k' n] & -> & H). apply elem_of_map_to_list in H. simpl. eauto.
  - intros [n H]. exists (k, n). split; [done|]. by apply elem_of_map_to_list.
Qed.

Lemma elem_of_descendants m d k :
  k ∈ descendants m d <-> is_dir (m !! d) = true /\ below d k = true /\ is_Some (m !! k).
Proof.
  unfold descendants. destruct (is_dir (m !! d)).
  - rewrite list_elem_of_filter, elem_of_keys. naive_solver.
  - rewrite elem_of_nil. naive_solver.
Qed.

Lemma NoDup_descendants m d : NoDup (descendants m d).
Proof.
  unfold descendants. destruct (is_dir (m !! d)); [|constructor].
  apply NoDup_filter, NoDup_fst_map_to_list.
Qed.

Lemma elem_of_found_backups m d k :
  k ∈ found_backups m d <->
  Str.contains ".backup." (List.last k "") = true
  /\ is_dir (m !! d) = true /\ below d k = true /\ is_Some (m !! k).
Proof. unfold found_backups. by rewrite list_elem_of_filter, elem_of_descendants. Qed.

Lemma elem_of_dirs_below m d k :
  k ∈ dirs_below m d <->
  is_dir (m !! k) = true /\ is_dir (m !! d) = true /\ below d k = true.
Proof.
  unfold dirs_below. rewrite list_elem_of_filter, elem_of_descendants.
  split; [naive_solver|]. intros (Hk & Hd & Hb). repeat split; try done.
  destruct (m !! k); [eauto|done].
Qed.

Lemma has_entry_iff m d :
  has_entry m d = true <-> exists c, is_Some (m !! c) /\ removelast c = d /\ c <> [].
Proof.
  unfold has_entry. rewrite bool_decide_eq_true, Exists_exists.
  split.
  - intros (c & Hc & H1 & H2). exists c. by rewrite <- elem_of_keys.
  - intros (c & Hc & H1 & H2). exists c. by rewrite elem_of_keys.
Qed.

Lemma length_removelast_child {A} (c : list A) :
  c <> [] -> List.length c = S (List.length (removelast c)).
Proof.
  intros Hc. destruct (exists_last Hc) as (l & x & ->).
  rewrite removelast_last, length_app. simpl. lia.
Qed.

#[global] Instance deeper_total : Total deeper.
Proof. intros a b. unfold deeper. lia. Qed.

#[global] Instance deeper_trans : Transitive deeper.
Proof. intros a b c. unfold deeper. lia. Qed.

(** A first loop that ends normally leaves nothing expired among the paths
    it was given. *)
Lemma sweep_loop_post cutoff ks : forall w w',
  for_each ks (sweep_one cutoff) w = (Ok tt, w') ->
  forall k, k ∈ ks -> expired_node (fs w') cutoff k = false.
Proof.
  induction ks as [|k0 ks IH]; intros w w' H k Hk; [by apply elem_of_nil in Hk|].
  simpl in H. unfold bind at 1 in H.
  destruct (sweep_one cutoff k0 w) as [[u|e] w1] eqn:E1; [|done].
  apply elem_of_cons in Hk as [->|Hk]; [|by eapply IH].
  apply sweep_loop_frame in H as (_ & _ & _ & F).
  assert (H1 : expired_node (fs w1) cutoff k0 = false).
  { rewrite sweep_one_spec in E1. unfold expired_node.
    destruct (fs w !! k0) as [[d mt|mt]|] eqn:E0; [| |done].
    - destruct (mt <? cutoff) eqn:Hc; inversion E1; subst; simpl.
      + by rewrite lookup_delete_eq.
      + by rewrite E0, Hc.
    - destruct (mt <? cutoff) eqn:Hc; [done|]. inversion E1; subst.
      by rewrite E0, Hc. }
  unfold expired_node in *.
  destruct (F k0) as [-> | (_ & _ & ->)]; done.
Qed.

(** A first loop over paths that exist and are not expired does nothing. *)
Lemma sweep_loop_noop cutoff ks w :
  (forall k, k ∈ ks -> is_Some (fs w !! k) /\ expired_node (fs w) cutoff k = false) ->
  for_each ks (sweep_one cutoff) w = (Ok tt, w).
Proof.
  induction ks as [|k0 ks IH]; intros H; [reflexivity|].
  simpl. unfold bind at 1. rewrite sweep_one_spec.
  destruct (H k0) as [[n Hn] He]; [apply elem_of_cons; by left|].
  unfold expired_node in He. rewrite Hn in He |- *.
  assert (R : for_each ks (sweep_one cutoff) w = (Ok tt, w)).
  { apply IH. intros k Hk. apply H. apply elem_of_cons. by right. }
  destruct n as [d mt|mt]; rewrite He; exact R.
Qed.

(** A second loop over directories that all have an entry does nothing. *)
Lemma prune_loop_noop ds w :
  (forall k, k ∈ ds -> is_dir (fs w !! k) = true -> has_entry (fs w) k = true) ->
  for_each ds prune_one w = (Ok tt, w).
Proof.
  induction ds as [|d ds IH]; intros H; [reflexivity|].
  simpl. unfold bind at 1. rewrite prune_one_spec.
  assert (E : is_dir (fs w !! d) && negb (has_entry (fs w) d) = false).
  { destruct (is_dir (fs w !! d)) eqn:Hd; [|done].
    rewrite (H d); [done| |done]. apply elem_of_cons. by left. }
  rewrite E. apply IH. intros k Hk. apply H. apply elem_of_cons. by right.
Qed.

(** After a second loop over directories sorted deepest first, each of them
    that is still there has an entry: what it held when its turn came is a
    file, or a directory deeper than all that came after it. *)
Lemma prune_loop_post ds : forall w w',
  StronglySorted deeper ds ->
  for_each ds prune_one w = (Ok tt, w') ->
  forall k, k ∈ ds -> is_dir (fs w' !! k) = true -> has_entry (fs w') k = true.
Proof.
  induction ds as [|d ds IH]; intros w w' Hs H k Hk Hd;
    [by apply elem_of_nil in Hk|].
  apply StronglySorted_inv in Hs as [Hs Hall].
  simpl in H. unfold bind at 1 in H.
  destruct (prune_one d w) as [r1 w1] eqn:E1.
  pose proof E1 as P1. rewrite prune_one_spec in P1.
  apply prune_one_frame in E1 as (-> & _ & _ & _ & F1).
  apply elem_of_cons in Hk as [->|Hk]; [|by eapply IH].
  pose proof (prune_loop_frame _ _ _ _ H) as (_ & _ & _ & _ & F).
  assert (D1 : fs w' !! d = fs w1 !! d).
  { destruct (F d) as [?|(_ & _ & E)]; [done|]. by rewrite E in Hd. }
  assert (E0 : is_dir (fs w !! d) && negb (has_entry (fs w) d) = false).
  { destruct (is_dir (fs w !! d) && negb (has_entry (fs w) d)) eqn:E; [|done].
    inversion P1; subst. simpl in D1. rewrite lookup_delete_eq in D1.
    by rewrite D1 in Hd. }
  rewrite E0 in P1. inversion P1; subst.
  rewrite D1 in Hd. rewrite Hd in E0. simpl in E0. apply negb_false_iff in E0.
  apply has_entry_iff in E0 as (c & Hc & Hp & Hne).
  apply has_entry_iff. exists c. split; [|done].
  destruct (F c) as [-> | (Hin & _ & _)]; [done|].
  rewrite Forall_forall in Hall. specialize (Hall c Hin). unfold deeper in Hall.
  pose proof (length_removelast_child c Hne). rewrite Hp in *. lia.
Qed.

(** Over distinct paths that exist, none an expired directory, the first
    loop ends normally and deletes exactly the expired files among them. *)
Lemma sweep_loop_exact cutoff ks :
  NoDup ks -> forall w,
  (forall k, k ∈ ks -> is_Some (fs w !! k)) ->
  (forall k mt, k ∈ ks -> fs w !! k = Some (Dir mt) -> (mt <? cutoff) = false) ->
  exists w', for_each ks (sweep_one cutoff) w = (Ok tt, w')
    /\ forall k, fs w' !! k
                 = if bool_decide (k ∈ ks) && expired_file (fs w) cutoff k
                   then None else fs w !! k.
Proof.
  induction 1 as [|k0 ks Hnot Hnd IH]; intros w Hex Hdir.
  - exists w. split; [reflexivity|]. intros k.
    rewrite bool_decide_eq_false_2; [done|]. apply not_elem_of_nil.
  - simpl. unfold bind at 1. rewrite sweep_one_spec.
    destruct (Hex k0) as [n Hn]; [apply elem_of_cons; by left|]. rewrite Hn.
    assert (Hstep : forall w1,
      (forall k, k <> k0 -> fs w1 !! k = fs w !! k) ->
      fs w1 !! k0 = (if expired_file (fs w) cutoff k0 then None else fs w !! k0) ->
      exists w', for_each ks (sweep_one cutoff) w1 = (Ok tt, w')
        /\ forall k, fs w' !! k
             = if bool_decide (k ∈ k0 :: ks) && expired_file (fs w) cutoff k
               then None else fs w !! k).
    { intros w1 Hother Hk0.
      assert (Hin : forall k, k ∈ ks -> k <> k0) by (intros k Hk ->; done).
      destruct (IH w1) as (w' & E & F).
      - intros k Hk. rewrite Hother by auto. apply Hex, elem_of_cons. by right.
      - intros k mt Hk. rewrite Hother by auto. intros Hd.
        eapply Hdir; [|exact Hd]. apply elem_of_cons. by right.
      - exists w'. split; [exact E|]. intros k. rewrite F.
        destruct (decide (k = k0)) as [->|Hne].
        + rewrite (bool_decide_eq_false_2 (k0 ∈ ks)) by done.
          rewrite (bool_decide_eq_true_2 (k0 ∈ k0 :: ks)) by (apply elem_of_cons; by left).
          simpl. exact Hk0.
        + assert (Eb : bool_decide (k ∈ k0 :: ks) = bool_decide (k ∈ ks)).
          { apply bool_decide_ext. rewrite elem_of_cons. naive_solver. }
          rewrite Eb. unfold expired_file. by rewrite !Hother. }
    destruct n as [d mt|mt].
    + destruct (mt <? cutoff) eqn:Hc.
      * apply Hstep; simpl.
        -- intros k Hk. by rewrite lookup_delete_ne.
        -- unfold expired_file. by rewrite Hn, Hc, lookup_delete_eq.
      * apply Hstep; [done|]. unfold expired_file. by rewrite Hn, Hc.
    + rewrite (Hdir k0 mt) by (done || apply elem_of_cons; by left).
      apply Hstep; [done|]. unfold expired_file. by rewrite Hn.
Qed.

Section Properties.

Context {codec : JsonCodec}.

(** C2. Capture of a path that does not exist is a successful no-op: for
    every path without a node in the file system, [backup_file] returns
    [None], raises nothing and leaves the whole state as it was: the backup
    log lists what it listed (same length) and no file was created. *)
Theorem backup_file_missing_is_noop (self : BackupManager) (file_path : Path)
  (reason : string) (w : world) :
  node_at w file_path = None ->
  backup_file self file_path reason w = (Ok None, w)
  /\ fs (snd (backup_file self file_path reason w)) = fs w
  /\ list_backups self (snd (backup_file self file_path reason w))
     = list_backups self w.
Proof.
  intros Hnone.
  assert (E : backup_file self file_path reason w = (Ok None, w)).
  { unfold backup_file, bind, path_exists. rewrite Hnone.
    rewrite bool_decide_eq_false_2; [reflexivity|]. by intros [? ?]. }
  rewrite E. auto.
Qed.

Lemma run_captures_log root calls : forall w l,
  read_log (manager_of root) w = Some l ->
  exists l', read_log (manager_of root) (run_captures (manager_of root) calls w)
             = Some (l ++ l')
             /\ (List.length l' <= List.length calls)%nat.
Proof.
  induction calls as [|[file_path reason] calls IH]; intros w l Hl; simpl.
  - exists []. by rewrite app_nil_r.
  - destruct (backup_file (manager_of root) file_path reason w) as [r w'] eqn:E.
    simpl.
    destruct (backup_file_log _ _ _ _ _ _ _ Hl E) as [(e & bp & _ & L)|[_ L]].
    + destruct (IH _ _ L) as (l' & Hl' & Hlen).
      exists (e :: l'). rewrite <- app_assoc in Hl'. split; [done|simpl; lia].
    + destruct (IH _ _ L) as (l' & Hl' & Hlen). exists l'. split; [done|lia].
Qed.

Lemma under_backup_dir root l :
  under (backup_dir (manager_of root)) l = under root (".config_backup" :: l).
Proof. rewrite backup_dir_under. unfold under. simpl. by rewrite <- app_assoc. Qed.

Lemma strftime_length d : String.length (strftime d) = 15%nat.
Proof. reflexivity. Qed.

(** C9, as amended. Capture accepts the paths that are lexically below the
    project root, [project_root / rel] (for the absolute root the program
    uses: absolute paths under it): in a state ready for the capture,
    [relative_to] does not raise and [backup_file] returns, having stored the
    bytes and modification time of the source below the backup root, in the
    directory that mirrors the directory of the source, under the name
    [<original file name>.backup.<YYYYMMDD_HHMMSS>] (a stamp of 15
    characters). *)
Theorem backup_file_under_root (root : Path) (rel : list string)
  (reason : string) (w : world) :
  capture_ready root rel w = true ->
  let self := manager_of root in
  let stamp := strftime (clock w (ticks w)) in
  let backup_path :=
    under (backup_dir self) (removelast rel ++ [List.last rel "" +:+ ".backup." +:+ stamp]) in
  relative_to (under root rel) (project_root self) = Some (mkPath false rel)
  /\ (exists w',
        backup_file self (under root rel) reason w = (Ok (Some backup_path), w')
        /\ is_file (node_at w' backup_path) = true
        /\ node_at w' backup_path = node_at w (under root rel))
  /\ path_name backup_path = List.last rel "" +:+ ".backup." +:+ stamp
  /\ path_parent backup_path = under (backup_dir self) (removelast rel)
  /\ String.length stamp = 15%nat.
Proof.
  intros Hready self stamp backup_path. subst self stamp backup_path.
  split; [apply relative_to_under|]. split; [|split; [|split]].
  - destruct (backup_file_ready root rel reason w Hready)
      as (data & mt & l & w' & Hsrc & _ & E & Hst & _ & C & _).
    exists w'. rewrite under_backup_dir.
    assert (N : node_at w' (under root (stored_rel rel (clock w (ticks w))))
                = Some (File data mt)).
    { unfold node_at. rewrite (abs_key_cwd w w') by done.
      by rewrite abs_key_under. }
    split; [exact E|]. change (".config_backup" :: _) with (stored_rel rel (clock w (ticks w))).
    rewrite N, Hsrc. done.
  - unfold path_name, under. simpl. by rewrite !app_assoc, last_last.
  - apply path_parent_under_snoc.
  - apply strftime_length.
Qed.

Lemma under_inj root l l' : under root l = under root l' -> l = l'.
Proof. unfold under. intros [= H]. by apply app_inv_head in H. Qed.

(** C8. Uniqueness under the one-second granularity of the stamp. Two
    captures of the same file [project_root / rel], the first starting in the
    state [w], the second in a state [w'] (the state the first one left, or
    any later one, with the source rewritten or not), both ready for the
    capture, both return and each appends one entry to the log.  When the
    two readings of the clock are more than one second apart, the stored
    paths differ, the two log entries differ, and the first copy is still
    there after the second capture.  When the two readings fall in the same
    second, both captures name the same stored path: one file remains, and
    it holds what the source held at the second capture (last write wins). *)
Theorem capture_uniqueness (root : Path) (rel : list string)
  (reason1 reason2 : string) (w w' : world) :
  let self := manager_of root in
  let t1 := clock w (ticks w) in
  let t2 := clock w' (ticks w') in
  capture_ready root rel w = true -> capture_ready root rel w' = true ->
  cwd w' = cwd w -> valid_datetime t1 -> valid_datetime t2 ->
  exists p1 p2 l1 l2 e1 e2 w1 w2,
    backup_file self (under root rel) reason1 w = (Ok (Some p1), w1)
    /\ backup_file self (under root rel) reason2 w' = (Ok (Some p2), w2)
    /\ read_log self w = Some l1 /\ read_log self w1 = Some (l1 ++ [e1])
    /\ read_log self w' = Some l2 /\ read_log self w2 = Some (l2 ++ [e2])
    /\ is_file (node_at w1 p1) = true /\ is_file (node_at w2 p2) = true
    /\ (Z.abs (total_microseconds t1 - total_microseconds t2) > us_per_second ->
        p1 <> p2 /\ e_backup e1 <> e_backup e2 /\ e1 <> e2
        /\ forall n, node_at w' p1 = Some n -> node_at w2 p1 = Some n)
    /\ (same_second t1 t2 ->
        p1 = p2 /\ node_at w2 p2 = node_at w' (under root rel)).
Proof.
  intros self t1 t2 R1 R2 Hcwd V1 V2. subst self.
  destruct (backup_file_ready root rel reason1 w R1)
    as (d1 & m1 & l1 & w1 & S1 & L1 & E1 & F1 & L1' & C1 & _).
  destruct (backup_file_ready root rel reason2 w' R2)
    as (d2 & m2 & l2 & w2 & S2 & L2 & E2 & F2 & L2' & C2 & _).
  fold t1 in E1, F1. fold t2 in E2, F2.
  assert (Hroot : abs_key w' root = abs_key w root) by by apply abs_key_cwd.
  assert (N1 : node_at w1 (under root (stored_rel rel t1)) = Some (File d1 m1)).
  { unfold node_at. rewrite (abs_key_cwd w w1), abs_key_under by done. exact F1. }
  assert (N2 : node_at w2 (under root (stored_rel rel t2)) = Some (File d2 m2)).
  { unfold node_at. rewrite (abs_key_cwd w' w2), abs_key_under by done. exact F2. }
  exists (under root (stored_rel rel t1)), (under root (stored_rel rel t2)),
         l1, l2, (log_entry_of rel reason1 d1 w), (log_entry_of rel reason2 d2 w'),
         w1, w2.
  split; [done|]. split; [done|]. split; [done|]. split; [done|].
  split; [done|]. split; [done|].
  split; [by rewrite N1|]. split; [by rewrite N2|]. split.
  - intros Hfar. pose proof (strftime_apart t1 t2 V1 V2 Hfar) as Hne.
    assert (Hrel : stored_rel rel t1 <> stored_rel rel t2).
    { intros E. by apply stored_rel_inj in E. }
    split; [intros E; by apply under_inj in E|].
    assert (Hb : e_backup (log_entry_of rel reason1 d1 w)
                 <> e_backup (log_entry_of rel reason2 d2 w')).
    { unfold log_entry_of. cbn [e_backup]. fold t1 t2.
      intros E. by apply stored_rel_str_inj in E. }
    split; [done|]. split; [congruence|].
    intros n Hn.
    assert (Hs : is_Some (node_at w' (under root rel))) by (rewrite S2; eauto).
    rewrite (backup_file_under root rel reason2 w' Hs) in E2.
    apply capture_steps_keeps in E2 as [_ K].
    unfold node_at in *. rewrite (abs_key_cwd w' w2) by done.
    rewrite abs_key_under in *.
    apply K; [done| | |].
    + apply stored_key_not_log.
    + unfold stored_key. fold t2. intros E. apply app_inv_head in E. done.
    + unfold stored_key. fold t2. rewrite <- app_assoc. intros E.
      apply app_inv_head in E. apply (f_equal List.length) in E.
      unfold stored_rel in E. simpl in E. rewrite !length_app in E.
      simpl in E. lia.
  - intros Hsame. apply same_second_strftime in Hsame.
    assert (Hrel : stored_rel rel t1 = stored_rel rel t2).
    { unfold stored_rel, stored_name. by rewrite Hsame. }
    split; [by rewrite Hrel|]. by rewrite N2, S2.
Qed.

(** C6, as amended. The retention sweep returns nothing ([None]); when the
    backup directory exists and no directory below it with [.backup.] in its
    name is older than the cutoff, it ends normally and the files it removed
    are exactly the stored backup files (files below the backup directory
    whose name matches [*.backup.*]) whose modification time is older than
    now minus [keep_days] days: every other file is kept as it was and no
    file appears. *)
Theorem cleanup_removes_expired (root : Path) (keep_days : Z) (w : world) :
  let self := manager_of root in
  let d := abs_key w (backup_dir self) in
  let cutoff := cutoff_of (clock w (ticks w)) keep_days in
  is_dir (fs w !! d) = true ->
  (forall k mt, below d k = true ->
                Str.contains ".backup." (List.last k "") = true ->
                fs w !! k = Some (Dir mt) -> (mt <? cutoff) = false) ->
  exists w',
    cleanup_old_backups self keep_days w = (Ok tt, w')
    /\ to_py tt = PyNone
    /\ (forall k data mt, fs w !! k = Some (File data mt) ->
          fs w' !! k
          = if below d k && Str.contains ".backup." (List.last k "") && (mt <? cutoff)
            then None else Some (File data mt))
    /\ (forall k data mt, fs w' !! k = Some (File data mt) ->
          fs w !! k = Some (File data mt)).
Proof.
  intros self d cutoff Hd Hdirs. subst self.
  rewrite cleanup_unfold. cbv zeta. fold d. fold cutoff.
  destruct (sweep_loop_exact cutoff (found_backups (fs w) d)) with (w := tick w)
    as (wA & E & F).
  { apply NoDup_filter, NoDup_descendants. }
  { intros k Hk. apply elem_of_found_backups in Hk. tauto. }
  { intros k mt Hk Hn. apply elem_of_found_backups in Hk as (Hc & _ & Hb & _).
    eapply Hdirs; eauto. }
  rewrite E.
  destruct (for_each _ prune_one wA) as [r2 w'] eqn:E2.
  apply prune_loop_frame in E2 as (-> & _ & _ & _ & F2).
  exists w'. split; [reflexivity|]. split; [reflexivity|].
  assert (Hfile : forall k data mt, fs w !! k = Some (File data mt) ->
            fs wA !! k
            = if below d k && Str.contains ".backup." (List.last k "") && (mt <? cutoff)
              then None else Some (File data mt)).
  { intros k data mt Hk. rewrite F. change (fs (tick w)) with (fs w).
    unfold expired_file. rewrite Hk.
    assert (Eb : bool_decide (k ∈ found_backups (fs w) d)
                 = below d k && Str.contains ".backup." (List.last k "")).
    { destruct (below d k) eqn:Hb, (Str.contains _ _) eqn:Hc; simpl.
      - apply bool_decide_eq_true. apply elem_of_found_backups.
        rewrite Hk. eauto.
      - apply bool_decide_eq_false. rewrite elem_of_found_backups.
        intros (H1 & _ & H2 & _). congruence.
      - apply bool_decide_eq_false. rewrite elem_of_found_backups.
        intros (H1 & _ & H2 & _). congruence.
      - apply bool_decide_eq_false. rewrite elem_of_found_backups.
        intros (H1 & _ & H2 & _). congruence. }
    by rewrite Eb. }
  split.
  - intros k data mt Hk. rewrite <- (Hfile k data mt Hk).
    destruct (F2 k) as [->|(_ & Hdk & _)]; [done|].
    rewrite (Hfile k data mt Hk) in Hdk. by destruct (_ && _).
  - intros k data mt Hk.
    assert (HA : fs wA !! k = Some (File data mt)).
    { destruct (F2 k) as [<-|(_ & _ & Hn)]; [done|congruence]. }
    rewrite F in HA. change (fs (tick w)) with (fs w) in HA.
    by destruct (_ && _).
Qed.

End Properties.

(** ** Further properties of the engine and of its callers *)

Section Extras.

Context {codec : JsonCodec}.

(** *** Restoring *)

Lemma abs_key_parent w t :
  parts t <> [] -> abs_key w t = (abs_key w (path_parent t) ++ [path_name t])%list.
Proof.
  intros H. unfold abs_key, path_parent, path_name. cbn [anchored parts].
  pose proof (app_removelast_last "" H) as E.
  destruct (anchored t); [done|]. rewrite <- app_assoc. by rewrite <- E.
Qed.

Lemma not_prefix_snoc {A} (l : list A) x : ~ (l ++ [x])%list `prefix_of` l.
Proof.
  intros H. apply prefix_length in H. rewrite length_app in H. simpl in H. lia.
Qed.

(** The steps of [restore_backup] when the backup is a regular file, the
    directory of the target can be made below an existing directory [d],
    and the target is neither a directory nor the backup itself. *)
Lemma restore_steps self backup_path target_path w data mt d dm l :
  let t := restore_target backup_path target_path in
  node_at w backup_path = Some (File data mt) ->
  parts t <> [] ->
  fs w !! d = Some (Dir dm) ->
  abs_key w (path_parent t) = (d ++ l)%list ->
  (forall p, p `prefix_of` l -> is_file (fs w !! (d ++ p)) = false) ->
  is_dir (node_at w t) = false ->
  abs_key w backup_path <> abs_key w t ->
  exists w',
    restore_backup self backup_path target_path w
    = (match relative_to t (project_root self) with
       | Some _ => Ok true
       | None => Raise ValueError
       end, w')
    /\ node_at w' t = Some (File data mt)
    /\ cwd w' = cwd w /\ clock w' = clock w /\ ticks w' = ticks w
    /\ (forall k n, fs w !! k = Some n -> k <> abs_key w t -> fs w' !! k = Some n)
    /\ (forall k, ~ k `prefix_of` abs_key w (path_parent t) -> k <> abs_key w t ->
                  fs w' !! k = fs w !! k).
Proof.
  intros t Hsrc Hne Hd Hpk Hfree Hnd Hdiff.
  pose proof (abs_key_parent w t Hne) as Htk.
  destruct (mkdir_rev_ok (os_time w) d dm (fs w) l Hd Hfree) as (m1 & Hmk & Hdir).
  assert (Hoff : m1 !! abs_key w t = fs w !! abs_key w t).
  { apply (mkdir_rev_off_path _ _ _ _ _ _ Hmk). rewrite rev_involutive, <- Hpk, Htk.
    apply not_prefix_snoc. }
  assert (Hsrc1 : m1 !! abs_key w backup_path = Some (File data mt)).
  { by apply (mkdir_rev_keeps _ _ _ _ _ _ _ Hmk). }
  unfold restore_backup, bind, path_exists. rewrite Hsrc.
  rewrite bool_decide_eq_true_2 by eauto. cbn [negb]. fold t.
  unfold mkdir_parents, lift_fs. rewrite Hpk, Hmk.
  unfold copy2, lift_fs.
  rewrite !(abs_key_cwd w (set_fs w m1)) by reflexivity. cbn [fs set_fs].
  unfold copy2_fs, copy2_key. unfold node_at in Hnd. rewrite Hoff, Hnd.
  rewrite (bool_decide_eq_false_2 _ Hdiff). cbn [andb]. rewrite Hsrc1.
  unfold store_file. rewrite Hoff.
  assert (Hpar : is_dir (m1 !! removelast (abs_key w t)) = true).
  { rewrite Htk, removelast_last, Hpk. exact Hdir. }
  assert (Hstore :
    (match fs w !! abs_key w t with
     | Some (Dir _) => (Raise IsADirectoryError, m1)
     | Some (File _ _) => (Ok tt, <[abs_key w t := File data mt]> m1)
     | None =>
       match m1 !! removelast (abs_key w t) with
       | Some (Dir _) => (Ok tt, <[abs_key w t := File data mt]> m1)
       | Some (File _ _) => (Raise NotADirectoryError, m1)
       | None => (Raise FileNotFoundError, m1)
       end
     end) = (Ok tt, <[abs_key w t := File data mt]> m1)).
  { destruct (fs w !! abs_key w t) as [[? ?|?]|]; [done|done|].
    destruct (m1 !! removelast (abs_key w t)) as [[? ?|?]|]; done. }
  rewrite Hstore. clear Hstore.
  exists (set_fs (set_fs w m1) (<[abs_key w t := File data mt]> m1)).
  split.
  { unfold of_option. destruct (relative_to t (project_root self)); reflexivity. }
  split.
  { unfold node_at. rewrite (abs_key_cwd w) by reflexivity. cbn [fs set_fs].
    apply lookup_insert_eq. }
  do 3 (split; [reflexivity|]). split.
  - intros k n Hk Hkt. cbn [fs set_fs]. rewrite lookup_insert_ne by done.
    by apply (mkdir_rev_keeps _ _ _ _ _ _ _ Hmk).
  - intros k Hk Hkt. cbn [fs set_fs]. rewrite lookup_insert_ne by done.
    apply (mkdir_rev_off_path _ _ _ _ _ _ Hmk). by rewrite rev_involutive.
Qed.

(** *** The retention sweep *)

Lemma merge_sort_deeper_elem (ds : list (list string)) k :
  k ∈ merge_sort deeper ds <-> k ∈ ds.
Proof. by rewrite merge_sort_Permutation. Qed.

(** The two loops of the sweep, one after the other. *)
Lemma cleanup_loops root keep_days w r w' :
  cleanup_old_backups (manager_of root) keep_days w = (r, w') ->
  let d := backup_dir_key w root in
  let cutoff := cutoff_of (clock w (ticks w)) keep_days in
  exists rA wA,
    for_each (found_backups (fs w) d) (sweep_one cutoff) (tick w) = (rA, wA)
    /\ cwd wA = cwd w
    /\ match rA with
       | Raise e => r = Raise e /\ w' = wA
       | Ok _ =>
         r = Ok tt
         /\ for_each (merge_sort deeper (dirs_below (fs wA) d)) prune_one wA = (Ok tt, w')
       end.
Proof.
  intros H d cutoff. rewrite cleanup_unfold in H. cbv zeta in H.
  rewrite backup_dir_key_eq in H. fold d cutoff in H.
  destruct (for_each _ _ (tick w)) as [rA wA] eqn:E1.
  pose proof (sweep_loop_frame _ _ _ _ _ E1) as (CA & _).
  exists rA, wA. split; [reflexivity|]. split; [exact CA|].
  destruct rA as [[]|e].
  - assert (Hd : abs_key wA (backup_dir (manager_of root)) = d).
    { rewrite (abs_key_cwd (tick w) wA) by exact CA. apply backup_dir_key_eq. }
    rewrite Hd in H.
    destruct (for_each _ prune_one wA) as [r2 wF] eqn:E2.
    pose proof (prune_loop_frame _ _ _ _ E2) as (-> & _).
    by injection H as <- <-.
  - by injection H as <- <-.
Qed.

(** X1. The retention sweep is confined to the backup directory: whatever
    its outcome, every node that is not strictly below the backup directory
    (the project files, and the backup directory itself) is left as it was,
    and no node is created or rewritten anywhere: what is there after the
    sweep was there before, unchanged. *)
Theorem cleanup_confined (root : Path) (keep_days : Z) (w : world) :
  let out := cleanup_old_backups (manager_of root) keep_days w in
  (forall k, below (backup_dir_key w root) k = false ->
             fs (snd out) !! k = fs w !! k)
  /\ (forall k n, fs (snd out) !! k = Some n -> fs w !! k = Some n).
Proof.
  intros out. subst out.
  destruct (cleanup_old_backups _ _ w) as [r w'] eqn:E. cbn [snd].
  destruct (cleanup_loops _ _ _ _ _ E) as (rA & wA & E1 & CA & Hrest).
  pose proof (sweep_loop_frame _ _ _ _ _ E1) as (_ & _ & _ & F1).
  change (fs (tick w)) with (fs w) in F1.
  assert (HA : (forall k, below (backup_dir_key w root) k = false ->
                          fs wA !! k = fs w !! k)
               /\ (forall k n, fs wA !! k = Some n -> fs w !! k = Some n)).
  { split.
    - intros k Hk. destruct (F1 k) as [->|(Hin & _)]; [done|].
      apply elem_of_found_backups in Hin as (_ & _ & Hb & _). congruence.
    - intros k n Hk. destruct (F1 k) as [<-|(_ & _ & Hn)]; [done|congruence]. }
  destruct rA as [[]|e].
  - destruct Hrest as (_ & E2).
    pose proof (prune_loop_frame _ _ _ _ E2) as (_ & _ & _ & _ & F2).
    destruct HA as [HA1 HA2]. split.
    + intros k Hk. destruct (F2 k) as [->|(Hin & _)]; [by apply HA1|].
      apply merge_sort_deeper_elem, elem_of_dirs_below in Hin as (_ & _ & Hb).
      congruence.
    + intros k n Hk. apply HA2.
      destruct (F2 k) as [<-|(_ & _ & Hn)]; [done|congruence].
  - destruct Hrest as (_ & ->). exact HA.
Qed.

(** X2. After a sweep that ends normally no empty directory is left below
    the backup directory (which exists): the directories are visited deepest
    first, so a directory that held only directories emptied by the sweep is
    removed as well. *)
Theorem cleanup_leaves_no_empty_directory (root : Path) (keep_days : Z)
  (w w' : world) :
  is_dir (fs w !! backup_dir_key w root) = true ->
  cleanup_old_backups (manager_of root) keep_days w = (Ok tt, w') ->
  forall k, below (backup_dir_key w root) k = true ->
            is_dir (fs w' !! k) = true -> has_entry (fs w') k = true.
Proof.
  intros Hd E k Hb Hk.
  destruct (cleanup_loops _ _ _ _ _ E) as (rA & wA & E1 & CA & Hrest).
  destruct rA as [[]|e]; [|by destruct Hrest].
  destruct Hrest as (_ & E2).
  pose proof (sweep_loop_frame _ _ _ _ _ E1) as (_ & _ & _ & F1).
  change (fs (tick w)) with (fs w) in F1.
  pose proof (prune_loop_frame _ _ _ _ E2) as (_ & _ & _ & _ & F2).
  pose proof (prune_loop_post _ _ _ (StronglySorted_merge_sort deeper _) E2) as P2.
  assert (Hsurv : forall j, is_dir (fs w' !! j) = true -> is_dir (fs wA !! j) = true).
  { intros j Hj. destruct (F2 j) as [<-|(_ & _ & Hn)]; [done|].
    by rewrite Hn in Hj. }
  apply P2; [|done].
  apply merge_sort_deeper_elem, elem_of_dirs_below.
  split; [by apply Hsurv|]. split; [|done].
  destruct (F1 (backup_dir_key w root)) as [->|(Hin & _)]; [done|].
  apply elem_of_found_backups in Hin as (_ & _ & Hbb & _).
  unfold below in Hbb. apply bool_decide_eq_true in Hbb. by destruct Hbb.
Qed.

Lemma sweep_loop_raises cutoff ks : NoDup ks -> forall w,
  (forall k, k ∈ ks -> is_Some (fs w !! k)) ->
  (exists k mt, k ∈ ks /\ fs w !! k = Some (Dir mt) /\ (mt <? cutoff) = true) ->
  exists w', for_each ks (sweep_one cutoff) w = (Raise IsADirectoryError, w')
             /\ forall k, is_dir (fs w !! k) = true -> fs w' !! k = fs w !! k.
Proof.
  induction 1 as [|k0 ks Hnin Hnd IH]; intros w Hall (k & mt & Hin & Hk & Hold).
  { by apply elem_of_nil in Hin. }
  cbn [for_each]. unfold bind. rewrite sweep_one_spec.
  destruct (Hall k0) as [n0 Hn0]; [left|]. rewrite Hn0.
  assert (Hrest : k0 <> k -> k ∈ ks).
  { intros Hne. apply elem_of_cons in Hin as [->|Hin]; [done|exact Hin]. }
  destruct n0 as [data0 mt0|mt0].
  - assert (Hne : k0 <> k) by (intros ->; congruence).
    destruct (mt0 <? cutoff).
    + destruct (IH (set_fs w (delete k0 (fs w)))) as (w' & E & F).
      * intros j Hj. cbn [fs set_fs]. rewrite lookup_delete_ne.
        -- apply Hall. by right.
        -- intros ->. done.
      * exists k, mt. split; [by apply Hrest|]. split; [|done].
        cbn [fs set_fs]. by rewrite lookup_delete_ne.
      * exists w'. split; [exact E|]. intros j Hj. rewrite F.
        -- cbn [fs set_fs]. apply lookup_delete_ne. intros ->. by rewrite Hn0 in Hj.
        -- cbn [fs set_fs]. rewrite lookup_delete_ne; [done|].
           intros ->. by rewrite Hn0 in Hj.
    + destruct (IH w) as (w' & E & F).
      * intros j Hj. apply Hall. by right.
      * exists k, mt. split; [by apply Hrest|]. done.
      * exists w'. done.
  - destruct (mt0 <? cutoff) eqn:E0.
    + exists w. done.
    + assert (Hne : k0 <> k) by (intros ->; congruence).
      destruct (IH w) as (w' & E & F).
      * intros j Hj. apply Hall. by right.
      * exists k, mt. split; [by apply Hrest|]. done.
      * exists w'. done.
Qed.

(** X3. A directory below the backup directory whose name matches
    [*.backup.*] and whose modification time is older than the cutoff stops
    the sweep: [unlink] on it raises, nothing catches it in the first loop,
    so [cleanup_old_backups] raises ([IsADirectoryError], what [unlink]
    gives on a directory under Linux); the second loop does not run and no
    directory is removed. *)
Theorem cleanup_raises_on_expired_directory (root : Path) (keep_days : Z)
  (w : world) (k : list string) (mt : Z) :
  is_dir (fs w !! backup_dir_key w root) = true ->
  below (backup_dir_key w root) k = true ->
  Str.contains ".backup." (List.last k "") = true ->
  fs w !! k = Some (Dir mt) ->
  mt < cutoff_of (clock w (ticks w)) keep_days ->
  let out := cleanup_old_backups (manager_of root) keep_days w in
  fst out = Raise IsADirectoryError
  /\ forall j, is_dir (fs w !! j) = true -> fs (snd out) !! j = fs w !! j.
Proof.
  intros Hd Hb Hc Hk Hold out. subst out.
  destruct (cleanup_old_backups _ _ w) as [r w'] eqn:E. cbn [fst snd].
  destruct (cleanup_loops _ _ _ _ _ E) as (rA & wA & E1 & CA & Hrest).
  destruct (sweep_loop_raises (cutoff_of (clock w (ticks w)) keep_days)
              (found_backups (fs w) (backup_dir_key w root))) with (w := tick w)
    as (wB & EB & FB).
  { apply NoDup_filter, NoDup_descendants. }
  { intros j Hj. apply elem_of_found_backups in Hj. tauto. }
  { exists k, mt. split; [|split].
    - apply elem_of_found_backups. change (fs (tick w)) with (fs w).
      rewrite Hk. eauto.
    - exact Hk.
    - by apply Z.ltb_lt. }
  rewrite EB in E1. injection E1 as <- <-.
  destruct Hrest as (-> & ->). split; [reflexivity|]. exact FB.
Qed.

(** *** Capture *)

(** What [mkdir] leaves was there before, or is a directory it made on the
    way to the one asked for. *)
Lemma mkdir_rev_inv mt rk : forall m r m' k n,
  mkdir_rev mt rk m = (r, m') -> m' !! k = Some n ->
  m !! k = Some n \/ (n = Dir mt /\ k `prefix_of` rev rk /\ m !! k = None).
Proof.
  induction rk as [|x rk IH]; intros m r m' k n H Hk; cbn [mkdir_rev] in H.
  - destruct (m !! rev []) as [[]|]; injection H as <- <-; by left.
  - destruct (m !! rev (x :: rk)) as [[]|] eqn:E0; try (injection H as <- <-; by left).
    assert (Hins : forall m0 : FS, (forall j n0, m0 !! j = Some n0 ->
                      m !! j = Some n0
                      \/ (n0 = Dir mt /\ j `prefix_of` rev rk /\ m !! j = None)) ->
              <[rev (x :: rk) := Dir mt]> m0 !! k = Some n ->
              m !! k = Some n
              \/ (n = Dir mt /\ k `prefix_of` rev (x :: rk) /\ m !! k = None)).
    { intros m0 Hm0 Hi. destruct (decide (k = rev (x :: rk))) as [->|Hne].
      - rewrite lookup_insert_eq in Hi. injection Hi as <-. right. done.
      - rewrite lookup_insert_ne in Hi by done.
        destruct (Hm0 _ _ Hi) as [?|(? & Hp & ?)]; [by left|right].
        split; [done|]. split; [|done]. cbn [rev]. by apply prefix_app_r. }
    destruct (m !! rev rk) as [[]|] eqn:E1; try (injection H as <- <-; by left).
    + injection H as <- <-. apply (Hins m); [|done]. intros; by left.
    + destruct (mkdir_rev mt rk m) as [[u|e] m1] eqn:E2; injection H as <- <-.
      * apply (Hins m1); [|done]. intros j n0 Hj. by apply (IH _ _ _ _ _ E2).
      * destruct (IH _ _ _ _ _ E2 Hk) as [?|(? & Hp & ?)]; [by left|right].
        split; [done|]. split; [|done]. cbn [rev]. by apply prefix_app_r.
Qed.

Lemma copy2_fs_ok src dst m m' data mt :
  copy2_fs src dst m = (Ok tt, m') -> m !! src = Some (File data mt) ->
  m' = <[copy2_key src dst m := File data mt]> m.
Proof.
  unfold copy2_fs. intros H Hs. rewrite Hs in H.
  destruct (_ && _); [done|]. unfold store_file in H.
  destruct (m !! copy2_key src dst m) as [[]|].
  - by injection H as <-.
  - done.
  - destruct (m !! removelast _) as [[]|]; try done. by injection H as <-.
Qed.

Lemma below_stored w root rel now :
  below (backup_dir_key w root) (abs_key w root ++ stored_rel rel now) = true.
Proof.
  rewrite stored_key_split. apply below_app. by destruct (removelast rel).
Qed.

Lemma below_stored_into w root rel now x :
  below (backup_dir_key w root) ((abs_key w root ++ stored_rel rel now) ++ [x]) = true.
Proof.
  rewrite stored_key_split, <- app_assoc. apply below_app. by destruct (removelast rel).
Qed.

(** A capture that returns a path has stored the bytes and the modification
    time of the source in a file below the backup directory, and has left
    every other file of the project as it was. *)
Lemma capture_steps_stored root rel reason w bp w' data mt :
  capture_steps root rel reason w = (Ok (Some bp), w') ->
  fs w !! (abs_key w root ++ rel) = Some (File data mt) ->
  cwd w' = cwd w
  /\ exists k, below (backup_dir_key w root) k = true
               /\ k <> backup_log_key w root
               /\ fs w' !! k = Some (File data mt).
Proof.
  unfold capture_steps. intros H Hsrc.
  destruct (mkdir_parents _ (tick w)) as [r1 w1] eqn:E1.
  pose proof (mkdir_parents_cwd _ _ _ _ E1) as C1. simpl in C1.
  pose proof (mkdir_parents_keeps _ _ _ _ _ _ E1 Hsrc) as S1.
  destruct r1 as [u1|e1]; [|done].
  destruct (copy2 _ _ w1) as [r2 w2] eqn:E2.
  pose proof (copy2_cwd _ _ _ _ _ E2) as C2.
  destruct r2 as [[]|e2]; [|done].
  unfold copy2, lift_fs in E2.
  rewrite !(abs_key_cwd w w1), !abs_key_under in E2 by done.
  destruct (copy2_fs _ _ (fs w1)) as [rc mc] eqn:Ec.
  injection E2 as -> <-.
  pose proof (copy2_fs_ok _ _ _ _ _ _ Ec S1) as ->.
  destruct (_log_backup _ _ _ _ _) as [r3 w3] eqn:E3.
  apply log_backup_effects in E3 as (C3 & _ & F3).
  rewrite (abs_key_cwd w), backup_log_key_eq in F3 by done.
  destruct r3 as [[]|e3]; [|done]. injection H as _ <-.
  split; [by rewrite C3|].
  cbn [fs set_fs] in F3.
  set (dst := abs_key w root ++ stored_rel rel (clock w (ticks w))) in *.
  set (src := abs_key w root ++ rel) in *.
  exists (copy2_key src dst (fs w1)).
  clear Ec C3.
  destruct (copy2_key_cases src dst (fs w1)) as [Ek|Ek]; rewrite !Ek in F3 |- *.
  - split; [apply below_stored|]. split; [apply stored_key_not_log|].
    rewrite F3 by apply stored_key_not_log. cbn [fs set_fs]. apply lookup_insert_eq.
  - split; [apply below_stored_into|]. split; [apply stored_into_not_log|].
    rewrite F3 by apply stored_into_not_log. cbn [fs set_fs]. apply lookup_insert_eq.
Qed.

(** *** The name of a stored copy and the target derived from it *)

Lemma starts_with_cons a p b s :
  Str.starts_with (String a p) (String b s) = Ascii.eqb a b && Str.starts_with p s.
Proof. reflexivity. Qed.

Lemma starts_with_backup_straddle name rest :
  name <> "" -> Str.starts_with ".backup" name = false ->
  Str.starts_with ".backup." (name +:+ ".backup." +:+ rest) = false.
Proof.
  intros Hne H.
  do 7 (destruct name as [|? name];
        [first [congruence | vm_compute; reflexivity]|];
        match goal with
        | |- context [String ?c name +:+ ?X] =>
          change (String c name +:+ X) with (String c (name +:+ X));
          rewrite starts_with_cons in H |- *;
          destruct (Ascii.eqb _ c); cbn [andb] in H |- *; [|reflexivity]
        end).
  simpl in H. discriminate H.
Qed.

Lemma prefix_before_cons sep c s :
  Str.prefix_before sep (String c s)
  = if Str.starts_with sep (String c s) then ""
    else String c (Str.prefix_before sep s).
Proof. reflexivity. Qed.

(** [name.split('.backup.')[0]] gives back a name that holds no [.backup]. *)
Lemma prefix_before_stored name rest :
  Str.contains ".backup" name = false ->
  Str.prefix_before ".backup." (name +:+ ".backup." +:+ rest) = name.
Proof.
  induction name as [|c name IH]; intros H.
  - reflexivity.
  - cbn [Str.contains] in H.
    destruct (Str.starts_with ".backup" (String c name)) eqn:E; [done|].
    assert (String c name <> "") as Hne by done.
    pose proof (starts_with_backup_straddle (String c name) rest Hne E) as S.
    change (String c name +:+ ".backup." +:+ rest)
      with (String c (name +:+ ".backup." +:+ rest)) in S |- *.
    rewrite prefix_before_cons, S. by rewrite IH.
Qed.

Lemma path_name_under_snoc root l x : path_name (under root (l ++ [x])) = x.
Proof.
  unfold path_name, under. cbn [parts]. rewrite app_assoc. apply last_last.
Qed.

Lemma path_join_str_under root l x :
  x <> "" -> path_join_str (under root l) x = under root (l ++ [x]).
Proof.
  intros Hx. unfold path_join_str.
  destruct (String.eqb_spec x ""); [done|].
  unfold under. cbn [anchored parts]. by rewrite app_assoc.
Qed.

(** The target [restore_backup] derives for the copy of [root / rel]. *)
Lemma default_target_stored root rel now :
  List.last rel "" <> "" ->
  Str.contains ".backup" (List.last rel "") = false ->
  default_target (under root (stored_rel rel now))
  = under root (removelast (".config_backup" :: removelast rel) ++ [List.last rel ""]).
Proof.
  intros Hne Hc. unfold default_target, stored_rel.
  change (".config_backup" :: removelast rel ++ [stored_name rel now])
    with ((".config_backup" :: removelast rel) ++ [stored_name rel now]).
  rewrite path_name_under_snoc, path_parent_under_snoc.
  unfold stored_name. rewrite prefix_before_stored by done.
  assert (Hn : ".config_backup" :: removelast rel <> []) by done.
  rewrite (app_removelast_last "" Hn) at 1.
  rewrite path_parent_under_snoc. by apply path_join_str_under.
Qed.

(** X4. The target derived from the name of a stored copy undoes the
    mapping of [backup_file] only for a file directly in the project root.
    For a file [root / rel] whose name holds no [.backup]: with one
    component the derived target is the source; with more, it is a path
    inside the backup directory, one level above the stored copy, and it
    differs from the source unless the source itself lies in a directory
    [.config_backup] of the root. *)
Theorem default_target_of_stored_copy (root : Path) (rel : list string)
  (now : datetime) :
  let name := List.last rel "" in
  let stored := backup_path_of (manager_of root) (mkPath false rel) now in
  name <> "" ->
  Str.contains ".backup" name = false ->
  (List.length rel = 1%nat -> default_target stored = under root rel)
  /\ ((2 <= List.length rel)%nat ->
      default_target stored
      = under (backup_dir (manager_of root)) (removelast (removelast rel) ++ [name])
      /\ (hd "" rel <> ".config_backup" -> default_target stored <> under root rel)).
Proof.
  intros name stored Hne Hc. subst stored.
  rewrite backup_path_of_under.
  change (".config_backup" :: removelast rel
            ++ [List.last rel "" +:+ ".backup." +:+ strftime now])
    with (stored_rel rel now).
  rewrite default_target_stored by done. fold name. split.
  - intros Hl. destruct rel as [|x [|y rel]]; try done.
  - intros Hl. destruct rel as [|x [|y rel]]; try (simpl in Hl; lia).
    assert (Hrl : removelast (x :: y :: rel) = x :: removelast (y :: rel)) by done.
    rewrite Hrl.
    assert (Hrr : removelast (".config_backup" :: x :: removelast (y :: rel))
                  = ".config_backup" :: removelast (x :: removelast (y :: rel))) by done.
    rewrite Hrr. split.
    + by rewrite under_backup_dir.
    + cbn [hd]. intros Hx Heq. apply under_inj in Heq.
      assert (Hrel : x :: y :: rel <> []) by done.
      pose proof (app_removelast_last "" Hrel) as Hsplit. fold name in Hsplit.
      rewrite Hsplit in Heq. clear Hsplit.
      apply app_inj_tail in Heq as [Heq _]. rewrite Hrl in Heq.
      destruct (removelast (y :: rel)); simpl in Heq; by injection Heq.
Qed.

(** X5. [restore_backup] on an existing backup file, with a target (given
    or derived) that is below the project root, whose directory exists or
    can be made, and that is neither a directory nor the backup itself:
    it returns [True]; the target then holds the bytes and the modification
    time of the backup; every other node that existed is kept as it was,
    the backup included; the clock is not read. *)
Theorem restore_backup_copies_to_target (self : BackupManager)
  (backup_path : Path) (target_path : option Path) (w : world)
  (data : string) (mt : Z) (d l : list string) (dm : Z) :
  let t := restore_target backup_path target_path in
  node_at w backup_path = Some (File data mt) ->
  is_Some (relative_to t (project_root self)) ->
  parts t <> [] ->
  fs w !! d = Some (Dir dm) ->
  abs_key w (path_parent t) = (d ++ l)%list ->
  no_file_on_path (fs w) d l = true ->
  is_dir (node_at w t) = false ->
  abs_key w backup_path <> abs_key w t ->
  exists w',
    restore_backup self backup_path target_path w = (Ok true, w')
    /\ node_at w' t = Some (File data mt)
    /\ node_at w' backup_path = Some (File data mt)
    /\ ticks w' = ticks w
    /\ (forall k n, fs w !! k = Some n -> k <> abs_key w t -> fs w' !! k = Some n).
Proof.
  intros t Hsrc [rp Hrel] Hne Hd Hpk Hfree Hnd Hdiff.
  destruct (restore_steps self backup_path target_path w data mt d dm l)
    as (w' & E & Ht & Hc & _ & Htk & Hkeep & _); try done.
  { intros p Hp. by apply (no_file_on_path_prefix _ l). }
  fold t in E, Ht, Hkeep. rewrite Hrel in E.
  exists w'. split; [done|]. split; [done|]. split; [|done].
  unfold node_at. rewrite (abs_key_cwd w w') by done. by apply Hkeep.
Qed.

(** X6. With an absolute project root, a relative backup path and no
    target (what [main] passes for [--restore] with a relative argument),
    [restore_backup] never returns [True]: the derived target is relative
    as well, so [relative_to] fails after the copy.  When the backup exists
    and the copy can be made, the target file is written and [ValueError] is
    raised. *)
Theorem restore_backup_relative_path (root backup_path : Path) (w : world) :
  anchored root = true -> anchored backup_path = false ->
  let self := manager_of root in
  let t := default_target backup_path in
  fst (restore_backup self backup_path None w) <> Ok true
  /\ forall data mt d l dm,
       node_at w backup_path = Some (File data mt) ->
       parts t <> [] ->
       fs w !! d = Some (Dir dm) ->
       abs_key w (path_parent t) = (d ++ l)%list ->
       no_file_on_path (fs w) d l = true ->
       is_dir (node_at w t) = false ->
       abs_key w backup_path <> abs_key w t ->
       fst (restore_backup self backup_path None w) = Raise ValueError
       /\ node_at (snd (restore_backup self backup_path None w)) t
          = Some (File data mt).
Proof.
  intros Hroot Hbp self t.
  assert (Hrel : relative_to t (project_root self) = None).
  { unfold relative_to. subst t self. unfold default_target, path_join_str.
    destruct (String.eqb _ ""); cbn [anchored path_parent manager_of project_root];
      by rewrite Hbp, Hroot. }
  split.
  - unfold restore_backup, bind, path_exists.
    destruct (bool_decide _); cbn [negb]; [|by cbn].
    cbn [restore_target]. fold t.
    destruct (mkdir_parents _ w) as [[[]|e1] w1]; [|by cbn].
    destruct (copy2 _ _ w1) as [[[]|e2] w2]; [|by cbn].
    rewrite Hrel. by cbn.
  - intros data mt d l dm Hsrc Hne Hd Hpk Hfree Hnd Hdiff.
    destruct (restore_steps self backup_path None w data mt d dm l)
      as (w' & E & Ht & _); try done.
    { intros p Hp. by apply (no_file_on_path_prefix _ l). }
    cbn [restore_target] in E, Ht. fold t in E, Ht. rewrite Hrel in E.
    rewrite E. done.
Qed.

(** The copy of a file directly in the project root is restored to the
    place of the file. *)
Lemma restore_top_level root name now w data mt dm :
  name <> "" -> Str.contains ".backup" name = false ->
  node_at w (under root (stored_rel [name] now)) = Some (File data mt) ->
  node_at w root = Some (Dir dm) ->
  is_dir (node_at w (under root [name])) = false ->
  exists w',
    restore_backup (manager_of root) (under root (stored_rel [name] now)) None w
    = (Ok true, w')
    /\ node_at w' (under root [name]) = Some (File data mt)
    /\ cwd w' = cwd w /\ clock w' = clock w /\ ticks w' = ticks w
    /\ (forall k n, fs w !! k = Some n -> k <> abs_key w (under root [name]) ->
                    fs w' !! k = Some n).
Proof.
  intros Hne Hc Hsrc Hroot Hnd.
  assert (Ht : restore_target (under root (stored_rel [name] now)) None
               = under root [name]).
  { cbn [restore_target]. by rewrite default_target_stored. }
  destruct (restore_steps (manager_of root) (under root (stored_rel [name] now)) None
              w data mt (abs_key w root) dm [])
    as (w' & E & Hf & Hcwd & Hclock & Hticks & Hkeep & _).
  - exact Hsrc.
  - rewrite Ht. unfold under. cbn [parts]. by destruct (parts root).
  - exact Hroot.
  - rewrite Ht. change [name] with ([] ++ [name]).
    rewrite path_parent_under_snoc. by rewrite abs_key_under.
  - intros p Hp. apply prefix_nil_inv in Hp as ->. rewrite app_nil_r.
    unfold node_at in Hroot. by rewrite Hroot.
  - by rewrite Ht.
  - rewrite Ht, !abs_key_under. intros Heq. symmetry in Heq.
    by apply source_not_stored in Heq.
  - rewrite Ht in E, Hf, Hkeep.
    change (project_root (manager_of root)) with root in E.
    rewrite relative_to_under in E. exists w'. done.
Qed.

(** X7. Round trip for a file directly in the project root, whose name
    holds no [.backup]: the path [backup_file] returns, given to
    [restore_backup] with no target in any later state in which the stored
    copy is still there, the root is a directory and no directory stands at
    the place of the file, brings back the bytes and the modification time
    the file had when it was captured, whether the file was rewritten or
    deleted in between. *)
Theorem capture_restore_round_trip (root : Path) (name reason : string)
  (w : world) :
  name <> "" -> Str.contains ".backup" name = false ->
  capture_ready root [name] w = true ->
  exists backup_path w1,
    backup_file (manager_of root) (under root [name]) reason w
    = (Ok (Some backup_path), w1)
    /\ is_file (node_at w1 backup_path) = true
    /\ forall w2,
         cwd w2 = cwd w ->
         node_at w2 backup_path = node_at w1 backup_path ->
         is_dir (node_at w2 root) = true ->
         is_dir (node_at w2 (under root [name])) = false ->
         exists w3,
           restore_backup (manager_of root) backup_path None w2 = (Ok true, w3)
           /\ node_at w3 (under root [name]) = node_at w (under root [name]).
Proof.
  intros Hne Hc Hready.
  destruct (backup_file_ready root [name] reason w Hready)
    as (data & mt & l & w1 & Hsrc & _ & E & Hst & _ & Hcwd & _).
  exists (under root (stored_rel [name] (clock w (ticks w)))), w1.
  split; [exact E|].
  assert (Hst1 : node_at w1 (under root (stored_rel [name] (clock w (ticks w))))
                 = Some (File data mt)).
  { unfold node_at. rewrite (abs_key_cwd w w1) by done. by rewrite abs_key_under. }
  split; [by rewrite Hst1|].
  intros w2 Hcwd2 Hkept Hroot Hnd. rewrite Hst1 in Hkept.
  destruct (node_at w2 root) as [[|dm]|] eqn:Er; try done.
  destruct (restore_top_level root name (clock w (ticks w)) w2 data mt dm)
    as (w3 & E3 & Hf & _); try done.
  exists w3. split; [exact E3|]. by rewrite Hf, Hsrc.
Qed.

(** *** A capture followed by a sweep *)

Lemma store_file_dir_inv (k : list string) (data : string) (mt : Z) (m : FS)
  (r : result unit) (m' : FS) (j : list string) (t : Z) :
  store_file k data mt m = (r, m') -> m' !! j = Some (Dir t) -> m !! j = Some (Dir t).
Proof.
  unfold store_file. intros H Hj.
  assert (Hins : <[k := File data mt]> m !! j = Some (Dir t) -> m !! j = Some (Dir t)).
  { destruct (decide (j = k)) as [->|Hne].
    - by rewrite lookup_insert_eq.
    - by rewrite lookup_insert_ne. }
  destruct (m !! k) as [[]|].
  - injection H as <- <-. by apply Hins.
  - by injection H as <- <-.
  - destruct (m !! removelast k) as [[]|]; injection H as <- <-; auto.
Qed.

Lemma copy2_fs_dir_inv (src dst : list string) (m : FS) (r : result unit)
  (m' : FS) (j : list string) (t : Z) :
  copy2_fs src dst m = (r, m') -> m' !! j = Some (Dir t) -> m !! j = Some (Dir t).
Proof.
  unfold copy2_fs. intros H Hj.
  destruct (_ && _); [by injection H as <- <-|].
  destruct (m !! src) as [[]|]; try (by injection H as <- <-).
  by apply (store_file_dir_inv _ _ _ _ _ _ _ _ H).
Qed.

Lemma write_text_dir_inv p data w r w' j t :
  write_text p data w = (r, w') -> fs w' !! j = Some (Dir t) -> fs w !! j = Some (Dir t).
Proof.
  unfold write_text, lift_fs. intros H Hj.
  destruct (store_file _ _ _ (fs w)) as [r0 m0] eqn:E. injection H as <- <-.
  by apply (store_file_dir_inv _ _ _ _ _ _ _ _ E).
Qed.

Lemma log_backup_dir_inv self original backup reason w r w' j t :
  _log_backup self original backup reason w = (r, w') ->
  fs w' !! j = Some (Dir t) -> fs w !! j = Some (Dir t).
Proof.
  rewrite log_backup_unfold. intros H Hj.
  destruct (node_at w (backup_log self)) as [[text ?|?]|];
    try (by injection H as <- <-).
  destruct (json_loads text); [|by injection H as <- <-].
  cbv zeta in H.
  destruct (relative_to original _); [|by injection H as <- <-].
  destruct (relative_to backup _); [|by injection H as <- <-].
  destruct (node_at (tick w) original); [|by injection H as <- <-].
  by apply (write_text_dir_inv _ _ _ _ _ _ _ H).
Qed.

(** The directories a capture leaves were there, or were made on the way to
    the directory of the copy. *)
Lemma capture_steps_dir_inv root rel reason w r w' k t :
  capture_steps root rel reason w = (r, w') ->
  fs w' !! k = Some (Dir t) ->
  fs w !! k = Some (Dir t)
  \/ (t = os_time (tick w) /\ k `prefix_of` backup_dir_key w root ++ removelast rel
      /\ fs w !! k = None).
Proof.
  unfold capture_steps. intros H Hk.
  destruct (mkdir_parents _ (tick w)) as [r1 w1] eqn:E1.
  assert (H1 : fs w1 !! k = Some (Dir t) ->
               fs w !! k = Some (Dir t)
               \/ (t = os_time (tick w)
                   /\ k `prefix_of` backup_dir_key w root ++ removelast rel
                   /\ fs w !! k = None)).
  { intros Hk1. unfold mkdir_parents, lift_fs in E1.
    destruct (mkdir_rev _ _ (fs (tick w))) as [r0 m0] eqn:E0.
    injection E1 as <- <-. cbn [fs set_fs] in Hk1.
    destruct (mkdir_rev_inv _ _ _ _ _ _ _ E0 Hk1) as [?|(Ht & Hp & Hn)]; [by left|].
    right. injection Ht as ->. split; [done|]. split; [|done].
    rewrite rev_involutive, abs_key_tick, abs_key_under in Hp.
    unfold backup_dir_key. by rewrite <- app_assoc. }
  destruct r1 as [u1|e1]; [|injection H as <- <-; auto].
  destruct (copy2 _ _ w1) as [r2 w2] eqn:E2.
  assert (H2 : fs w2 !! k = Some (Dir t) -> fs w1 !! k = Some (Dir t)).
  { unfold copy2, lift_fs in E2.
    destruct (copy2_fs _ _ (fs w1)) as [r0 m0] eqn:E0. injection E2 as <- <-.
    by apply (copy2_fs_dir_inv _ _ _ _ _ _ _ E0). }
  destruct r2 as [u2|e2]; [|injection H as <- <-; auto].
  destruct (_log_backup _ _ _ _ w2) as [r3 w3] eqn:E3.
  pose proof (log_backup_dir_inv _ _ _ _ _ _ _ k t E3) as H3.
  destruct r3; injection H as <- <-; auto.
Qed.

Lemma last_below_prefix (d k l : list string) :
  below d k = true -> k `prefix_of` d ++ l -> List.last k "" ∈ l.
Proof.
  unfold below. intros Hb Hp. apply bool_decide_eq_true in Hb as [[p ->] Hne].
  apply prefix_app_inv in Hp.
  destruct (decide (p = [])) as [->|Hp0]; [by rewrite app_nil_r in Hne|].
  rewrite (app_removelast_last "" Hp0), app_assoc, last_last.
  destruct Hp as [q ->].
  rewrite (app_removelast_last "" Hp0) at 2.
  rewrite <- app_assoc. apply elem_of_app. right. apply elem_of_app. left.
  apply elem_of_cons. by left.
Qed.

(** The files a sweep that meets no expired directory removes and keeps. *)
Lemma cleanup_run_files root keep_days w :
  let d := backup_dir_key w root in
  let cutoff := cutoff_of (clock w (ticks w)) keep_days in
  is_dir (fs w !! d) = true ->
  (forall k mt, below d k = true ->
                Str.contains ".backup." (List.last k "") = true ->
                fs w !! k = Some (Dir mt) -> (mt <? cutoff) = false) ->
  exists w',
    cleanup_old_backups (manager_of root) keep_days w = (Ok tt, w')
    /\ cwd w' = cwd w
    /\ (forall k data mt, fs w !! k = Some (File data mt) ->
          fs w' !! k
          = if below d k && Str.contains ".backup." (List.last k "") && (mt <? cutoff)
            then None else Some (File data mt)).
Proof.
  intros d cutoff Hd Hdirs.
  destruct (sweep_loop_exact cutoff (found_backups (fs w) d)) with (w := tick w)
    as (wA & E & F).
  { apply NoDup_filter, NoDup_descendants. }
  { intros k Hk. apply elem_of_found_backups in Hk. tauto. }
  { intros k mt Hk Hn. apply elem_of_found_backups in Hk as (Hc & _ & Hb & _).
    eapply Hdirs; eauto. }
  destruct (cleanup_old_backups (manager_of root) keep_days w) as [r w'] eqn:Ec.
  destruct (cleanup_loops _ _ _ _ _ Ec) as (rA & wA' & E1 & CA & Hrest).
  fold d cutoff in E1, Hrest. rewrite E in E1. injection E1 as <- <-.
  destruct Hrest as (-> & E2).
  pose proof (prune_loop_frame _ _ _ _ E2) as (_ & C2 & _ & _ & F2).
  exists w'. split; [reflexivity|]. split; [by rewrite C2|].
  intros k data mt Hk.
  assert (HA : fs wA !! k
               = if below d k && Str.contains ".backup." (List.last k "") && (mt <? cutoff)
                 then None else Some (File data mt)).
  { rewrite F. change (fs (tick w)) with (fs w).
    unfold expired_file. rewrite Hk.
    assert (Eb : bool_decide (k ∈ found_backups (fs w) d)
                 = below d k && Str.contains ".backup." (List.last k "")).
    { destruct (below d k) eqn:Hb, (Str.contains _ _) eqn:Hc; simpl.
      - apply bool_decide_eq_true. apply elem_of_found_backups.
        rewrite Hk. eauto.
      - apply bool_decide_eq_false. rewrite elem_of_found_backups.
        intros (H1 & _ & H2 & _). congruence.
      - apply bool_decide_eq_false. rewrite elem_of_found_backups.
        intros (H1 & _ & H2 & _). congruence.
      - apply bool_decide_eq_false. rewrite elem_of_found_backups.
        intros (H1 & _ & H2 & _). congruence. }
    by rewrite Eb. }
  rewrite <- HA.
  destruct (F2 k) as [->|(_ & Hdk & _)]; [done|].
  rewrite HA in Hdk. by destruct (_ && _).
Qed.

Lemma last_stored_key w root rel :
  List.last (stored_key w root rel) "" = stored_name rel (clock w (ticks w)).
Proof.
  unfold stored_key, stored_rel.
  change (".config_backup" :: removelast rel ++ [stored_name rel (clock w (ticks w))])
    with ((".config_backup" :: removelast rel) ++ [stored_name rel (clock w (ticks w))]).
  rewrite app_assoc. apply last_last.
Qed.

(** X8. [shutil.copy2] gives the stored copy the modification time of its
    source, and the sweep judges the age of a copy by that time.  So the
    backup of a file last modified before the cutoff is removed by the next
    sweep (as the one that ends [fix_all_modules]), however recent the
    capture: the capture returns the path of the stored copy, the sweep ends
    normally and removes it, [list_backups] still lists its entry, and
    [restore_backup] on the returned path returns [False].  Here no
    directory of the source path and no expired directory below the backup
    directory matches [*.backup.*]. *)
Theorem backup_of_old_file_is_swept (root : Path) (rel : list string)
  (reason : string) (keep_days : Z) (w : world) (data : string) (mt : Z) :
  let self := manager_of root in
  let cutoff := cutoff_of (clock w (S (S (ticks w)))) keep_days in
  capture_ready root rel w = true ->
  node_at w (under root rel) = Some (File data mt) ->
  mt < cutoff ->
  Forall (fun c => Str.contains ".backup." c = false) (removelast rel) ->
  (forall k dmt, below (backup_dir_key w root) k = true ->
                 Str.contains ".backup." (List.last k "") = true ->
                 fs w !! k = Some (Dir dmt) -> (dmt <? cutoff) = false) ->
  exists backup_path w1 w2 l,
    backup_file self (under root rel) reason w = (Ok (Some backup_path), w1)
    /\ node_at w1 backup_path = Some (File data mt)
    /\ cleanup_old_backups self keep_days w1 = (Ok tt, w2)
    /\ node_at w2 backup_path = None
    /\ read_log self w = Some l
    /\ list_backups self w2 = (Ok (l ++ [log_entry_of rel reason data w]), w2)
    /\ restore_backup self backup_path None w2 = (Ok false, w2).
Proof.
  intros self cutoff Hready Hsrc Hold Hrel Hdirs. subst self.
  destruct (backup_file_ready root rel reason w Hready)
    as (data' & mt' & l & w1 & Hsrc' & Hl & E & Hst & Hl1 & Hcwd & Hclock & Hticks).
  rewrite Hsrc in Hsrc'. injection Hsrc' as <- <-.
  assert (Hd : is_dir (fs w !! backup_dir_key w root) = true).
  { unfold capture_ready in Hready. repeat (apply andb_prop in Hready as [Hready ?]).
    done. }
  assert (Hsteps : capture_steps root rel reason w
                   = (Ok (Some (under root (stored_rel rel (clock w (ticks w))))), w1)).
  { rewrite <- E. symmetry. apply backup_file_under. rewrite Hsrc. eauto. }
  assert (Hkey1 : forall p, abs_key w1 p = abs_key w p).
  { intros p. by apply abs_key_cwd. }
  assert (Hbdk : backup_dir_key w1 root = backup_dir_key w root).
  { unfold backup_dir_key. by rewrite Hkey1. }
  assert (Hcut : cutoff_of (clock w1 (ticks w1)) keep_days = cutoff).
  { unfold cutoff. by rewrite Hclock, Hticks. }
  destruct (fs w !! backup_dir_key w root) as [[|dm]|] eqn:Ed; try done.
  assert (Hd1 : fs w1 !! backup_dir_key w root = Some (Dir dm)).
  { rewrite <- Ed. eapply capture_steps_outside; [exact Hsteps|exact Ed|].
    unfold below. apply bool_decide_eq_false. intros [_ ?]. done. }
  destruct (cleanup_run_files root keep_days w1) as (w2 & E2 & Hcwd2 & Hfiles).
  { by rewrite Hbdk, Hd1. }
  { rewrite Hbdk, Hcut. intros k dmt Hb Hc Hk.
    destruct (capture_steps_dir_inv _ _ _ _ _ _ _ _ Hsteps Hk) as [Hw|(_ & Hp & _)].
    - by apply (Hdirs k dmt).
    - pose proof (last_below_prefix _ _ _ Hb Hp) as Hin.
      rewrite Forall_forall in Hrel. rewrite (Hrel _ Hin) in Hc. done. }
  rewrite Hbdk, Hcut in Hfiles.
  set (bp := under root (stored_rel rel (clock w (ticks w)))) in *.
  assert (Hbpk : forall w0, cwd w0 = cwd w -> abs_key w0 bp = stored_key w root rel).
  { intros w0 H0. rewrite (abs_key_cwd w w0) by done. apply abs_key_under. }
  exists bp, w1, w2, l.
  split; [exact E|].
  split; [unfold node_at; by rewrite Hbpk|].
  split; [exact E2|].
  assert (Hgone : node_at w2 bp = None).
  { unfold node_at. rewrite Hbpk by congruence.
    rewrite (Hfiles _ _ _ Hst). unfold stored_key at 1. rewrite below_stored.
    rewrite last_stored_key. unfold stored_name. rewrite contains_backup_infix.
    apply Z.ltb_lt in Hold. by rewrite Hold. }
  split; [exact Hgone|].
  split; [exact Hl|].
  split.
  - apply read_log_list_backups.
    destruct (read_log_Some_file _ _ _ Hl1) as (text & lmt & Hlog).
    rewrite <- Hl1. apply read_log_ext; [exact Hcwd2|].
    assert (Hlk : backup_log_key w1 root = backup_log_key w root).
    { unfold backup_log_key. by rewrite Hkey1. }
    rewrite Hlk in *.
    apply (cleanup_keeps _ _ _ _ _ _ E2).
    + by rewrite last_backup_log_key.
    + by rewrite Hlog.
  - unfold restore_backup, bind, path_exists. rewrite Hgone.
    rewrite bool_decide_eq_false_2; [reflexivity|]. by intros [? ?].
Qed.

(** *** Captures that fail part of the way *)

Lemma capture_mkdir root rel w dm :
  fs w !! backup_dir_key w root = Some (Dir dm) ->
  no_file_on_path (fs w) (backup_dir_key w root) (removelast rel) = true ->
  exists m1,
    mkdir_parents (under root (".config_backup" :: removelast rel)) (tick w)
    = (Ok tt, set_fs (tick w) m1)
    /\ mkdir_rev (os_time (tick w)) (rev (backup_dir_key w root ++ removelast rel)) (fs w)
       = (Ok tt, m1)
    /\ is_dir (m1 !! (backup_dir_key w root ++ removelast rel)) = true.
Proof.
  intros Hdir Hfree.
  destruct (mkdir_rev_ok (os_time (tick w)) _ _ _ (removelast rel) Hdir)
    as (m1 & E1 & D1).
  { intros p Hp. by apply (no_file_on_path_prefix _ (removelast rel)). }
  exists m1. split; [|done].
  unfold mkdir_parents, lift_fs. rewrite abs_key_tick, abs_key_under.
  change (abs_key w root ++ ".config_backup" :: removelast rel)
    with (abs_key w root ++ [".config_backup"] ++ removelast rel).
  rewrite app_assoc. fold (backup_dir_key w root).
  change (fs (tick w)) with (fs w). by rewrite E1.
Qed.

Lemma mkdir_rev_files mt rk m r m' k data t :
  mkdir_rev mt rk m = (r, m') ->
  m' !! k = Some (File data t) <-> m !! k = Some (File data t).
Proof.
  intros H. split.
  - intros Hk. destruct (mkdir_rev_inv _ _ _ _ _ _ _ H Hk) as [?|(? & _)]; done.
  - by apply (mkdir_rev_keeps _ _ _ _ _ _ _ H).
Qed.


(** X10. When the log cannot be read (it is missing, is not a regular
    file, or holds a text [json.loads] refuses), [backup_file] on an
    existing file still makes the copy, and only then raises in
    [_log_backup]: the stored copy is left without an entry in the log, and
    no path is returned. *)
Theorem backup_file_unreadable_log (root : Path) (rel : list string)
  (reason : string) (w : world) (data : string) (mt : Z) :
  node_at w (under root rel) = Some (File data mt) ->
  is_dir (fs w !! backup_dir_key w root) = true ->
  no_file_on_path (fs w) (backup_dir_key w root) (removelast rel) = true ->
  is_dir (fs w !! stored_key w root rel) = false ->
  read_log (manager_of root) w = None ->
  exists e w',
    backup_file (manager_of root) (under root rel) reason w = (Raise e, w')
    /\ (e = JSONDecodeError \/ e = FileNotFoundError \/ e = IsADirectoryError)
    /\ fs w' !! stored_key w root rel = Some (File data mt)
    /\ read_log (manager_of root) w' = None
    /\ ticks w' = S (ticks w).
Proof.
  intros Hsrc Hd Hfree Hdst Hl.
  destruct (fs w !! backup_dir_key w root) as [[|dm]|] eqn:Ed; try done.
  destruct (capture_mkdir root rel w dm Ed Hfree) as (m1 & M & E1 & D1).
  rewrite backup_file_under by (rewrite Hsrc; eauto).
  unfold capture_steps. rewrite M.
  unfold node_at in Hsrc. rewrite abs_key_under in Hsrc.
  pose proof (mkdir_rev_keeps _ _ _ _ _ _ _ E1 Hsrc) as Src1.
  set (stored := stored_key w root rel) in *.
  assert (Est : stored = (backup_dir_key w root ++ removelast rel)
                         ++ [stored_name rel (clock w (ticks w))]).
  { unfold stored, stored_key. rewrite stored_key_split. by rewrite app_assoc. }
  assert (S1 : m1 !! stored = fs w !! stored).
  { eapply mkdir_rev_off_path; [exact E1|]. rewrite rev_involutive, Est.
    apply prefix_snoc_not. }
  assert (C : copy2 (under root rel) (under root (stored_rel rel (clock w (ticks w))))
                    (set_fs (tick w) m1)
              = (Ok tt, set_fs (tick w) (<[stored := File data mt]> m1))).
  { unfold copy2, lift_fs, copy2_fs, copy2_key.
    change (abs_key (set_fs (tick w) m1)) with (abs_key w).
    change (fs (set_fs (tick w) m1)) with m1.
    rewrite !abs_key_under. fold stored.
    change (abs_key w root ++ stored_rel rel (clock w (ticks w))) with stored.
    rewrite S1, Hdst.
    rewrite (bool_decide_eq_false_2 (abs_key w root ++ rel = stored))
      by apply source_not_stored.
    simpl. rewrite Src1.
    unfold store_file. rewrite S1.
    destruct (fs w !! stored) as [[]|] eqn:Hs; try done.
    rewrite Est at 1. rewrite removelast_last.
    destruct (m1 !! (backup_dir_key w root ++ removelast rel)) as [[]|]; done. }
  rewrite C. clear C.
  set (m2 := <[stored := File data mt]> m1).
  assert (Nlog : stored <> backup_log_key w root) by apply stored_key_not_log.
  assert (L2 : forall text lmt, m2 !! backup_log_key w root = Some (File text lmt) ->
                 json_loads text = None).
  { intros text lmt H2. unfold m2 in H2. rewrite lookup_insert_ne in H2 by done.
    apply (mkdir_rev_files _ _ _ _ _ _ _ _ E1) in H2.
    unfold read_log, node_at in Hl. rewrite backup_log_key_eq in Hl.
    by rewrite H2 in Hl. }
  assert (R2 : read_log (manager_of root) (set_fs (tick w) m2) = None).
  { unfold read_log, node_at.
    rewrite (abs_key_cwd w (set_fs (tick w) m2)) by reflexivity.
    rewrite backup_log_key_eq. cbn [fs set_fs].
    destruct (m2 !! backup_log_key w root) as [[text lmt|]|] eqn:E; try done.
    by apply (L2 text lmt). }
  assert (St2 : m2 !! stored = Some (File data mt)).
  { unfold m2. apply lookup_insert_eq. }
  rewrite log_backup_unfold. unfold node_at.
  rewrite (abs_key_cwd w (set_fs (tick w) m2)) by reflexivity.
  rewrite backup_log_key_eq. cbn [fs set_fs].
  destruct (m2 !! backup_log_key w root) as [[text lmt|]|] eqn:E.
  - rewrite (L2 text lmt) by done.
    exists JSONDecodeError, (set_fs (tick w) m2). eauto 10.
  - exists IsADirectoryError, (set_fs (tick w) m2). eauto 10.
  - exists FileNotFoundError, (set_fs (tick w) m2). eauto 10.
Qed.

(** *** Construction of the manager *)

Lemma removelast_backup_dir_key w root :
  removelast (backup_dir_key w root) = abs_key w root.
Proof. unfold backup_dir_key. apply removelast_last. Qed.

Lemma removelast_backup_log_key w root :
  removelast (backup_log_key w root) = backup_dir_key w root.
Proof.
  unfold backup_log_key, backup_dir_key.
  change [".config_backup"; "backup_log.json"]
    with ([".config_backup"] ++ ["backup_log.json"]).
  rewrite app_assoc. apply removelast_last.
Qed.

Lemma backup_dir_not_log w root : backup_dir_key w root <> backup_log_key w root.
Proof.
  unfold backup_dir_key, backup_log_key. intros H. apply app_inv_head in H. done.
Qed.

(** X11. [BackupManager(project_root)] on a project that has no backup
    directory yet: when the root is a directory, it creates .config_backup
    and a log holding the text [[]], changes nothing else, and
    [list_backups] then returns the empty list; when the root does not
    exist, [mkdir] (called without [parents]) raises [FileNotFoundError] and
    nothing is created. *)
Theorem BackupManager_init_fresh (root : Path) (w : world) :
  fs w !! backup_dir_key w root = None ->
  fs w !! backup_log_key w root = None ->
  (is_dir (node_at w root) = true ->
   exists w',
     BackupManager_init root w = (Ok (manager_of root), w')
     /\ fs w' !! backup_dir_key w root = Some (Dir (os_time w))
     /\ fs w' !! backup_log_key w root = Some (File "[]" (os_time w))
     /\ (forall k, k <> backup_dir_key w root -> k <> backup_log_key w root ->
                   fs w' !! k = fs w !! k)
     /\ list_backups (manager_of root) w' = (Ok [], w'))
  /\ (node_at w root = None ->
      BackupManager_init root w = (Raise FileNotFoundError, w)).
Proof.
  intros Hnd Hnl. unfold BackupManager_init, bind, mkdir_exist_ok.
  rewrite backup_dir_key_eq, Hnd, removelast_backup_dir_key.
  unfold node_at. split.
  - intros Hroot. destruct (fs w !! abs_key w root) as [[|dm]|]; try done.
    set (w1 := set_fs w (<[backup_dir_key w root := Dir (os_time w)]> (fs w))).
    unfold path_exists, node_at.
    rewrite (abs_key_cwd w w1) by reflexivity. rewrite backup_log_key_eq.
    assert (Hl1 : fs w1 !! backup_log_key w root = None).
    { cbn [w1 fs set_fs]. rewrite lookup_insert_ne by apply backup_dir_not_log. done. }
    rewrite Hl1. rewrite bool_decide_eq_false_2 by (by intros [? ?]). cbn [negb].
    unfold write_text, lift_fs, store_file.
    rewrite (abs_key_cwd w w1) by reflexivity. rewrite backup_log_key_eq.
    rewrite Hl1, removelast_backup_log_key.
    assert (Hd1 : fs w1 !! backup_dir_key w root = Some (Dir (os_time w))).
    { cbn [w1 fs set_fs]. apply lookup_insert_eq. }
    rewrite Hd1.
    change (os_time w1) with (os_time w).
    set (w2 := set_fs w1 (<[backup_log_key w root := File "[]" (os_time w)]> (fs w1))).
    exists w2. split; [reflexivity|].
    split.
    { cbn [w2 fs set_fs]. rewrite lookup_insert_ne; [exact Hd1|].
      intros H. symmetry in H. by apply backup_dir_not_log in H. }
    split; [cbn [w2 fs set_fs]; apply lookup_insert_eq|].
    split.
    { intros k Hk1 Hk2. cbn [w2 w1 fs set_fs]. by rewrite !lookup_insert_ne. }
    apply read_log_list_backups. unfold read_log, node_at.
    rewrite (abs_key_cwd w w2) by reflexivity. rewrite backup_log_key_eq.
    cbn [w2 fs set_fs]. rewrite lookup_insert_eq.
    rewrite <- json_dumps_nil. apply json_loads_dumps.
  - intros Hroot. by rewrite Hroot.
Qed.

(** X12. Constructing the manager never resets an existing store: when
    the backup directory exists and the log is there, [__init__] changes
    nothing; hence constructing it a second time, after a construction that
    succeeded, leaves the state as the first one left it. *)
Theorem BackupManager_init_keeps_store (root : Path) (w : world) :
  (is_dir (fs w !! backup_dir_key w root) = true ->
   is_Some (fs w !! backup_log_key w root) ->
   BackupManager_init root w = (Ok (manager_of root), w))
  /\ (forall m w1, BackupManager_init root w = (Ok m, w1) ->
                   BackupManager_init root w1 = (Ok m, w1)).
Proof.
  assert (Hkeep : forall w0,
            is_dir (fs w0 !! backup_dir_key w0 root) = true ->
            is_Some (fs w0 !! backup_log_key w0 root) ->
            BackupManager_init root w0 = (Ok (manager_of root), w0)).
  { intros w0 Hd Hl. unfold BackupManager_init, bind, mkdir_exist_ok.
    rewrite backup_dir_key_eq.
    destruct (fs w0 !! backup_dir_key w0 root) as [[|dm]|]; try done.
    unfold path_exists, node_at. rewrite backup_log_key_eq.
    by rewrite bool_decide_eq_true_2. }
  split; [apply Hkeep|].
  intros m w1 H.
  assert (Hpost : m = manager_of root
                  /\ cwd w1 = cwd w
                  /\ is_dir (fs w1 !! backup_dir_key w root) = true
                  /\ is_Some (fs w1 !! backup_log_key w root)).
  { unfold BackupManager_init, bind in H.
    destruct (mkdir_exist_ok _ w) as [[[]|e] wa] eqn:Ea; [|done].
    assert (Ha : cwd wa = cwd w /\ is_dir (fs wa !! backup_dir_key w root) = true).
    { unfold mkdir_exist_ok in Ea. rewrite backup_dir_key_eq in Ea.
      destruct (fs w !! backup_dir_key w root) as [[|dm]|] eqn:Ed; try done.
      - injection Ea as <-. by rewrite Ed.
      - destruct (fs w !! removelast _) as [[|dm]|]; try done.
        injection Ea as <-. split; [done|]. cbn [fs set_fs].
        by rewrite lookup_insert_eq. }
    destruct Ha as [Ca Da].
    unfold path_exists, node_at in H.
    rewrite (abs_key_cwd w wa) in H by done. rewrite backup_log_key_eq in H.
    destruct (bool_decide (is_Some (fs wa !! backup_log_key w root))) eqn:Eb;
      cbn [negb] in H.
    - injection H as <- <-. apply bool_decide_eq_true in Eb. done.
    - destruct (write_text _ _ wa) as [[[]|e] wb] eqn:Ew; [|done].
      injection H as <- <-.
      pose proof (write_text_effects _ _ _ _ _ Ew) as (Cb & _ & _ & Fb).
      rewrite (abs_key_cwd w wa), backup_log_key_eq in Fb by done.
      split; [done|]. split; [congruence|]. split.
      + rewrite Fb; [done|apply backup_dir_not_log].
      + unfold write_text, lift_fs, store_file in Ew.
        rewrite (abs_key_cwd w wa), backup_log_key_eq in Ew by done.
        destruct (fs wa !! backup_log_key w root) as [[]|].
        * injection Ew as <-. cbn [fs set_fs]. rewrite lookup_insert_eq. eauto.
        * done.
        * destruct (fs wa !! removelast _) as [[]|]; try done.
          injection Ew as <-. cbn [fs set_fs]. rewrite lookup_insert_eq. eauto. }
  destruct Hpost as (-> & C1 & D1 & L1).
  apply Hkeep.
  - unfold backup_dir_key. by rewrite (abs_key_cwd w w1).
  - unfold backup_log_key. by rewrite (abs_key_cwd w w1).
Qed.

(** *** The methods that capture a file of the root and rewrite it *)

Lemma log_backup_ok_ticks self original backup reason w w' :
  _log_backup self original backup reason w = (Ok tt, w') ->
  clock w' = clock w /\ ticks w' = S (ticks w).
Proof.
  rewrite log_backup_unfold. intros H.
  destruct (node_at w (backup_log self)) as [[text ?|?]|]; try done.
  destruct (json_loads text); [|done]. cbv zeta in H.
  destruct (relative_to original _); [|done].
  destruct (relative_to backup _); [|done].
  destruct (node_at (tick w) original); [|done].
  apply write_text_effects in H as (_ & Hc & Ht & _). done.
Qed.

Lemma capture_steps_returns root rel reason w o w' :
  capture_steps root rel reason w = (Ok o, w') ->
  o = Some (under root (stored_rel rel (clock w (ticks w))))
  /\ clock w' = clock w /\ ticks w' = S (S (ticks w)).
Proof.
  unfold capture_steps. intros H.
  destruct (mkdir_parents _ (tick w)) as [r1 w1] eqn:E1.
  assert (T1 : clock w1 = clock w /\ ticks w1 = S (ticks w)).
  { unfold mkdir_parents, lift_fs in E1.
    destruct (mkdir_rev _ _ _) as [? ?]. by injection E1 as _ <-. }
  destruct r1 as [u1|e1]; [|done].
  destruct (copy2 _ _ w1) as [r2 w2] eqn:E2.
  assert (T2 : clock w2 = clock w1 /\ ticks w2 = ticks w1).
  { unfold copy2, lift_fs in E2.
    destruct (copy2_fs _ _ _) as [? ?]. by injection E2 as _ <-. }
  destruct r2 as [u2|e2]; [|done].
  destruct (_log_backup _ _ _ _ w2) as [[[]|e3] w3] eqn:E3; [|done].
  apply log_backup_ok_ticks in E3 as [C3 T3].
  injection H as <- <-. destruct T1, T2. split; [done|]. split; congruence.
Qed.

Lemma below_backup_dir_top w root name :
  name <> ".config_backup" ->
  below (backup_dir_key w root) (abs_key w root ++ [name]) = false.
Proof.
  intros Hne. unfold below, backup_dir_key. apply bool_decide_eq_false.
  intros [[p Hp] _]. rewrite <- app_assoc in Hp. apply app_inv_head in Hp.
  injection Hp as Hp _. done.
Qed.

(** The capture that precedes the rewriting of [root / name]: it returns
    the path of a copy that holds the bytes of the file, or raises; either
    way the file is as it was. *)
Lemma backup_before_write root name reason w data mt r w1 :
  name <> ".config_backup" ->
  node_at w (under root [name]) = Some (File data mt) ->
  backup_file (manager_of root) (under root [name]) reason w = (r, w1) ->
  cwd w1 = cwd w
  /\ node_at w1 (under root [name]) = Some (File data mt)
  /\ ((r = Ok (Some (under root (stored_rel [name] (clock w (ticks w)))))
       /\ clock w1 = clock w /\ ticks w1 = S (S (ticks w))
       /\ exists k, below (backup_dir_key w root) k = true
                    /\ k <> abs_key w (under root [name])
                    /\ fs w1 !! k = Some (File data mt))
      \/ exists e, r = Raise e).
Proof.
  intros Hne Hsrc E.
  assert (Hnl : abs_key w (under root [name]) <> backup_log_key w root).
  { rewrite abs_key_under. unfold backup_log_key. intros H.
    apply app_inv_head in H. done. }
  destruct (backup_file_source_kept _ _ _ _ _ _ _ E Hsrc Hnl) as [C1 K1].
  split; [done|]. split; [done|].
  rewrite backup_file_under in E by (rewrite Hsrc; eauto).
  destruct r as [o|e]; [left|right; eauto].
  destruct (capture_steps_returns _ _ _ _ _ _ E) as (-> & Hc & Ht).
  split; [done|]. split; [done|]. split; [done|].
  unfold node_at in Hsrc. rewrite abs_key_under in Hsrc.
  destruct (capture_steps_stored _ _ _ _ _ _ _ _ E Hsrc) as (_ & k & Hb & _ & Hk).
  exists k. split; [done|]. split; [|done].
  rewrite abs_key_under. intros ->.
  by rewrite below_backup_dir_top in Hb.
Qed.

Lemma write_text_new p data w dm :
  node_at w p = None -> parts p <> [] ->
  fs w !! abs_key w (path_parent p) = Some (Dir dm) ->
  write_text p data w
  = (Ok tt, set_fs w (<[abs_key w p := File data (os_time w)]> (fs w))).
Proof.
  intros Hn Hne Hd. unfold write_text, lift_fs, store_file.
  unfold node_at in Hn. rewrite Hn.
  rewrite (abs_key_parent w p Hne) at 1. rewrite removelast_last. by rewrite Hd.
Qed.

Lemma path_parent_under_top root name : path_parent (under root [name]) = under root [].
Proof. change [name] with ([] ++ [name]). apply path_parent_under_snoc. Qed.

Lemma abs_key_under_nil w root : abs_key w (under root []) = abs_key w root.
Proof. rewrite abs_key_under. apply app_nil_r. Qed.

(** X13. [fix_root_build_config] never loses the old build.gradle.kts:
    when the file exists, either the call ends normally, the file holds the
    new text (built from the first reading of the clock) and a file below
    the backup directory holds the old bytes and modification time, or the
    capture raised and the file is as it was: the file is never rewritten
    without a stored copy.  When the file does not exist (the root being a
    directory), it is created with the new text, nothing else changes and
    no entry is logged. *)
Theorem fix_root_build_config_keeps_old (root : Path)
  (content_at : datetime -> string) (w : world) :
  let f := under root ["build.gradle.kts"] in
  let out := fix_root_build_config root content_at w in
  let content := content_at (clock w (ticks w)) in
  (forall data mt, node_at w f = Some (File data mt) ->
     (fst out = Ok tt
      /\ (exists mt', node_at (snd out) f = Some (File content mt'))
      /\ exists k, below (backup_dir_key w root) k = true
                   /\ fs (snd out) !! k = Some (File data mt))
     \/ (exists e, fst out = Raise e /\ node_at (snd out) f = Some (File data mt)))
  /\ (node_at w f = None -> is_dir (node_at w root) = true ->
      fst out = Ok tt
      /\ (exists mt', node_at (snd out) f = Some (File content mt'))
      /\ forall k, k <> abs_key w f -> fs (snd out) !! k = fs w !! k).
Proof.
  intros f out content. subst out.
  unfold fix_root_build_config, bind, datetime_now.
  change (mkWorld (cwd w) (fs w) (clock w) (S (ticks w))) with (tick w).
  change (path_join_str root "build.gradle.kts") with f. fold content.
  split.
  - intros data mt Hsrc.
    destruct (backup_file _ f _ (tick w)) as [r w1] eqn:E.
    assert (Hname : "build.gradle.kts" <> ".config_backup") by done.
    destruct (backup_before_write root "build.gradle.kts" _ (tick w) data mt r w1
                Hname Hsrc E)
      as (C1 & K1 & [(-> & _ & _ & k & Hb & Hk & Hf)|[e ->]]).
    + left. rewrite (write_text_file _ _ _ _ _ K1). cbn [fst snd fs set_fs].
      split; [done|]. split.
      * exists (os_time w1). unfold node_at.
        rewrite (abs_key_cwd w1) by reflexivity. cbn [fs set_fs].
        apply lookup_insert_eq.
      * exists k. split; [exact Hb|].
        rewrite lookup_insert_ne; [exact Hf|].
        rewrite (abs_key_cwd (tick w) w1) by done. congruence.
    + right. exists e. done.
  - intros Hn Hroot.
    assert (E : backup_file (manager_of root) f "修复根构建配置" (tick w)
                = (Ok None, tick w)).
    { unfold backup_file, bind, path_exists.
      change (node_at (tick w) f) with (node_at w f). rewrite Hn.
      rewrite bool_decide_eq_false_2; [reflexivity|]. by intros [? ?]. }
    rewrite E.
    destruct (node_at w root) as [[|dm]|] eqn:Er; try done.
    rewrite (write_text_new f content (tick w) dm).
    + cbn [fst snd fs set_fs]. split; [done|]. split.
      * eexists. unfold node_at. cbn [fs set_fs].
        rewrite (abs_key_cwd (tick w)) by reflexivity. apply lookup_insert_eq.
      * intros k Hk. change (fs (tick w)) with (fs w).
        change (abs_key (tick w) f) with (abs_key w f). by rewrite lookup_insert_ne.
    + exact Hn.
    + unfold f, under. cbn [parts]. by destruct (parts root).
    + unfold f. rewrite path_parent_under_top.
      change (abs_key (tick w)) with (abs_key w). rewrite abs_key_under_nil.
      exact Er.
Qed.

(** X14. [create_unified_dependencies_file] captures before it builds
    the text: when dependencies.gradle.kts exists, either the call ends
    normally, the file holds the text built from the third reading of the
    clock (the capture made two) and a file below the backup directory holds
    the old bytes and modification time, or the capture raised and the file
    is as it was. *)
Theorem create_unified_dependencies_file_keeps_old (root : Path)
  (content_at : datetime -> string) (w : world) (data : string) (mt : Z) :
  let f := under root ["dependencies.gradle.kts"] in
  let out := create_unified_dependencies_file root content_at w in
  node_at w f = Some (File data mt) ->
  (fst out = Ok tt
   /\ (exists mt', node_at (snd out) f
                   = Some (File (content_at (clock w (S (S (ticks w))))) mt'))
   /\ exists k, below (backup_dir_key w root) k = true
                /\ fs (snd out) !! k = Some (File data mt))
  \/ (exists e, fst out = Raise e /\ node_at (snd out) f = Some (File data mt)).
Proof.
  intros f out Hsrc. subst out.
  unfold create_unified_dependencies_file, bind, datetime_now.
  change (path_join_str root "dependencies.gradle.kts") with f.
  destruct (backup_file _ f _ w) as [r w1] eqn:E.
  assert (Hname : "dependencies.gradle.kts" <> ".config_backup") by done.
  destruct (backup_before_write root "dependencies.gradle.kts" _ w data mt r w1
              Hname Hsrc E)
    as (C1 & K1 & [(-> & Hc & Ht & k & Hb & Hk & Hf)|[e ->]]).
  - left.
    change (mkWorld (cwd w1) (fs w1) (clock w1) (S (ticks w1))) with (tick w1).
    rewrite (write_text_file _ _ (tick w1) data mt) by exact K1.
    cbn [fst snd fs set_fs]. rewrite Hc, Ht.
    split; [done|]. split.
    + eexists. unfold node_at.
      rewrite (abs_key_cwd (tick w1)) by reflexivity. cbn [fs set_fs].
      apply lookup_insert_eq.
    + exists k. split; [exact Hb|].
      change (fs (tick w1)) with (fs w1).
      rewrite lookup_insert_ne; [exact Hf|].
      change (abs_key (tick w1) f) with (abs_key w1 f).
      rewrite (abs_key_cwd w w1) by done. unfold f. congruence.
  - right. exists e. done.
Qed.

(** X15. Undoing [fix_root_build_config]: in a state ready for the
    capture of build.gradle.kts, the root being a directory, the call ends
    normally, and [restore_backup] on the stored copy (named by the second
    reading of the clock), with no target, returns [True] and gives the file
    the bytes and the modification time it had before the call. *)
Theorem fix_root_build_config_undone (root : Path)
  (content_at : datetime -> string) (w : world) :
  let f := under root ["build.gradle.kts"] in
  let stored := under root (stored_rel ["build.gradle.kts"] (clock w (S (ticks w)))) in
  capture_ready root ["build.gradle.kts"] (tick w) = true ->
  is_dir (node_at w root) = true ->
  exists w1 w2,
    fix_root_build_config root content_at w = (Ok tt, w1)
    /\ (exists mt', node_at w1 f
                    = Some (File (content_at (clock w (ticks w))) mt'))
    /\ restore_backup (manager_of root) stored None w1 = (Ok true, w2)
    /\ node_at w2 f = node_at w f.
Proof.
  intros f stored Hready Hroot.
  destruct (backup_file_ready root ["build.gradle.kts"] "修复根构建配置" (tick w) Hready)
    as (data & mt & l & w1 & Hsrc & _ & E & Hst & _ & Hcwd & _).
  change (clock (tick w) (ticks (tick w))) with (clock w (S (ticks w))) in E.
  fold f stored in E, Hsrc.
  assert (Hnl : abs_key (tick w) f <> backup_log_key (tick w) root).
  { unfold f. rewrite abs_key_under. unfold backup_log_key. intros H.
    apply app_inv_head in H. done. }
  destruct (backup_file_source_kept _ _ _ _ _ _ _ E Hsrc Hnl) as [_ K1].
  set (w1' := set_fs w1 (<[abs_key w1 f := File (content_at (clock w (ticks w)))
                                             (os_time w1)]> (fs w1))).
  assert (Hrun : fix_root_build_config root content_at w = (Ok tt, w1')).
  { unfold fix_root_build_config, bind, datetime_now.
    change (mkWorld (cwd w) (fs w) (clock w) (S (ticks w))) with (tick w).
    change (path_join_str root "build.gradle.kts") with f.
    rewrite E. by rewrite (write_text_file _ _ _ _ _ K1). }
  assert (Hkf : abs_key w1 f = abs_key w f).
  { apply abs_key_cwd. exact Hcwd. }
  assert (Hks : abs_key w1 stored = stored_key (tick w) root ["build.gradle.kts"]).
  { rewrite (abs_key_cwd (tick w) w1) by exact Hcwd. unfold stored.
    rewrite abs_key_under. reflexivity. }
  assert (Hst1 : node_at w1' stored = Some (File data mt)).
  { unfold node_at. rewrite (abs_key_cwd w1 w1') by reflexivity.
    cbn [w1' fs set_fs]. rewrite lookup_insert_ne.
    - rewrite Hks. exact Hst.
    - rewrite Hks, Hkf. unfold f. rewrite abs_key_under.
      apply (source_not_stored (tick w)). }
  assert (Hroot1 : exists dm, node_at w1' root = Some (Dir dm)).
  { destruct (node_at w root) as [[|dm]|] eqn:Er; try done. exists dm.
    unfold node_at in *. rewrite (abs_key_cwd w1 w1') by reflexivity.
    cbn [w1' fs set_fs]. rewrite lookup_insert_ne.
    - rewrite (abs_key_cwd (tick w) w1) by exact Hcwd.
      assert (Hb : below (backup_dir_key (tick w) root) (abs_key (tick w) root) = false).
      { unfold below, backup_dir_key. apply bool_decide_eq_false.
        intros [Hp _]. apply prefix_length in Hp. rewrite length_app in Hp.
        simpl in Hp. lia. }
      assert (Hd : exists dm', fs (tick w) !! backup_dir_key (tick w) root
                               = Some (Dir dm')).
      { unfold capture_ready in Hready.
        repeat (apply andb_prop in Hready as [Hready ?]).
        destruct (fs (tick w) !! backup_dir_key (tick w) root) as [[|dm']|]; try done.
        eauto. }
      destruct Hd as [dm' Hd].
      rewrite (backup_file_outside _ _ _ _ _ _ _ _ E Hd Hb). exact Er.
    - rewrite Hkf, (abs_key_cwd w w1 root Hcwd). unfold f.
      rewrite abs_key_under. intros H.
      apply (f_equal List.length) in H. rewrite length_app in H.
      simpl in H. lia. }
  destruct Hroot1 as [dm Hroot1].
  destruct (restore_top_level root "build.gradle.kts" (clock w (S (ticks w))) w1'
              data mt dm) as (w2 & E2 & Hf & _); try done.
  { unfold node_at. rewrite (abs_key_cwd w1 w1') by reflexivity.
    cbn [w1' fs set_fs]. fold f. by rewrite lookup_insert_eq. }
  exists w1', w2. split; [exact Hrun|]. split.
  { eexists. unfold node_at. rewrite (abs_key_cwd w1 w1') by reflexivity.
    cbn [w1' fs set_fs]. apply lookup_insert_eq. }
  split; [exact E2|].
  fold f in Hf. rewrite Hf. symmetry. exact Hsrc.
Qed.

Lemma string_length_app a b :
  String.length (a +:+ b) = (String.length a + String.length b)%nat.
Proof.
  induction a as [|c a IH]; [reflexivity|].
  change (String c a +:+ b) with (String c (a +:+ b)).
  cbn [String.length]. by rewrite IH.
Qed.

(** X16. A file of the root whose own name holds [.backup.], say
    [a.backup.b], is captured under [a.backup.b.backup.<stamp>], and
    [split('.backup.')[0]] cuts that name at the first [.backup.]: the
    target [restore_backup] derives is [root / a], another file than the
    one captured. *)
Theorem default_target_of_backup_named_file (root : Path) (a b : string)
  (now : datetime) :
  let name := a +:+ ".backup." +:+ b in
  a <> "" -> Str.contains ".backup" a = false ->
  default_target (backup_path_of (manager_of root) (mkPath false [name]) now)
  = under root [a]
  /\ under root [a] <> under root [name].
Proof.
  intros name Ha Hc. split.
  - rewrite backup_path_of_under. cbn [removelast List.last app].
    unfold default_target.
    change [".config_backup"; name +:+ ".backup." +:+ strftime now]
      with ([".config_backup"] ++ [name +:+ ".backup." +:+ strftime now]).
    rewrite path_name_under_snoc, path_parent_under_snoc.
    unfold name. rewrite !string_app_assoc.
    rewrite prefix_before_stored by done.
    rewrite path_parent_under_top. by apply path_join_str_under.
  - intros H. apply under_inj in H. injection H as H.
    apply (f_equal String.length) in H. unfold name in H.
    rewrite !string_length_app in H. simpl in H. lia.
Qed.

(** *** The check of the environment *)

(** X17. [check_environment_requirements] never fails silently:
    [all_ok] holds exactly when Java and the Android SDK are installed (a
    Java that is not JDK 17 and a low memory only warn); when it does not
    hold, an issue that starts with the cross mark is reported; and no
    issue at all is reported exactly when Java is a JDK 17, the SDK is
    installed and the memory is at least 4096 MB. *)
Theorem check_environment_requirements_reports (env : EnvConfig) :
  let all_ok := fst (check_environment_requirements env) in
  let issues := snd (check_environment_requirements env) in
  (all_ok = true <-> java_installed env = true /\ android_sdk_installed env = true)
  /\ (all_ok = false -> exists i, i ∈ issues /\ Str.starts_with "❌" i = true)
  /\ (issues = [] <->
      java_installed env = true /\ java_is_jdk_17 env = true
      /\ android_sdk_installed env = true /\ 4096 <= memory_total_mb env)
  /\ (List.length issues <= 3)%nat.
Proof.
  destruct env as [ji j17 sdk mem]. unfold check_environment_requirements.
  cbn [java_installed java_is_jdk_17 android_sdk_installed memory_total_mb].
  destruct (Z.ltb_spec mem 4096) as [Hm|Hm];
    destruct ji, j17, sdk; cbn [negb app fst snd List.length];
    repeat split; try done; try lia; try (intros; intuition (try discriminate; lia));
    try (intros _;
         first [ eexists; split; [apply elem_of_cons; left; reflexivity|reflexivity]
               | eexists; split; [apply elem_of_cons; right;
                                  apply elem_of_cons; left; reflexivity
                                 |reflexivity] ]).
Qed.

(** X18. The thresholds of the two methods agree: the warning on low
    memory is among the issues exactly when [_load_configs] gives Gradle
    its smallest heap, [1024m]. *)
Theorem low_memory_warning_iff_smallest_heap (env : EnvConfig) :
  let mem := memory_total_mb env in
  let warning := "⚠️  系统内存较低 (" +:+ str_of_int mem +:+ "MB)，建议至少 8GB" in
  warning ∈ snd (check_environment_requirements env)
  <-> gradle_memory mem = "1024m".
Proof.
  destruct env as [ji j17 sdk mem]. unfold check_environment_requirements, gradle_memory.
  cbn [java_installed java_is_jdk_17 android_sdk_installed memory_total_mb].
  cbv zeta.
  destruct (Z.ltb_spec mem 4096) as [Hm|Hm].
  - rewrite (proj2 (Z.leb_gt 8192 mem)) by lia.
    rewrite (proj2 (Z.leb_gt 4096 mem)) by lia.
    split; [done|]. intros _.
    destruct ji, j17, sdk; cbn [negb app snd];
      repeat (apply elem_of_cons; first [by left | right]).
  - assert (Hg : (if 8192 <=? mem then "4096m"
                  else if 4096 <=? mem then "2048m" else "1024m") <> "1024m").
    { destruct (8192 <=? mem); [done|].
      rewrite (proj2 (Z.leb_le 4096 mem)) by lia. done. }
    split; [|done]. intros Hin. exfalso.
    destruct ji, j17, sdk; cbn [negb app snd] in Hin;
      repeat (apply elem_of_cons in Hin as [Hin|Hin];
              [vm_compute in Hin; discriminate Hin|]);
      by apply elem_of_nil in Hin.
Qed.

(** *** What a capture returns and what it appends *)

(** C5, as amended. For every existing source file [project_root / rel], in
    a state ready for the capture, [backup_file] returns the path of the
    stored copy (an [Optional[Path]], not the record): the path
    [backup_dir / <directory of rel> / <name>.backup.<stamp>], at which a
    regular file now holds the bytes and the modification time of the
    source; and it has appended to the log the record with the fields
    timestamp, original path, backup path (both relative to the project
    root), reason and size of the source. *)
Theorem backup_file_returns_path (root : Path) (rel : list string)
  (reason : string) (w : world) :
  capture_ready root rel w = true ->
  let self := manager_of root in
  exists backup_path backup_rel l e data mt w',
    node_at w (under root rel) = Some (File data mt)
    /\ read_log self w = Some l
    /\ backup_file self (under root rel) reason w = (Ok (Some backup_path), w')
    /\ to_py (Some backup_path) = PyPath backup_path
    /\ (forall e', to_py (Some backup_path) <> PyRecord e')
    /\ backup_path
       = under (backup_dir self)
           (removelast rel
              ++ [List.last rel "" +:+ ".backup." +:+ strftime (clock w (ticks w))])
    /\ node_at w' backup_path = Some (File data mt)
    /\ read_log self w' = Some (l ++ [e])
    /\ relative_to backup_path (project_root self) = Some backup_rel
    /\ e_timestamp e = isoformat (clock w (S (ticks w)))
    /\ e_original e = path_str (mkPath false rel)
    /\ e_backup e = path_str backup_rel
    /\ e_reason e = reason
    /\ e_size e = Z.of_nat (String.length data).
Proof.
  intros Hready self. subst self.
  destruct (backup_file_ready root rel reason w Hready)
    as (data & mt & l & w' & Hsrc & Hl & E & Hst & Hl' & Hcwd & _).
  exists (under root (stored_rel rel (clock w (ticks w)))),
         (mkPath false (stored_rel rel (clock w (ticks w)))),
         l, (log_entry_of rel reason data w), data, mt, w'.
  split; [exact Hsrc|]. split; [exact Hl|]. split; [exact E|].
  split; [reflexivity|]. split; [intros e' H; discriminate H|].
  split; [by rewrite under_backup_dir|].
  split.
  { unfold node_at. rewrite (abs_key_cwd w w') by done. by rewrite abs_key_under. }
  split; [exact Hl'|]. split; [apply relative_to_under|].
  repeat split.
Qed.

Lemma captures_returned_le {self : BackupManager} calls : forall w,
  (captures_returned self calls w <= List.length calls)%nat.
Proof.
  induction calls as [|c calls IH]; intros w; cbn [captures_returned List.length].
  - lia.
  - specialize (IH (snd (backup_file self (fst c) (snd c) w))).
    destruct (fst (backup_file self (fst c) (snd c) w)) as [[?|]|]; lia.
Qed.

(** The log after a sequence of captures: one entry more for each call
    that returned a path, none for the others. *)
Lemma run_captures_exact root calls : forall w l,
  read_log (manager_of root) w = Some l ->
  exists l', read_log (manager_of root) (run_captures (manager_of root) calls w)
             = Some (l ++ l')
             /\ List.length l' = captures_returned (manager_of root) calls w.
Proof.
  induction calls as [|[file_path reason] calls IH]; intros w l Hl;
    cbn [captures_returned]; simpl.
  - exists []. by rewrite app_nil_r.
  - destruct (backup_file (manager_of root) file_path reason w) as [r w'] eqn:E.
    cbn [fst snd].
    destruct (backup_file_log _ _ _ _ _ _ _ Hl E) as [(e & bp & -> & L)|[N L]].
    + destruct (IH _ _ L) as (l' & Hl' & Hlen).
      exists (e :: l'). rewrite <- app_assoc in Hl'. split; [done|].
      cbn [List.length]. by rewrite Hlen.
    + destruct (IH _ _ L) as (l' & Hl' & Hlen). exists l'. split; [done|].
      rewrite Hlen. destruct r as [[bp|]|]; [by destruct (N bp)|done|done].
Qed.

(** C4. Append-only monotonicity of the backup log. From a state whose log
    holds the entries [l]: after any sequence of captures the log holds [l]
    followed by exactly one new entry for each call that returned a path
    (none for a call that returned nothing or raised), so its length never
    decreases and no entry is rewritten or deleted; a capture in a state
    ready for it does return a path and appends the entry of that capture;
    and the retention sweep, whatever its outcome and whatever it removes,
    leaves the file backup_log.json in place with the same bytes, so the log
    lists the same entries. *)
Theorem backup_log_append_only (root : Path) (w : world) (l : list LogEntry) :
  let self := manager_of root in
  read_log self w = Some l ->
  (forall calls, exists l',
      read_log self (run_captures self calls w) = Some (l ++ l')
      /\ List.length l' = captures_returned self calls w
      /\ (List.length l' <= List.length calls)%nat
      /\ (List.length l <= List.length (l ++ l'))%nat)
  /\ (forall file_path reason backup_path,
        fst (backup_file self file_path reason w) = Ok (Some backup_path) ->
        exists e, read_log self (snd (backup_file self file_path reason w))
                  = Some (l ++ [e]))
  /\ (forall file_path reason,
        (forall backup_path,
           fst (backup_file self file_path reason w) <> Ok (Some backup_path)) ->
        read_log self (snd (backup_file self file_path reason w)) = Some l)
  /\ (forall rel reason,
        capture_ready root rel w = true ->
        exists backup_path data mt,
          node_at w (under root rel) = Some (File data mt)
          /\ fst (backup_file self (under root rel) reason w) = Ok (Some backup_path)
          /\ read_log self (snd (backup_file self (under root rel) reason w))
             = Some (l ++ [log_entry_of rel reason data w]))
  /\ (forall keep_days,
        node_at (snd (cleanup_old_backups self keep_days w)) (backup_log self)
        = node_at w (backup_log self)
        /\ read_log self (snd (cleanup_old_backups self keep_days w)) = Some l
        /\ fst (list_backups self (snd (cleanup_old_backups self keep_days w)))
           = Ok l).
Proof.
  intros self Hl. subst self. split; [|split; [|split; [|split]]].
  - intros calls. destruct (run_captures_exact root calls w l Hl) as (l' & H1 & H2).
    exists l'. split; [done|]. split; [done|]. split.
    + rewrite H2. apply captures_returned_le.
    + rewrite length_app. lia.
  - intros file_path reason backup_path Hr.
    destruct (backup_file _ _ _ w) as [r w'] eqn:E. simpl in *. subst r.
    destruct (backup_file_log _ _ _ _ _ _ _ Hl E) as [(e & bp & _ & L)|[N _]].
    + eauto.
    + by destruct (N backup_path).
  - intros file_path reason Hr.
    destruct (backup_file _ _ _ w) as [r w'] eqn:E. cbn [fst snd] in *.
    destruct (backup_file_log _ _ _ _ _ _ _ Hl E) as [(e & bp & -> & L)|[_ L]].
    + by destruct (Hr bp).
    + exact L.
  - intros rel reason Hready.
    destruct (backup_file_ready root rel reason w Hready)
      as (data & mt & l0 & w' & Hsrc & Hl0 & E & _ & Hl' & _).
    rewrite Hl in Hl0. injection Hl0 as <-.
    exists (under root (stored_rel rel (clock w (ticks w)))), data, mt.
    rewrite E. done.
  - intros keep_days.
    destruct (cleanup_old_backups _ keep_days w) as [r w'] eqn:E. cbn [snd].
    destruct (read_log_Some_file _ _ _ Hl) as (text & mt & Hf).
    destruct (cleanup_keeps _ _ _ _ _ (backup_log_key w root) E) as [C F].
    { rewrite last_backup_log_key. vm_compute. reflexivity. }
    { by rewrite Hf. }
    assert (L : read_log (manager_of root) w' = Some l).
    { rewrite <- Hl. by apply read_log_ext. }
    split; [|split; [done|]].
    + unfold node_at. rewrite (abs_key_cwd w w') by done.
      by rewrite backup_log_key_eq.
    + by rewrite (read_log_list_backups _ _ _ L).
Qed.

(** *** Everything a capture changes *)

Lemma log_backup_unreadable self original backup reason w :
  read_log self w = None ->
  exists e, _log_backup self original backup reason w = (Raise e, w).
Proof.
  intros Hl. rewrite log_backup_unfold. unfold read_log in Hl.
  destruct (node_at w (backup_log self)) as [[text lmt|]|]; [|eauto..].
  rewrite Hl. eauto.
Qed.

Lemma copy2_fs_outcome (src dst : list string) (m : FS) (r : result unit) (m' : FS) :
  copy2_fs src dst m = (r, m') ->
  (exists data mt, r = Ok tt /\ m !! src = Some (File data mt)
                   /\ m' = <[copy2_key src dst m := File data mt]> m)
  \/ (exists e, r = Raise e /\ m' = m).
Proof.
  unfold copy2_fs. intros H.
  destruct (_ && _); [injection H as <- <-; right; eauto|].
  destruct (m !! src) as [[data mt|smt]|] eqn:Es.
  - unfold store_file in H.
    destruct (m !! copy2_key src dst m) as [[]|].
    + injection H as <- <-. left. exists data, mt. done.
    + injection H as <- <-. right. eauto.
    + destruct (m !! removelast _) as [[]|]; injection H as <- <-.
      * right. eauto.
      * left. exists data, mt. done.
      * right. eauto.
  - injection H as <- <-. right. eauto.
  - injection H as <- <-. right. eauto.
Qed.

(** The nodes after [mkdir]: those that were there, and the directories
    made. *)
Lemma mkdir_rev_changes (mt : Z) (rk : list string) (m : FS) (r : result unit)
  (m' : FS) (k : list string) :
  mkdir_rev mt rk m = (r, m') ->
  m' !! k = m !! k
  \/ (m !! k = None /\ is_dir (m' !! k) = true /\ k `prefix_of` rev rk).
Proof.
  intros H. destruct (m' !! k) as [n|] eqn:E'.
  - destruct (mkdir_rev_inv _ _ _ _ _ _ _ H E') as [->|(-> & Hp & Hn)]; [by left|].
    right. done.
  - destruct (m !! k) as [n|] eqn:E; [|by left].
    pose proof (mkdir_rev_keeps _ _ _ _ _ _ _ H E). congruence.
Qed.

(** Every node after a capture of [root / rel] is the node that was there,
    or the log with one more entry, or the one copy, or a directory made on
    the way to it. *)
Lemma capture_steps_changes root rel reason w r w' :
  capture_steps root rel reason w = (r, w') ->
  let src := (abs_key w root ++ rel)%list in
  let stored := stored_key w root rel in
  let copy := if is_dir (fs w !! stored)
              then (stored ++ [List.last src ""])%list else stored in
  forall k,
    fs w' !! k = fs w !! k
    \/ (k = backup_log_key w root
        /\ exists l e, read_log (manager_of root) w = Some l
                       /\ read_log (manager_of root) w' = Some (l ++ [e]))
    \/ (k = copy /\ fs w' !! k = fs w !! src /\ is_file (fs w !! src) = true)
    \/ (fs w !! k = None /\ is_dir (fs w' !! k) = true
        /\ k `prefix_of` backup_dir_key w root ++ removelast rel).
Proof.
  intros H src stored copy k. unfold capture_steps in H.
  destruct (mkdir_parents _ (tick w)) as [r1 w1] eqn:E1.
  unfold mkdir_parents, lift_fs in E1.
  rewrite abs_key_tick, abs_key_under in E1.
  change (abs_key w root ++ ".config_backup" :: removelast rel)
    with (abs_key w root ++ [".config_backup"] ++ removelast rel) in E1.
  rewrite app_assoc in E1. fold (backup_dir_key w root) in E1.
  change (fs (tick w)) with (fs w) in E1.
  destruct (mkdir_rev _ _ (fs w)) as [r0 m1] eqn:E0. injection E1 as -> <-.
  assert (A1 : forall j, m1 !! j = fs w !! j
                 \/ (fs w !! j = None /\ is_dir (m1 !! j) = true
                     /\ j `prefix_of` backup_dir_key w root ++ removelast rel)).
  { intros j. destruct (mkdir_rev_changes _ _ _ _ _ j E0) as [?|(? & ? & Hp)];
      [by left|right]. by rewrite rev_involutive in Hp. }
  destruct r1 as [u1|e1].
  2:{ injection H as <- <-. cbn [fs set_fs].
      destruct (A1 k) as [?|?]; [by left|by do 3 right]. }
  assert (Est : stored = (backup_dir_key w root ++ removelast rel)
                         ++ [stored_name rel (clock w (ticks w))]).
  { unfold stored, stored_key. rewrite stored_key_split. by rewrite app_assoc. }
  assert (S1 : m1 !! stored = fs w !! stored).
  { eapply mkdir_rev_off_path; [exact E0|]. rewrite rev_involutive, Est.
    apply prefix_snoc_not. }
  destruct (copy2 _ _ _) as [r2 w2] eqn:E2.
  unfold copy2, lift_fs in E2.
  change (abs_key (set_fs (tick w) m1)) with (abs_key w) in E2.
  change (fs (set_fs (tick w) m1)) with m1 in E2.
  rewrite !abs_key_under in E2. fold src in E2.
  change (abs_key w root ++ stored_rel rel (clock w (ticks w))) with stored in E2.
  destruct (copy2_fs src stored m1) as [rc m2] eqn:Ec. injection E2 as -> <-.
  assert (Hcopy : copy2_key src stored m1 = copy).
  { unfold copy2_key, copy. by rewrite S1. }
  assert (Ncopy : copy <> backup_log_key w root).
  { unfold copy. destruct (is_dir _).
    - apply stored_into_not_log.
    - apply stored_key_not_log. }
  destruct (copy2_fs_outcome _ _ _ _ _ Ec) as [(data & mt & -> & Hs1 & ->)|(e2 & -> & ->)].
  2:{ injection H as <- <-. cbn [fs set_fs].
      destruct (A1 k) as [?|?]; [by left|by do 3 right]. }
  rewrite Hcopy in *.
  assert (Hsrc : fs w !! src = Some (File data mt)).
  { by apply (mkdir_rev_files _ _ _ _ _ _ _ _ E0). }
  set (m2 := <[copy := File data mt]> m1) in *.
  set (w2 := set_fs (set_fs (tick w) m1) m2) in *.
  destruct (_log_backup _ _ _ _ w2) as [r3 w3] eqn:E3.
  assert (Hw' : w' = w3) by (destruct r3; by injection H as _ <-).
  subst w'.
  pose proof (log_backup_effects _ _ _ _ _ _ _ E3) as (C3 & _ & F3).
  change (abs_key w2) with (abs_key w) in F3. rewrite backup_log_key_eq in F3.
  destruct (decide (k = backup_log_key w root)) as [->|Nlog].
  - (* the log *)
    assert (L2 : fs w2 !! backup_log_key w root = m1 !! backup_log_key w root).
    { cbn [w2 fs set_fs]. unfold m2. rewrite lookup_insert_ne by done. done. }
    destruct (read_log (manager_of root) w2) as [l|] eqn:R2.
    + destruct (log_backup_log _ _ _ _ _ _ _ _ R2 E3)
        as [(e & _ & L3)|(ex & _ & F & _)].
      * destruct (A1 (backup_log_key w root)) as [Hsame|(_ & Hd & _)].
        -- right. left. split; [done|]. exists l, e. split; [|done].
           rewrite <- R2. symmetry. apply read_log_ext; [done|].
           by rewrite L2.
        -- exfalso. unfold read_log, node_at in R2.
           change (abs_key w2) with (abs_key w) in R2.
           rewrite backup_log_key_eq, L2 in R2.
           by destruct (m1 !! backup_log_key w root) as [[]|].
      * rewrite F, L2. destruct (A1 (backup_log_key w root)) as [?|?];
          [by left|by do 3 right].
    + destruct (log_backup_unreadable (manager_of root) (under root rel)
                  (under root (stored_rel rel (clock w (ticks w)))) reason w2 R2)
        as (e & E3').
      rewrite E3' in E3. injection E3 as _ <-. rewrite L2.
      destruct (A1 (backup_log_key w root)) as [?|?]; [by left|by do 3 right].
  - rewrite (F3 k Nlog). cbn [w2 fs set_fs]. unfold m2.
    destruct (decide (k = copy)) as [->|Nc].
    + rewrite lookup_insert_eq. do 2 right. left.
      split; [done|]. rewrite Hsrc. done.
    + rewrite lookup_insert_ne by done.
      destruct (A1 k) as [?|?]; [by left|by do 3 right].
Qed.

(** C10, as amended. For every existing source file other than the backup
    log itself, [backup_file] leaves the source as it was, whatever the
    outcome; once the backup directory exists, nothing outside it changes;
    a source that is not below the root changes nothing at all; and for a
    source [root / rel] every node of the file system after the call is
    the node that was there before (nothing is deleted or rewritten), with
    these exceptions only: the log, which holds one more entry; the one
    copy (at the stored path, or inside it under the name of the source when
    a directory stands there), which holds the bytes and the modification
    time of the source; and directories that did not exist, made on the way
    from the backup directory to the directory of the copy. *)
Theorem backup_file_frame (root file_path : Path) (reason : string) (w : world) :
  let self := manager_of root in
  let out := backup_file self file_path reason w in
  is_file (node_at w file_path) = true ->
  abs_key w file_path <> abs_key w (backup_log self) ->
  node_at (snd out) file_path = node_at w file_path
  /\ (is_dir (node_at w (backup_dir self)) = true ->
      forall k, below (abs_key w (backup_dir self)) k = false ->
                fs (snd out) !! k = fs w !! k)
  /\ (relative_to file_path root = None -> fs (snd out) = fs w)
  /\ (forall rel, file_path = under root rel ->
      let stored := stored_key w root rel in
      let copy := if is_dir (fs w !! stored)
                  then (stored ++ [List.last (abs_key w file_path) ""])%list
                  else stored in
      forall k,
        fs (snd out) !! k = fs w !! k
        \/ (k = abs_key w (backup_log self)
            /\ exists l e, read_log self w = Some l
                           /\ read_log self (snd out) = Some (l ++ [e]))
        \/ (k = copy /\ fs (snd out) !! k = node_at w file_path)
        \/ (fs w !! k = None /\ is_dir (fs (snd out) !! k) = true
            /\ k `prefix_of` abs_key w (backup_dir self) ++ removelast rel)).
Proof.
  intros self out Hfile Hlog. subst self out.
  destruct (backup_file _ _ _ w) as [r w'] eqn:E. cbn [snd].
  rewrite backup_log_key_eq in Hlog. split; [|split; [|split]].
  - destruct (node_at w file_path) as [n|] eqn:Hn; [|done].
    by destruct (backup_file_source_kept _ _ _ _ _ _ _ E Hn Hlog) as [_ ->].
  - unfold node_at. rewrite backup_dir_key_eq. intros Hd k Hk.
    destruct (fs w !! backup_dir_key w root) as [[|dm]|] eqn:Hdir; try done.
    eauto using backup_file_outside.
  - intros Hrel. rewrite backup_file_unfold in E.
    change (project_root (manager_of root)) with root in E. rewrite Hrel in E.
    destruct (bool_decide _); by injection E as _ <-.
  - intros rel -> k.
    rewrite backup_file_under in E.
    2:{ destruct (node_at w (under root rel)); [eauto|done]. }
    rewrite backup_log_key_eq, backup_dir_key_eq.
    pose proof (capture_steps_changes _ _ _ _ _ _ E k) as Hk.
    cbv zeta in Hk. unfold node_at. rewrite abs_key_under.
    destruct Hk as [?|[?|[(? & ? & _)|?]]]; auto.
Qed.

(** *** Two sweeps in a row *)

(** C7, as amended. After a sweep that ended normally no node below the
    backup directory whose name matches [*.backup.*] is older than the
    cutoff of that sweep.  A second sweep with the same [keep_days], with
    no capture in between, ends normally and removes nothing, neither a file
    nor a directory (the file system is left as the first sweep left it),
    provided no stored backup passes the cutoff between the two runs: every
    matching node that is older than the cutoff of the second run was older
    than the cutoff of the first.  This holds in particular when both runs
    read the same time. *)
Theorem cleanup_idempotent (root : Path) (keep_days : Z) (w w1 : world) :
  let self := manager_of root in
  let d := backup_dir_key w root in
  let cutoff1 := cutoff_of (clock w (ticks w)) keep_days in
  let cutoff2 := cutoff_of (clock w1 (ticks w1)) keep_days in
  cleanup_old_backups self keep_days w = (Ok tt, w1) ->
  (forall k, k ∈ found_backups (fs w1) d -> expired_node (fs w1) cutoff1 k = false)
  /\ ((forall k, k ∈ found_backups (fs w1) d ->
                 expired_node (fs w1) cutoff2 k = true ->
                 expired_node (fs w1) cutoff1 k = true) ->
      cleanup_old_backups self keep_days w1 = (Ok tt, tick w1)
      /\ fs (snd (cleanup_old_backups self keep_days w1)) = fs w1)
  /\ (timestamp (clock w1 (ticks w1)) = timestamp (clock w (ticks w)) ->
      cleanup_old_backups self keep_days w1 = (Ok tt, tick w1)
      /\ fs (snd (cleanup_old_backups self keep_days w1)) = fs w1).
Proof.
  intros self d cutoff1 cutoff2 Hfirst. subst self.
  destruct (cleanup_loops _ _ _ _ _ Hfirst) as (rA & wA & E1 & CA & Hrest).
  fold d cutoff1 in E1, Hrest.
  destruct rA as [[]|e]; [|by destruct Hrest].
  destruct Hrest as (_ & E2).
  pose proof (sweep_loop_frame _ _ _ _ _ E1) as (_ & _ & _ & F1).
  pose proof (sweep_loop_post _ _ _ _ E1) as P1.
  pose proof (prune_loop_frame _ _ _ _ E2) as (_ & CF & _ & _ & F2).
  pose proof (prune_loop_post _ _ _ (StronglySorted_merge_sort deeper _) E2) as P2.
  change (fs (tick w)) with (fs w) in *.
  assert (Hcwd : cwd w1 = cwd w) by (rewrite CF; exact CA).
  assert (Hd : abs_key w1 (backup_dir (manager_of root)) = d).
  { rewrite (abs_key_cwd w w1) by exact Hcwd. apply backup_dir_key_eq. }
  assert (Hsurv : forall k n, fs w1 !! k = Some n ->
                    fs wA !! k = Some n /\ fs w !! k = Some n).
  { intros k n Hk.
    assert (HA : fs wA !! k = Some n).
    { destruct (F2 k) as [<-|(_ & _ & Hn)]; [done|congruence]. }
    split; [done|].
    destruct (F1 k) as [<-|(_ & _ & Hn)]; [done|congruence]. }
  assert (Hsurv_dir : forall k, is_dir (fs w1 !! k) = true ->
                        is_dir (fs wA !! k) = true /\ is_dir (fs w !! k) = true).
  { intros k Hk. destruct (fs w1 !! k) as [n|] eqn:En; [|done].
    destruct (Hsurv k n En) as [-> ->]. done. }
  assert (Hpost : forall k, k ∈ found_backups (fs w1) d ->
                    expired_node (fs w1) cutoff1 k = false).
  { intros k Hk. apply elem_of_found_backups in Hk as (Hc & Hdd & Hb & [n Hn]).
    destruct (Hsurv k n Hn) as [HA Hw].
    destruct (Hsurv_dir d Hdd) as [_ Hdw].
    assert (Hin : k ∈ found_backups (fs w) d).
    { apply elem_of_found_backups. rewrite Hw. eauto. }
    specialize (P1 k Hin). unfold expired_node in *.
    rewrite HA in P1. by rewrite Hn. }
  assert (Hsecond :
    (forall k, k ∈ found_backups (fs w1) d ->
               expired_node (fs w1) cutoff2 k = true ->
               expired_node (fs w1) cutoff1 k = true) ->
    cleanup_old_backups (manager_of root) keep_days w1 = (Ok tt, tick w1)).
  { intros Hpass. rewrite cleanup_unfold. cbv zeta. rewrite Hd. fold cutoff2.
    rewrite (sweep_loop_noop cutoff2 (found_backups (fs w1) d) (tick w1)).
    2:{ intros k Hk. change (fs (tick w1)) with (fs w1). split.
        - apply elem_of_found_backups in Hk. tauto.
        - destruct (expired_node (fs w1) cutoff2 k) eqn:Ex; [|done].
          specialize (Hpass k Hk Ex). by rewrite (Hpost k Hk) in Hpass. }
    change (abs_key (tick w1) (backup_dir (manager_of root)))
      with (abs_key w1 (backup_dir (manager_of root))).
    rewrite Hd. change (fs (tick w1)) with (fs w1).
    rewrite (prune_loop_noop _ (tick w1)); [reflexivity|].
    intros k Hk Hdk. change (fs (tick w1)) with (fs w1) in *.
    rewrite merge_sort_Permutation in Hk.
    apply elem_of_dirs_below in Hk as (_ & Hdd & Hb).
    apply P2; [|done].
    rewrite merge_sort_Permutation. apply elem_of_dirs_below.
    destruct (Hsurv_dir k Hdk) as [-> _]. destruct (Hsurv_dir d Hdd) as [-> _]. done. }
  split; [exact Hpost|]. split.
  - intros Hpass. rewrite (Hsecond Hpass). done.
  - intros Hclock.
    assert (Hcut : cutoff2 = cutoff1).
    { unfold cutoff1, cutoff2, cutoff_of. by rewrite Hclock. }
    rewrite Hsecond; [done|]. intros k _. by rewrite Hcut.
Qed.

(** *** What a restore reads *)

Lemma removelast_prefix {A} (l : list A) : removelast l `prefix_of` l.
Proof.
  destruct l as [|a l]; [done|].
  assert (Hne : a :: l <> []) by done.
  rewrite (app_removelast_last a Hne) at 2. by apply prefix_app_r.
Qed.

Lemma abs_key_parent_prefix w t : abs_key w (path_parent t) `prefix_of` abs_key w t.
Proof.
  unfold abs_key, path_parent. cbn [anchored parts].
  destruct (anchored t).
  - apply removelast_prefix.
  - apply prefix_app, removelast_prefix.
Qed.

(** [mkdir] looks only at the directory asked for and at its ancestors: two
    file systems that differ at another place [k] get the same outcome, and
    still differ at [k] only. *)
Lemma mkdir_rev_agree (mt : Z) (k : list string) (rk : list string) :
  forall (m1 m2 : FS) (r : result unit) (m1' : FS),
  (forall j, j <> k -> m1 !! j = m2 !! j) ->
  ~ k `prefix_of` rev rk ->
  mkdir_rev mt rk m1 = (r, m1') ->
  exists m2' : FS,
    mkdir_rev mt rk m2 = (r, m2')
    /\ (forall j, j <> k -> m1' !! j = m2' !! j)
    /\ m1' !! k = m1 !! k /\ m2' !! k = m2 !! k.
Proof.
  induction rk as [|x rk IH]; intros m1 m2 r m1' Hag Hk H; cbn [mkdir_rev] in *.
  - assert (Hne : rev [] <> k) by (intros <-; by apply Hk).
    rewrite <- (Hag _ Hne).
    destruct (m1 !! rev []) as [[]|]; injection H as <- <-; eauto.
  - assert (Hne : rev (x :: rk) <> k) by (intros <-; by apply Hk).
    assert (Hk' : ~ k `prefix_of` rev rk).
    { intros Hp. apply Hk. cbn [rev]. by apply prefix_app_r. }
    assert (Hne' : rev rk <> k) by (intros <-; by apply Hk').
    assert (Hins : forall a1 a2 : FS,
              (forall j, j <> k -> a1 !! j = a2 !! j) ->
              (forall j, j <> k ->
                 <[rev (x :: rk) := Dir mt]> a1 !! j = <[rev (x :: rk) := Dir mt]> a2 !! j)
              /\ <[rev (x :: rk) := Dir mt]> a1 !! k = a1 !! k
              /\ <[rev (x :: rk) := Dir mt]> a2 !! k = a2 !! k).
    { intros a1 a2 Ha. split; [|split].
      - intros j Hj. destruct (decide (j = rev (x :: rk))) as [->|Hn].
        + by rewrite !lookup_insert_eq.
        + rewrite !lookup_insert_ne by done. by apply Ha.
      - by rewrite lookup_insert_ne.
      - by rewrite lookup_insert_ne. }
    rewrite <- (Hag _ Hne).
    destruct (m1 !! rev (x :: rk)) as [[]|]; try (injection H as <- <-; eauto).
    rewrite <- (Hag _ Hne').
    destruct (m1 !! rev rk) as [[]|].
    + injection H as <- <-. eauto.
    + injection H as <- <-. destruct (Hins m1 m2 Hag) as (? & ? & ?). eauto.
    + destruct (mkdir_rev mt rk m1) as [r0 m0] eqn:E0.
      destruct (IH _ _ _ _ Hag Hk' E0) as (m0' & E0' & Hag0 & K1 & K2).
      rewrite E0'.
      destruct r0 as [u|e]; injection H as <- <-.
      * destruct (Hins m0 m0' Hag0) as (Ha & Hb & Hc).
        eexists. split; [reflexivity|]. split; [exact Ha|].
        split; [exact (eq_trans Hb K1)|exact (eq_trans Hc K2)].
      * eauto.
Qed.

(** [shutil.copy2] looks only at the source, at the destination, inside it
    under the name of the source, and at its directory. *)
Lemma copy2_fs_agree (k src dst : list string) (m1 m2 : FS) (r : result unit)
  (m1' : FS) :
  (forall j, j <> k -> m1 !! j = m2 !! j) ->
  src <> k -> dst <> k -> (dst ++ [List.last src ""])%list <> k ->
  removelast dst <> k ->
  copy2_fs src dst m1 = (r, m1') ->
  exists m2' : FS,
    copy2_fs src dst m2 = (r, m2')
    /\ (forall j, j <> k -> m1' !! j = m2' !! j)
    /\ m1' !! k = m1 !! k /\ m2' !! k = m2 !! k.
Proof.
  intros Hag Hsrc Hdst Hinto Hpar H.
  assert (Hkey : copy2_key src dst m2 = copy2_key src dst m1).
  { unfold copy2_key. by rewrite (Hag dst Hdst). }
  assert (Nk : copy2_key src dst m1 <> k).
  { destruct (copy2_key_cases src dst m1) as [-> | ->]; done. }
  assert (Np : removelast (copy2_key src dst m1) <> k).
  { destruct (copy2_key_cases src dst m1) as [-> | ->]; [done|].
    by rewrite removelast_last. }
  unfold copy2_fs in *. rewrite Hkey.
  rewrite <- (Hag src Hsrc).
  destruct (_ && _); [injection H as <- <-; eauto|].
  destruct (m1 !! src) as [[data mt|]|]; try (injection H as <- <-; eauto).
  unfold store_file in *.
  rewrite <- (Hag _ Nk), <- (Hag _ Np).
  assert (Hins : (forall j, j <> k ->
                    <[copy2_key src dst m1 := File data mt]> m1 !! j
                    = <[copy2_key src dst m1 := File data mt]> m2 !! j)
                 /\ <[copy2_key src dst m1 := File data mt]> m1 !! k = m1 !! k
                 /\ <[copy2_key src dst m1 := File data mt]> m2 !! k = m2 !! k).
  { split; [|split].
    - intros j Hj. destruct (decide (j = copy2_key src dst m1)) as [->|Hn].
      + by rewrite !lookup_insert_eq.
      + rewrite !lookup_insert_ne by done. by apply Hag.
    - by rewrite lookup_insert_ne.
    - by rewrite lookup_insert_ne. }
  destruct Hins as (? & ? & ?).
  destruct (m1 !! copy2_key src dst m1) as [[]|];
    try (injection H as <- <-; eauto).
  destruct (m1 !! removelast (copy2_key src dst m1)) as [[]|];
    injection H as <- <-; eauto.
Qed.

(** [restore_backup] is blind to a place [k] that is neither the backup,
    nor the target or one of its ancestors, nor the target joined with the
    name of the backup: two states that differ at [k] only give the same
    result and final states that differ at [k] only, where each keeps what
    it had. *)
Lemma restore_backup_blind self backup_path target_path (w w' : world)
  (k : list string) :
  let t := restore_target backup_path target_path in
  cwd w' = cwd w -> clock w' = clock w -> ticks w' = ticks w ->
  (forall j, j <> k -> fs w' !! j = fs w !! j) ->
  abs_key w backup_path <> k ->
  ~ k `prefix_of` abs_key w t ->
  (abs_key w t ++ [List.last (abs_key w backup_path) ""])%list <> k ->
  fst (restore_backup self backup_path target_path w')
  = fst (restore_backup self backup_path target_path w)
  /\ (forall j, j <> k ->
        fs (snd (restore_backup self backup_path target_path w')) !! j
        = fs (snd (restore_backup self backup_path target_path w)) !! j)
  /\ fs (snd (restore_backup self backup_path target_path w')) !! k = fs w' !! k
  /\ fs (snd (restore_backup self backup_path target_path w)) !! k = fs w !! k.
Proof.
  intros t Hcwd Hclock Hticks Hag Hsrc Hpre Hinto.
  assert (Hkey : forall p, abs_key w' p = abs_key w p).
  { intros p. by apply abs_key_cwd. }
  assert (Hdst : abs_key w t <> k) by (intros <-; by apply Hpre).
  assert (Hpar : removelast (abs_key w t) <> k).
  { intros <-. apply Hpre, removelast_prefix. }
  assert (Hpk : ~ k `prefix_of` abs_key w (path_parent t)).
  { intros Hp. apply Hpre. etrans; [exact Hp|apply abs_key_parent_prefix]. }
  assert (Htime : os_time w' = os_time w).
  { unfold os_time. by rewrite Hclock, Hticks. }
  unfold restore_backup, bind, path_exists, node_at.
  rewrite Hkey, (Hag _ Hsrc).
  destruct (bool_decide (is_Some (fs w !! abs_key w backup_path))); cbn [negb].
  2:{ cbn [ret fst snd]. split; [done|]. split; [exact Hag|]. done. }
  fold t.
  unfold mkdir_parents, lift_fs. rewrite Hkey, Htime.
  destruct (mkdir_rev (os_time w) (rev (abs_key w (path_parent t))) (fs w))
    as [r1 m1] eqn:E1.
  assert (Hag' : forall j, j <> k -> fs w !! j = fs w' !! j).
  { intros j Hj. symmetry. by apply Hag. }
  destruct (mkdir_rev_agree _ k _ _ _ _ _ Hag' ltac:(by rewrite rev_involutive) E1)
    as (m1' & E1' & Hag1 & K1 & K1').
  rewrite E1'.
  destruct r1 as [u1|e1].
  2:{ cbn [fst snd fs set_fs]. split; [done|]. split; [|done].
      intros j Hj. symmetry. by apply Hag1. }
  unfold copy2, lift_fs.
  change (abs_key (set_fs w' m1')) with (abs_key w').
  change (abs_key (set_fs w m1)) with (abs_key w).
  rewrite !Hkey. cbn [fs set_fs].
  destruct (copy2_fs (abs_key w backup_path) (abs_key w t) m1) as [r2 m2] eqn:E2.
  destruct (copy2_fs_agree k _ _ _ _ _ _ Hag1 Hsrc Hdst Hinto Hpar E2)
    as (m2' & E2' & Hag2 & K2 & K2').
  rewrite E2'.
  destruct r2 as [u2|e2].
  2:{ cbn [fst snd fs set_fs]. split; [done|]. split; [|split; congruence].
      intros j Hj. symmetry. by apply Hag2. }
  unfold of_option.
  destruct (relative_to t (project_root self)); cbn [ret raise fst snd fs set_fs];
    (split; [done|]; split; [|split; congruence]);
    intros j Hj; symmetry; by apply Hag2.
Qed.

(** C3, as amended. Restoring a backup path that does not exist returns
    [False], raises nothing and leaves the whole state as it was.
    [restore_backup] never reads the log: when the path of the log is
    neither the backup, nor the target (given or derived) or one of its
    ancestors, nor the target joined with the name of the backup, any two
    states that differ only in what stands at the path of the log (another
    text, no file at all) give the same result and the same final files,
    and each keeps what it had at that path.  The log file keeps its node
    unless the copy lands on it; and when the target is the path of the log,
    the log is overwritten: it then holds the bytes and the modification
    time of the backup. *)
Theorem restore_backup_missing_and_log_frame (self : BackupManager)
  (backup_path : Path) (target_path : option Path) (w : world) :
  let t := restore_target backup_path target_path in
  let src := abs_key w backup_path in
  let dst := abs_key w t in
  let log := abs_key w (backup_log self) in
  let out := restore_backup self backup_path target_path w in
  (node_at w backup_path = None -> out = (Ok false, w))
  /\ (is_file (fs w !! log) = true ->
      dst <> log ->
      (dst ++ [List.last src ""])%list <> log ->
      fs (snd out) !! log = fs w !! log)
  /\ (src <> log -> ~ log `prefix_of` dst ->
      (dst ++ [List.last src ""])%list <> log ->
      forall w',
        cwd w' = cwd w -> clock w' = clock w -> ticks w' = ticks w ->
        (forall k, k <> log -> fs w' !! k = fs w !! k) ->
        fst (restore_backup self backup_path target_path w') = fst out
        /\ (forall k, k <> log ->
              fs (snd (restore_backup self backup_path target_path w')) !! k
              = fs (snd out) !! k)
        /\ fs (snd (restore_backup self backup_path target_path w')) !! log
           = fs w' !! log
        /\ fs (snd out) !! log = fs w !! log)
  /\ (forall data mt,
        node_at w backup_path = Some (File data mt) ->
        dst = log -> src <> log -> parts t <> [] ->
        is_dir (fs w !! abs_key w (path_parent t)) = true ->
        is_dir (fs w !! log) = false ->
        fs (snd out) !! log = Some (File data mt)
        /\ fst out = match relative_to t (project_root self) with
                     | Some _ => Ok true
                     | None => Raise ValueError
                     end).
Proof.
  intros t src dst log out. subst out. split; [|split; [|split]].
  - intros Hnone. unfold restore_backup, bind, path_exists. rewrite Hnone.
    rewrite bool_decide_eq_false_2; [reflexivity|]. by intros [? ?].
  - intros Hfile Hdst Hdst'.
    unfold restore_backup, bind, path_exists, ret.
    destruct (bool_decide _); simpl; [|reflexivity].
    fold (restore_target backup_path target_path). fold t.
    destruct (mkdir_parents _ w) as [r1 w1] eqn:E1.
    assert (Hcwd : cwd w1 = cwd w) by eauto using mkdir_parents_cwd.
    assert (Hlog1 : fs w1 !! log = fs w !! log).
    { destruct (fs w !! log) as [n|] eqn:En; [|done].
      eauto using mkdir_parents_keeps. }
    destruct r1 as [u|e]; simpl; [|done].
    destruct (copy2 _ _ w1) as [r2 w2] eqn:E2.
    assert (Hlog2 : fs w2 !! log = fs w1 !! log).
    { eapply copy2_other; [exact E2|..];
        rewrite !(abs_key_cwd w w1) by done; done. }
    destruct r2 as [u2|e]; simpl; [|congruence].
    unfold of_option. destruct (relative_to _ _); simpl; congruence.
  - intros Hsrc Hpre Hinto w' Hcwd Hclock Hticks Hag.
    apply (restore_backup_blind self backup_path target_path w w' log); done.
  - intros data mt Hbp Hdst Hsrc Hne Hpar Hnd.
    destruct (fs w !! abs_key w (path_parent t)) as [[|dm]|] eqn:Ep; try done.
    destruct (restore_steps self backup_path target_path w data mt
                (abs_key w (path_parent t)) dm [])
      as (w' & E & Hf & Hcwd & _); try done.
    + by rewrite app_nil_r.
    + intros p Hp. apply prefix_nil_inv in Hp as ->. rewrite app_nil_r.
      by rewrite Ep.
    + unfold node_at. fold t dst. by rewrite Hdst.
    + fold t dst src. by rewrite Hdst.
    + fold t in E, Hf. rewrite E. cbn [fst snd]. split; [|done].
      unfold node_at in Hf. rewrite (abs_key_cwd w w') in Hf by done.
      fold dst in Hf. by rewrite <- Hdst.
Qed.

End Extras.

Lemma backup_file_missing_is_noop_witness :
  node_at Demo.w1 Run.missing_file = None
  /\ backup_file Demo.self Run.missing_file "pre-fix" Demo.w1 = (Ok None, Demo.w1).
Proof.
  split; [vm_compute; reflexivity|].
  apply (backup_file_missing_is_noop Demo.self Run.missing_file "pre-fix" Demo.w1).
  vm_compute; reflexivity.
Defined.

(** C3, as stated, fails: a restore whose target is the log file returns
    [True] and replaces the log by the bytes of the backup. *)
Lemma restore_backup_overwrites_log :
  let log := backup_log Demo.self in
  let out := restore_backup Demo.self Run.stored (Some log) Run.w2 in
  fst out = Ok true
  /\ node_at (snd out) log = Some (File "plugins {}" 1000)
  /\ node_at (snd out) log <> node_at Run.w2 log.
Proof.
  vm_compute. split; [reflexivity|]. split; [reflexivity|]. intros H; discriminate H.
Qed.

(** C10, as stated, fails for one source: the capture of the backup log
    itself returns normally and the log, its own source, is rewritten. *)
Lemma backup_file_of_log_rewrites_source :
  let log := backup_log Demo.self in
  let out := backup_file Demo.self log "pre-fix" Demo.w1 in
  is_file (node_at Demo.w1 log) = true
  /\ (exists backup_path, fst out = Ok (Some backup_path))
  /\ node_at (snd out) log <> node_at Demo.w1 log.
Proof.
  vm_compute. split; [reflexivity|]. split; [eexists; reflexivity|].
  intros H; discriminate H.
Qed.

(** C9, as stated, fails for a path relative to the project root: with the
    absolute root the program uses, [build.gradle.kts] exists (the current
    directory is the project root) and [relative_to] raises [ValueError]. *)
Lemma backup_file_relative_path_raises :
  let file_path := mkPath false ["build.gradle.kts"] in
  fst (path_exists file_path Demo.w1) = Ok true
  /\ abs_key Demo.w1 file_path = abs_key Demo.w1 (under Demo.root ["build.gradle.kts"])
  /\ fst (backup_file Demo.self file_path "pre-fix" Demo.w1) = Raise ValueError.
Proof. vm_compute. repeat split; reflexivity. Qed.

Lemma backup_file_under_root_witness :
  capture_ready Demo.root ["config"; "build.gradle.kts"] Demo.w1 = true
  /\ exists w',
       backup_file Demo.self Run.nested_file "pre-fix" Demo.w1
       = (Ok (Some (mkPath true ["proj"; ".config_backup"; "config";
                                 "build.gradle.kts.backup.20240101_100000"])), w').
Proof.
  assert (H : capture_ready Demo.root ["config"; "build.gradle.kts"] Demo.w1 = true)
    by (vm_compute; reflexivity).
  split; [exact H|].
  destruct (backup_file_under_root Demo.root ["config"; "build.gradle.kts"]
              "pre-fix" Demo.w1 H) as (_ & (w' & E & _) & _).
  exists w'. exact E.
Defined.

(** C5, as stated, fails: what [backup_file] returns is the path of the
    copy, not the record it appended. *)
Lemma backup_file_returns_no_record :
  let out := backup_file Demo.self Run.root_file "pre-fix" Demo.w1 in
  fst out = Ok (Some Run.stored)
  /\ to_py (Some Run.stored) = PyPath Run.stored
  /\ (forall e, to_py (Some Run.stored) <> PyRecord e)
  /\ exists e, read_log Demo.self (snd out) = Some [e].
Proof.
  split; [vm_compute; reflexivity|]. split; [reflexivity|].
  split; [intros e H; discriminate H|].
  eexists. vm_compute. reflexivity.
Qed.

Lemma capture_uniqueness_witness :
  (exists p1 p2 w1 w2,
      backup_file Demo.self Run.root_file "first" Demo.w1 = (Ok (Some p1), w1)
      /\ backup_file Demo.self Run.root_file "second" Run.w2 = (Ok (Some p2), w2)
      /\ p1 <> p2)
  /\ (exists p w1 w2,
        backup_file Demo.self Run.root_file "first" Fast.w1 = (Ok (Some p), w1)
        /\ backup_file Demo.self Run.root_file "second" Fast.w2 = (Ok (Some p), w2)
        /\ node_at w2 p = node_at Fast.w2 Run.root_file).
Proof.
  assert (Ra : capture_ready Demo.root ["build.gradle.kts"] Demo.w1 = true)
    by (vm_compute; reflexivity).
  assert (Rb : capture_ready Demo.root ["build.gradle.kts"] Run.w2 = true)
    by (vm_compute; reflexivity).
  assert (Rc : capture_ready Demo.root ["build.gradle.kts"] Fast.w1 = true)
    by (vm_compute; reflexivity).
  assert (Rd : capture_ready Demo.root ["build.gradle.kts"] Fast.w2 = true)
    by (vm_compute; reflexivity).
  assert (Va : valid_datetime (clock Demo.w1 (ticks Demo.w1)))
    by (unfold valid_datetime; vm_compute; intuition discriminate).
  assert (Vb : valid_datetime (clock Run.w2 (ticks Run.w2)))
    by (unfold valid_datetime; vm_compute; intuition discriminate).
  assert (Vc : valid_datetime (clock Fast.w1 (ticks Fast.w1)))
    by (unfold valid_datetime; vm_compute; intuition discriminate).
  assert (Vd : valid_datetime (clock Fast.w2 (ticks Fast.w2)))
    by (unfold valid_datetime; vm_compute; intuition discriminate).
  split.
  - destruct (capture_uniqueness Demo.root ["build.gradle.kts"] "first" "second"
                Demo.w1 Run.w2 Ra Rb eq_refl Va Vb)
      as (p1 & p2 & l1 & l2 & e1 & e2 & w1 & w2 & E1 & E2 & _ & _ & _ & _ & _ & _ & Hfar & _).
    exists p1, p2, w1, w2. split; [exact E1|]. split; [exact E2|].
    apply Hfar. vm_compute. reflexivity.
  - destruct (capture_uniqueness Demo.root ["build.gradle.kts"] "first" "second"
                Fast.w1 Fast.w2 Rc Rd eq_refl Vc Vd)
      as (p1 & p2 & l1 & l2 & e1 & e2 & w1 & w2 & E1 & E2 & _ & _ & _ & _ & _ & _ & _ & Hsame).
    destruct Hsame as [-> Hn]; [vm_compute; repeat split|].
    exists p2, w1, w2. split; [exact E1|]. split; [exact E2|exact Hn].
Defined.

(** C1 at a file in a subdirectory: config/build.gradle.kts is captured,
    then deleted, then restored from the returned backup path with no
    target.  [restore_backup] returns [True], but the original path is still
    absent: the bytes were written to .config_backup/build.gradle.kts, the
    parent of the parent of the backup joined with the original name. *)
Theorem restore_backup_nested_misplaced :
  let captured := backup_file Demo.self Run.nested_file "pre-fix" Demo.w1 in
  let backup_path :=
    mkPath true ["proj"; ".config_backup"; "config";
                 "build.gradle.kts.backup.20240101_100000"] in
  let deleted := snd (unlink_key (parts Run.nested_file) (snd captured)) in
  let restored := restore_backup Demo.self backup_path None deleted in
  node_at Demo.w1 Run.nested_file = Some (File "android {}" 2000)
  /\ fst captured = Ok (Some backup_path)
  /\ node_at deleted Run.nested_file = None
  /\ fst restored = Ok true
  /\ node_at (snd restored) Run.nested_file = None
  /\ node_at (snd restored) (mkPath true ["proj"; ".config_backup"; "build.gradle.kts"])
     = Some (File "android {}" 2000).
Proof. vm_compute. repeat split; reflexivity. Qed.

(** The same round trip for a file directly in the project root gives the
    file back. *)
Lemma restore_backup_top_level_round_trip :
  let captured := backup_file Demo.self Run.root_file "pre-fix" Demo.w1 in
  let deleted := snd (unlink_key (parts Run.root_file) (snd captured)) in
  let restored := restore_backup Demo.self Run.stored None deleted in
  fst captured = Ok (Some Run.stored)
  /\ node_at deleted Run.root_file = None
  /\ fst restored = Ok true
  /\ node_at (snd restored) Run.root_file = node_at Demo.w1 Run.root_file.
Proof. vm_compute. repeat split; reflexivity. Qed.

(** C6, as stated, fails on what is returned: the sweep removes one stored
    backup and returns [None], not the count 1. *)
Lemma cleanup_returns_none :
  let out := cleanup_old_backups Demo.self 7 Still.w in
  is_file (node_at Still.w Run.stored) = true
  /\ fst out = Ok tt
  /\ node_at (snd out) Run.stored = None
  /\ to_py tt = PyNone
  /\ to_py tt <> PyInt 1.
Proof.
  vm_compute. repeat split; try reflexivity. intros H; discriminate H.
Qed.

Lemma cleanup_removes_expired_witness :
  exists w',
    cleanup_old_backups Demo.self 7 Still.w = (Ok tt, w')
    /\ fs w' !! parts Run.stored = None
    /\ fs w' !! parts Run.root_file = fs Still.w !! parts Run.root_file.
Proof.
  destruct (cleanup_removes_expired Demo.root 7 Still.w) as (w' & E & _ & Hf & _).
  - vm_compute. reflexivity.
  - intros k mt Hb Hc Hk. apply elem_of_map_to_list in Hk.
    set (l := map_to_list (fs Still.w)) in Hk. vm_compute in l. subst l.
    repeat (apply elem_of_cons in Hk as [Hk|Hk];
            [inversion Hk; subst; vm_compute in Hb; vm_compute in Hc;
             first [discriminate Hb|discriminate Hc]|]).
    by apply elem_of_nil in Hk.
  - exists w'. split; [exact E|]. split.
    + rewrite (Hf (parts Run.stored) "plugins {}" 1000) by (vm_compute; reflexivity).
      vm_compute. reflexivity.
    + rewrite (Hf (parts Run.root_file) "plugins {}" 1000) by (vm_compute; reflexivity).
      vm_compute. reflexivity.
Defined.

(** C7, as stated, fails when time passes between the two runs: a stored
    copy one second younger than the cutoff of the first run is kept by it
    and removed by the second run, two seconds later. *)
Lemma cleanup_second_run_removes_aged :
  let first := cleanup_old_backups Demo.self 7 Aging.w in
  let second := cleanup_old_backups Demo.self 7 (snd first) in
  fst first = Ok tt
  /\ is_file (node_at Aging.w Run.stored) = true
  /\ node_at (snd first) Run.stored = node_at Aging.w Run.stored
  /\ fst second = Ok tt
  /\ node_at (snd second) Run.stored = None.
Proof. vm_compute. repeat split; reflexivity. Qed.

Lemma default_target_of_stored_copy_witness :
  default_target
    (backup_path_of (manager_of Demo.root) (mkPath false ["config"; "build.gradle.kts"])
                    (Demo.at_10h 0))
  = mkPath true ["proj"; ".config_backup"; "build.gradle.kts"]
  /\ default_target
       (backup_path_of (manager_of Demo.root) (mkPath false ["config"; "build.gradle.kts"])
                       (Demo.at_10h 0))
     <> Run.nested_file.
Proof.
  destruct (default_target_of_stored_copy Demo.root ["config"; "build.gradle.kts"]
              (Demo.at_10h 0)) as [_ H].
  - vm_compute. discriminate.
  - vm_compute. reflexivity.
  - destruct H as [H1 H2]; [simpl; lia|]. split.
    + rewrite H1. vm_compute. reflexivity.
    + apply H2. vm_compute. discriminate.
Defined.

Lemma cleanup_leaves_no_empty_directory_witness :
  is_dir (fs Nested.w !! Nested.mirror) = true
  /\ exists w',
       cleanup_old_backups Demo.self 7 Nested.w = (Ok tt, w')
       /\ forall k, below (backup_dir_key Nested.w Demo.root) k = true ->
                    is_dir (fs w' !! k) = true -> has_entry (fs w') k = true.
Proof.
  split; [vm_compute; reflexivity|].
  exists (snd (cleanup_old_backups Demo.self 7 Nested.w)).
  assert (E : cleanup_old_backups (manager_of Demo.root) 7 Nested.w
              = (Ok tt, snd (cleanup_old_backups Demo.self 7 Nested.w)))
    by (vm_compute; reflexivity).
  split; [exact E|].
  apply (cleanup_leaves_no_empty_directory Demo.root 7 Nested.w _); [|exact E].
  vm_compute. reflexivity.
Defined.

Lemma cleanup_raises_on_expired_directory_witness :
  fst (cleanup_old_backups Demo.self 7 Blocked.w) = Raise IsADirectoryError
  /\ fs (snd (cleanup_old_backups Demo.self 7 Blocked.w)) !! Blocked.old_dir
     = Some (Dir 0).
Proof.
  destruct (cleanup_raises_on_expired_directory Demo.root 7 Blocked.w
              Blocked.old_dir 0) as [H1 H2].
  - vm_compute. reflexivity.
  - vm_compute. reflexivity.
  - vm_compute. reflexivity.
  - vm_compute. reflexivity.
  - vm_compute. reflexivity.
  - split; [exact H1|]. rewrite H2; vm_compute; reflexivity.
Defined.

Lemma restore_backup_copies_to_target_witness :
  exists w',
    restore_backup Demo.self Run.stored (Some Run.missing_file) Run.w2 = (Ok true, w')
    /\ node_at w' Run.missing_file = Some (File "plugins {}" 1000)
    /\ node_at w' Run.stored = Some (File "plugins {}" 1000).
Proof.
  destruct (restore_backup_copies_to_target Demo.self Run.stored
              (Some Run.missing_file) Run.w2 "plugins {}" 1000 ["proj"] [] 0)
    as (w' & E & Ht & Hb & _).
  - vm_compute. reflexivity.
  - vm_compute. eauto.
  - vm_compute. discriminate.
  - vm_compute. reflexivity.
  - vm_compute. reflexivity.
  - vm_compute. reflexivity.
  - vm_compute. reflexivity.
  - vm_compute. discriminate.
  - exists w'. split; [exact E|]. split; [exact Ht|exact Hb].
Defined.

Lemma restore_backup_relative_path_witness :
  let backup_path :=
    mkPath false [".config_backup"; "build.gradle.kts.backup.20240101_100000"] in
  let out := restore_backup Demo.self backup_path None Run.w2 in
  fst out <> Ok true
  /\ fst out = Raise ValueError
  /\ node_at (snd out) (mkPath false ["build.gradle.kts"])
     = Some (File "plugins {}" 1000).
Proof.
  intros backup_path out.
  destruct (restore_backup_relative_path Demo.root backup_path Run.w2)
    as [H1 H2]; [reflexivity|reflexivity|].
  split; [exact H1|].
  apply (H2 "plugins {}" 1000 ["proj"] [] 0).
  - vm_compute. reflexivity.
  - vm_compute. discriminate.
  - vm_compute. reflexivity.
  - vm_compute. reflexivity.
  - vm_compute. reflexivity.
  - vm_compute. reflexivity.
  - vm_compute. discriminate.
Defined.

Lemma capture_restore_round_trip_witness :
  exists backup_path w1,
    backup_file Demo.self Run.root_file "pre-fix" Demo.w1 = (Ok (Some backup_path), w1)
    /\ exists w3,
         restore_backup Demo.self backup_path None
           (snd (unlink_key (parts Run.root_file) w1)) = (Ok true, w3)
         /\ node_at w3 Run.root_file = Some (File "plugins {}" 1000).
Proof.
  destruct (capture_restore_round_trip Demo.root "build.gradle.kts" "pre-fix" Demo.w1)
    as (bp & w1 & E & _ & H).
  - discriminate.
  - vm_compute. reflexivity.
  - vm_compute. reflexivity.
  - exists bp, w1. split; [exact E|].
    assert (E' : backup_file Demo.self Run.root_file "pre-fix" Demo.w1
                 = (Ok (Some Run.stored), Run.w2)) by (vm_compute; reflexivity).
    pose proof (eq_trans (eq_sym E) E') as Ebp.
    apply pair_equal_spec in Ebp as [Hb Hw].
    injection Hb as ->. subst w1.
    destruct (H (snd (unlink_key (parts Run.root_file) Run.w2))) as (w3 & E3 & Hf).
    + vm_compute. reflexivity.
    + vm_compute. reflexivity.
    + vm_compute. reflexivity.
    + vm_compute. reflexivity.
    + exists w3. split; [exact E3|].
      etransitivity; [exact Hf|]. vm_compute. reflexivity.
Defined.

Lemma backup_of_old_file_is_swept_witness :
  exists backup_path w1 w2,
    backup_file Demo.self (under Demo.root ["build.gradle.kts"]) "pre-fix" Demo.w1
    = (Ok (Some backup_path), w1)
    /\ node_at w1 backup_path = Some (File "plugins {}" 1000)
    /\ cleanup_old_backups Demo.self 7 w1 = (Ok tt, w2)
    /\ node_at w2 backup_path = None
    /\ restore_backup Demo.self backup_path None w2 = (Ok false, w2).
Proof.
  destruct (backup_of_old_file_is_swept Demo.root ["build.gradle.kts"] "pre-fix" 7
              Demo.w1 "plugins {}" 1000)
    as (bp & w1 & w2 & l & E & Hst & E2 & Hgone & _ & _ & Hr).
  - vm_compute. reflexivity.
  - vm_compute. reflexivity.
  - vm_compute. reflexivity.
  - apply Forall_nil. exact I.
  - intros k dmt Hb Hc Hk. apply elem_of_map_to_list in Hk.
    set (m := map_to_list (fs Demo.w1)) in Hk. vm_compute in m. subst m.
    repeat (apply elem_of_cons in Hk as [Hk|Hk];
            [inversion Hk; subst; vm_compute in Hb; vm_compute in Hc;
             first [discriminate Hb|discriminate Hc]|]).
    by apply elem_of_nil in Hk.
  - exists bp, w1, w2. split; [exact E|]. split; [exact Hst|].
    split; [exact E2|]. split; [exact Hgone|exact Hr].
Defined.


Lemma backup_file_unreadable_log_witness :
  exists e w',
    backup_file Demo.self (under Demo.root ["build.gradle.kts"]) "pre-fix" NoLog.w
    = (Raise e, w')
    /\ fs w' !! parts Run.stored = Some (File "plugins {}" 1000)
    /\ read_log Demo.self w' = None.
Proof.
  destruct (backup_file_unreadable_log Demo.root ["build.gradle.kts"] "pre-fix"
              NoLog.w "plugins {}" 1000)
    as (e & w' & E & _ & Hst & Hl & _).
  - vm_compute. reflexivity.
  - vm_compute. reflexivity.
  - vm_compute. reflexivity.
  - vm_compute. reflexivity.
  - vm_compute. reflexivity.
  - exists e, w'. split; [exact E|]. split; [exact Hst|exact Hl].
Defined.

Lemma BackupManager_init_fresh_witness :
  exists w',
    BackupManager_init Demo.root Demo.w0 = (Ok Demo.self, w')
    /\ list_backups Demo.self w' = (Ok [], w').
Proof.
  destruct (BackupManager_init_fresh Demo.root Demo.w0) as [H _].
  - vm_compute. reflexivity.
  - vm_compute. reflexivity.
  - destruct H as (w' & E & _ & _ & _ & Hl); [vm_compute; reflexivity|].
    exists w'. split; [exact E|exact Hl].
Defined.

Lemma BackupManager_init_keeps_store_witness :
  BackupManager_init Demo.root Run.w2 = (Ok Demo.self, Run.w2).
Proof.
  destruct (BackupManager_init_keeps_store Demo.root Run.w2) as [H _].
  apply H.
  - vm_compute. reflexivity.
  - vm_compute. eauto.
Defined.

Lemma fix_root_build_config_keeps_old_witness :
  let out := fix_root_build_config Demo.root Gen.content_at Demo.w1 in
  (fst out = Ok tt
   /\ (exists mt', node_at (snd out) (under Demo.root ["build.gradle.kts"])
                   = Some (File (Gen.content_at (Demo.at_10h 0)) mt'))
   /\ exists k, below (backup_dir_key Demo.w1 Demo.root) k = true
                /\ fs (snd out) !! k = Some (File "plugins {}" 1000))
  \/ (exists e, fst out = Raise e
                /\ node_at (snd out) (under Demo.root ["build.gradle.kts"])
                   = Some (File "plugins {}" 1000)).
Proof.
  destruct (fix_root_build_config_keeps_old Demo.root Gen.content_at Demo.w1) as [H _].
  apply (H "plugins {}" 1000). vm_compute. reflexivity.
Defined.

Lemma create_unified_dependencies_file_keeps_old_witness :
  let out := create_unified_dependencies_file Demo.root Gen.content_at Gen.w in
  (fst out = Ok tt
   /\ (exists mt', node_at (snd out) (under Demo.root ["dependencies.gradle.kts"])
                   = Some (File (Gen.content_at (Demo.at_10h 2)) mt'))
   /\ exists k, below (backup_dir_key Gen.w Demo.root) k = true
                /\ fs (snd out) !! k = Some (File "object Libs" 3000))
  \/ (exists e, fst out = Raise e
                /\ node_at (snd out) (under Demo.root ["dependencies.gradle.kts"])
                   = Some (File "object Libs" 3000)).
Proof.
  apply (create_unified_dependencies_file_keeps_old Demo.root Gen.content_at Gen.w
           "object Libs" 3000).
  vm_compute. reflexivity.
Defined.

Lemma fix_root_build_config_undone_witness :
  exists w1 w2,
    fix_root_build_config Demo.root Gen.content_at Demo.w1 = (Ok tt, w1)
    /\ restore_backup Demo.self
         (under Demo.root (stored_rel ["build.gradle.kts"] (Demo.at_10h 1))) None w1
       = (Ok true, w2)
    /\ node_at w2 (under Demo.root ["build.gradle.kts"])
       = node_at Demo.w1 (under Demo.root ["build.gradle.kts"]).
Proof.
  destruct (fix_root_build_config_undone Demo.root Gen.content_at Demo.w1)
    as (w1 & w2 & E & _ & E2 & Hf).
  - vm_compute. reflexivity.
  - vm_compute. reflexivity.
  - exists w1, w2. split; [exact E|]. split; [exact E2|exact Hf].
Defined.

Lemma default_target_of_backup_named_file_witness :
  default_target
    (backup_path_of Demo.self (mkPath false ["settings.backup.old"]) (Demo.at_10h 0))
  = mkPath true ["proj"; "settings"].
Proof.
  destruct (default_target_of_backup_named_file Demo.root "settings" "old"
              (Demo.at_10h 0)) as [H _].
  - discriminate.
  - vm_compute. reflexivity.
  - exact H.
Defined.

Lemma backup_file_returns_path_witness :
  capture_ready Demo.root ["build.gradle.kts"] Demo.w1 = true
  /\ exists backup_path w',
       backup_file Demo.self Run.root_file "pre-fix" Demo.w1
       = (Ok (Some backup_path), w')
       /\ to_py (Some backup_path) = PyPath backup_path
       /\ backup_path = Run.stored
       /\ node_at w' backup_path = Some (File "plugins {}" 1000).
Proof.
  assert (H : capture_ready Demo.root ["build.gradle.kts"] Demo.w1 = true)
    by (vm_compute; reflexivity).
  split; [exact H|].
  destruct (backup_file_returns_path Demo.root ["build.gradle.kts"]
              "pre-fix" Demo.w1 H)
    as (bp & br & l & e & data & mt & w' & Hsrc & _ & E & P & _ & Hbp & Hst & _).
  assert (Hd : Some (File data mt) = Some (File "plugins {}" 1000)).
  { rewrite <- Hsrc. vm_compute. reflexivity. }
  exists bp, w'. split; [exact E|]. split; [exact P|]. split.
  - rewrite Hbp. vm_compute. reflexivity.
  - rewrite Hst. exact Hd.
Defined.

Lemma backup_log_append_only_witness :
  let e0 := log_entry_of ["build.gradle.kts"] "pre-fix" "plugins {}" Demo.w1 in
  let calls := [(Run.root_file, "first"); (Run.missing_file, "second");
                (Run.nested_file, "third")] in
  read_log Demo.self Still.w = Some [e0]
  /\ (exists l',
        read_log Demo.self (run_captures Demo.self calls Still.w) = Some ([e0] ++ l')
        /\ List.length l' = 2%nat)
  /\ (exists backup_path,
        fst (backup_file Demo.self Run.root_file "first" Still.w)
        = Ok (Some backup_path))
  /\ is_file (node_at Still.w Run.stored) = true
  /\ node_at (snd (cleanup_old_backups Demo.self 7 Still.w)) Run.stored = None
  /\ fst (list_backups Demo.self (snd (cleanup_old_backups Demo.self 7 Still.w)))
     = Ok [e0].
Proof.
  intros e0 calls.
  assert (H : read_log (manager_of Demo.root) Still.w = Some [e0])
    by (vm_compute; reflexivity).
  destruct (backup_log_append_only Demo.root Still.w [e0] H)
    as (Hseq & _ & _ & Hready & Hsweep).
  split; [exact H|]. split; [|split; [|split; [|split]]].
  - destruct (Hseq calls) as (l' & Hl' & Hcount & _).
    exists l'. split; [exact Hl'|]. rewrite Hcount. vm_compute. reflexivity.
  - destruct (Hready ["build.gradle.kts"] "first") as (bp & data & mt & _ & E & _).
    + vm_compute. reflexivity.
    + exists bp. exact E.
  - vm_compute. reflexivity.
  - vm_compute. reflexivity.
  - apply (Hsweep 7).
Defined.

Lemma backup_file_frame_witness :
  let out := backup_file Demo.self Run.root_file "again" Still.w in
  (exists backup_path, fst out = Ok (Some backup_path))
  /\ node_at (snd out) Run.root_file = node_at Still.w Run.root_file
  /\ fs (snd out) !! ["proj"; "config"; "build.gradle.kts"]
     = fs Still.w !! ["proj"; "config"; "build.gradle.kts"]
  /\ is_file (node_at Still.w Run.stored) = true
  /\ fs (snd out) !! parts Run.stored = fs Still.w !! parts Run.stored.
Proof.
  intros out.
  assert (H1 : is_file (node_at Still.w Run.root_file) = true)
    by (vm_compute; reflexivity).
  assert (H2 : abs_key Still.w Run.root_file
               <> abs_key Still.w (backup_log (manager_of Demo.root)))
    by (vm_compute; intros H; discriminate H).
  destruct (backup_file_frame Demo.root Run.root_file "again" Still.w H1 H2)
    as (Hsrc & Hout & _ & Hall).
  split; [eexists; vm_compute; reflexivity|].
  split; [exact Hsrc|].
  split; [apply Hout; vm_compute; reflexivity|].
  split; [vm_compute; reflexivity|].
  destruct (Hall ["build.gradle.kts"] eq_refl (parts Run.stored))
    as [Ha|[(Hk & _)|[(Hk & _)|(Hn & _)]]].
  - exact Ha.
  - vm_compute in Hk. discriminate Hk.
  - vm_compute in Hk. discriminate Hk.
  - vm_compute in Hn. discriminate Hn.
Defined.

Lemma cleanup_idempotent_witness :
  exists w1,
    cleanup_old_backups Demo.self 7 Creep.w = (Ok tt, w1)
    /\ timestamp (clock w1 (ticks w1)) <> timestamp (clock Creep.w (ticks Creep.w))
    /\ is_file (fs Creep.w !! parts Run.stored) = true
    /\ fs w1 !! parts Run.stored = None
    /\ is_file (fs w1 !! Creep.recent) = true
    /\ cleanup_old_backups Demo.self 7 w1 = (Ok tt, tick w1).
Proof.
  exists (snd (cleanup_old_backups Demo.self 7 Creep.w)).
  assert (E : cleanup_old_backups (manager_of Demo.root) 7 Creep.w
              = (Ok tt, snd (cleanup_old_backups Demo.self 7 Creep.w)))
    by (vm_compute; reflexivity).
  split; [exact E|].
  split; [vm_compute; intros H; discriminate H|].
  split; [vm_compute; reflexivity|].
  split; [vm_compute; reflexivity|].
  split; [vm_compute; reflexivity|].
  destruct (cleanup_idempotent Demo.root 7 Creep.w _ E) as (_ & Hgen & _).
  destruct Hgen as [Hsecond _]; [|exact Hsecond].
  intros k Hk Hex.
  set (found := found_backups _ _) in Hk. vm_compute in found. subst found.
  apply elem_of_cons in Hk as [Hk|Hk].
  - subst k. vm_compute in Hex. discriminate Hex.
  - apply elem_of_nil in Hk. destruct Hk.
Defined.

Lemma restore_backup_missing_and_log_frame_witness :
  let logk := ["proj"; ".config_backup"; "backup_log.json"] in
  let emptied :=
    mkWorld (cwd Run.w2) (<[logk := File "[]" 0]> (fs Run.w2))
            (clock Run.w2) (ticks Run.w2) in
  (node_at Run.w2 Run.missing_file = None
   /\ restore_backup Demo.self Run.missing_file None Run.w2 = (Ok false, Run.w2))
  /\ (fs emptied !! logk <> fs Run.w2 !! logk
      /\ fst (restore_backup Demo.self Run.stored None emptied)
         = fst (restore_backup Demo.self Run.stored None Run.w2)
      /\ fs (snd (restore_backup Demo.self Run.stored None emptied)) !! logk
         = Some (File "[]" 0)
      /\ fs (snd (restore_backup Demo.self Run.stored None Run.w2)) !! logk
         = fs Run.w2 !! logk)
  /\ fs (snd (restore_backup Demo.self Run.stored (Some (backup_log Demo.self)) Run.w2))
       !! logk
     = Some (File "plugins {}" 1000).
Proof.
  intros logk emptied. split; [|split].
  - split; [vm_compute; reflexivity|].
    pose proof (restore_backup_missing_and_log_frame
                  Demo.self Run.missing_file None Run.w2) as H.
    cbv zeta in H. destruct H as (H & _). apply H. vm_compute; reflexivity.
  - pose proof (restore_backup_missing_and_log_frame
                  Demo.self Run.stored None Run.w2) as H.
    cbv zeta in H. destruct H as (_ & _ & H & _).
    assert (Elog : abs_key Run.w2 (backup_log Demo.self) = logk)
      by (vm_compute; reflexivity).
    rewrite Elog in H.
    assert (H1 : abs_key Run.w2 Run.stored <> logk)
      by (vm_compute; intros E; discriminate E).
    assert (H2 : ~ logk `prefix_of` abs_key Run.w2 (restore_target Run.stored None)).
    { intros [p Hp]. vm_compute in Hp. discriminate Hp. }
    assert (H3 : (abs_key Run.w2 (restore_target Run.stored None)
                    ++ [List.last (abs_key Run.w2 Run.stored) ""])%list <> logk)
      by (vm_compute; intros E; discriminate E).
    assert (Hag : forall k, k <> logk -> fs emptied !! k = fs Run.w2 !! k).
    { intros k Hk. unfold emptied. cbn [fs]. by apply lookup_insert_ne. }
    destruct (H H1 H2 H3 emptied eq_refl eq_refl eq_refl Hag) as (Hr & _ & Hl' & Hl).
    split; [vm_compute; intros E; discriminate E|].
    split; [exact Hr|]. split; [|exact Hl].
    etransitivity; [exact Hl'|]. unfold emptied. cbn [fs]. apply lookup_insert_eq.
  - pose proof (restore_backup_missing_and_log_frame
                  Demo.self Run.stored (Some (backup_log Demo.self)) Run.w2) as H.
    cbv zeta in H. destruct H as (_ & _ & _ & H).
    assert (Elog : abs_key Run.w2 (backup_log Demo.self) = logk)
      by (vm_compute; reflexivity).
    rewrite Elog in H.
    destruct (H "plugins {}" 1000) as [Hover _].
    + vm_compute. reflexivity.
    + vm_compute. reflexivity.
    + vm_compute. intros E; discriminate E.
    + vm_compute. intros E; discriminate E.
    + vm_compute. reflexivity.
    + vm_compute. reflexivity.
    + exact Hover.
Defined.
